(** * Ricky autometer: fare engine, geo engine, mode selector and SOS machine

    A shallow embedding of the control core of the meter
    ([backend/gps_manager.py], [backend/fare_calculator.py],
    [backend/gpio_manager.py], [backend/sos_system.py]) together with the
    properties its specification states about it.

    Conventions of the embedding.
    - A Python [float] is an ideal real number ([R]): rounding error,
      infinities and NaN are outside the model.  Python's truth test of a
      float ([x != 0.0]) is [truthy].
    - A tuple [(lat, lon)] is a pair; [None] is [option]'s [None].
    - Every method takes the object state and returns the new state, the
      Qt signals it emitted (in order) and how it completed.
    - The clock readings [datetime.now()] and [time.time()] are inputs. *)

From Stdlib Require Import Reals Lra Lia ZArith Bool String Ascii List.
From Stdlib Require Import DecimalString DecimalPos DecimalZ.
From stdpp Require Import base option list.
Import ListNotations.

Local Open Scope R_scope.

(** ** Python numerics *)

Module PyNum.

(** [bool(x)] for a float. *)
Definition truthy (x : R) : bool := if Req_dec_T x 0 then false else true.

(** [all([...])] over floats. *)
Definition py_all (l : list R) : bool := forallb truthy l.

(** [math.radians]. *)
Definition radians (x : R) : R := x * (PI / 180).

(** [math.sqrt]: [ValueError] below zero. *)
Definition math_sqrt (x : R) : option R :=
  if Rlt_dec x 0 then None else Some (sqrt x).

(** [math.asin]: [ValueError] outside [-1, 1]. *)
Definition math_asin (x : R) : option R :=
  if Rlt_dec x (-1) then None
  else if Rlt_dec 1 x then None
  else Some (asin x).

(** Nearest integer, ties to the even one. *)
Definition round_half_even (y : R) : Z :=
  let f := Int_part y in
  let r := frac_part y in
  if Rlt_dec r (1 / 2) then f
  else if Rlt_dec (1 / 2) r then (f + 1)%Z
  else if Z.even f then f else (f + 1)%Z.

(** [round(x, ndigits)]. *)
Definition round (x : R) (ndigits : nat) : R :=
  IZR (round_half_even (x * 10 ^ ndigits)) / 10 ^ ndigits.

(** [int(x)]: truncation towards zero. *)
Definition int (x : R) : Z :=
  if Rle_dec 0 x then Int_part x else (- Int_part (- x))%Z.

(** [max(0, x)]. *)
Definition max0 (x : R) : R := if Rlt_dec 0 x then x else 0.

(** [str(n)] for an integer. *)
Definition str_int (z : Z) : string := NilZero.string_of_int (Z.to_int z).

End PyNum.

(** ** Geo engine: [GPSManager] *)

Definition location : Type := R * R.

Module GPSManager.

Record state := {
  current_location : location;
  previous_location : option location;
  current_speed : R;
  total_distance_traveled : R;
  trip_start_time : option R
}.

(** [__init__]: Mumbai default, nothing travelled. *)
Definition init : state := {|
  current_location := (19.0760, 72.8777);
  previous_location := None;
  current_speed := 0;
  total_distance_traveled := 0;
  trip_start_time := None
|}.

(** The [try] block of [calculate_distance]; [None] is a raised
    exception. *)
Definition haversine_try (lat1 lon1 lat2 lon2 : R) : option R :=
  let R_ := 6371.0 in
  let lat1 := PyNum.radians lat1 in
  let lon1 := PyNum.radians lon1 in
  let lat2 := PyNum.radians lat2 in
  let lon2 := PyNum.radians lon2 in
  let dlat := lat2 - lat1 in
  let dlon := lon2 - lon1 in
  let a := sin (dlat / 2) ^ 2 + cos lat1 * cos lat2 * sin (dlon / 2) ^ 2 in
  s ← PyNum.math_sqrt a;
  t ← PyNum.math_asin s;
  Some (2 * R_ * t).

Definition calculate_distance (lat1 lon1 lat2 lon2 : R) : R :=
  if negb (PyNum.py_all [lat1; lon1; lat2; lon2]) then 0.0
  else match haversine_try lat1 lon1 lat2 lon2 with
       | Some d => d
       | None => 0.0
       end.

Definition get_location (g : state) : location := current_location g.
Definition get_speed (g : state) : R := current_speed g.
Definition get_total_distance (g : state) : R := total_distance_traveled g.

Definition reset_trip (now : R) (g : state) : state := {|
  current_location := current_location g;
  previous_location := None;
  current_speed := current_speed g;
  total_distance_traveled := 0.0;
  trip_start_time := Some now
|}.

(** [_serial_loop], a parsed [$GPGGA] fix [(lat, lon)]. *)
Definition on_gpgga (lat lon : R) (g : state) : state :=
  let total :=
    match previous_location g with
    | Some p => total_distance_traveled g + calculate_distance (fst p) (snd p) lat lon
    | None => total_distance_traveled g
    end in
  {| current_location := (lat, lon);
     previous_location := Some (current_location g);
     current_speed := current_speed g;
     total_distance_traveled := total;
     trip_start_time := trip_start_time g |}.

(** [_serial_loop], a parsed [$GPVTG] speed. *)
Definition on_gpvtg (speed : R) (g : state) : state := {|
  current_location := current_location g;
  previous_location := previous_location g;
  current_speed := speed;
  total_distance_traveled := total_distance_traveled g;
  trip_start_time := trip_start_time g
|}.

End GPSManager.

(** The haversine great-circle distance in km, as the specification words
    it: Earth radius 6371.0 km, coordinates in decimal degrees. *)
Definition haversine_km (a b : location) : R :=
  let phi1 := fst a * (PI / 180) in
  let phi2 := fst b * (PI / 180) in
  let dphi := (fst b - fst a) * (PI / 180) in
  let dlam := (snd b - snd a) * (PI / 180) in
  2 * 6371 *
  asin (sqrt (sin (dphi / 2) ^ 2 + cos phi1 * cos phi2 * sin (dlam / 2) ^ 2)).

(** ** Fare engine: [FareCalculator] *)

(** How a method call ended. *)
Inductive completion := Returned | Raised (exn : string).

(** The two clocks a method may read. *)
Record clock := {
  datetime_now : R;   (* [datetime.now()], in seconds *)
  time_time : R       (* [time.time()] *)
}.

Module Ride.
(** [ride_data] of [handle_passenger_change]. *)
Record data := {
  ride_id : option string;
  passenger_id : nat;
  start_time : R;
  end_time : R;
  duration_minutes : R;
  total_distance_km : R;
  straight_line_distance_km : R;
  fare_amount : R;
  fare_rate_per_km : R;
  waiting_time_minutes : R;
  start_location : option location;
  end_location : location;
  average_speed : R
}.
End Ride.

Module PrivateRide.
(** [ride_data] of [stop_private_mode]. *)
Record data := {
  ride_id : string;
  start_time : R;
  end_time : R;
  duration_minutes : R;
  calculated_distance_km : R;
  gps_total_distance_km : R;
  straight_line_distance_km : R;
  fare_amount : R;
  fare_rate_per_km : R;
  waiting_time_minutes : R;
  start_location : option location;
  end_location : location;
  average_speed : R;
  max_speed : R
}.
End PrivateRide.

Module FareCalculator.

(** The Qt signals of the class. *)
Inductive signal :=
| fare_updated (passenger_id : nat) (fare_amount : R)
| total_fare_updated (total_fare : R)
| ride_completed (passenger_id : nat) (ride_data : Ride.data)
| distance_updated (total_distance : R)
| duration_updated (minutes : Z).

(** One entry of [self.passengers]. *)
Record passenger := {
  onboard : bool;
  fare : R;
  start_location : option location;
  last_location : option location;
  start_time : option R;
  total_distance : R;
  ride_id : option string;
  waiting_time : R
}.

(** [self.passengers] is a dict whose keys are [0, 1, 2] for good; it is
    kept as the list of its values, slot [i] at index [i]. *)
Record state := {
  gps_manager : GPSManager.state;
  fare_rate_per_km : R;
  last_gps_update : R;
  passengers : list passenger;
  private_mode_active : bool;
  private_fare : R;
  private_start_location : option location;
  private_last_location : option location;
  private_start_time : option R;
  private_distance : R;
  private_waiting_time : R;
  minimum_speed_threshold : R
}.

Definition result : Type := state * list signal * completion.

Definition empty_passenger : passenger := {|
  onboard := false; fare := 0.0; start_location := None;
  last_location := None; start_time := None; total_distance := 0.0;
  ride_id := None; waiting_time := 0.0
|}.

(** [__init__(gps_manager, fare_rate_per_km=12.0)] at clock [clk]. *)
Definition init (gps : GPSManager.state) (rate : R) (clk : clock) : state := {|
  gps_manager := gps;
  fare_rate_per_km := rate;
  last_gps_update := time_time clk;
  passengers := replicate 3 empty_passenger;
  private_mode_active := false;
  private_fare := 0.0;
  private_start_location := None;
  private_last_location := None;
  private_start_time := None;
  private_distance := 0.0;
  private_waiting_time := 0.0;
  minimum_speed_threshold := 2.0
|}.

(** Attribute assignments on [self]. *)
Definition set_gps_manager (g : GPSManager.state) (st : state) : state :=
  {| gps_manager := g; fare_rate_per_km := fare_rate_per_km st;
     last_gps_update := last_gps_update st; passengers := passengers st;
     private_mode_active := private_mode_active st;
     private_fare := private_fare st;
     private_start_location := private_start_location st;
     private_last_location := private_last_location st;
     private_start_time := private_start_time st;
     private_distance := private_distance st;
     private_waiting_time := private_waiting_time st;
     minimum_speed_threshold := minimum_speed_threshold st |}.

Definition set_passengers (ps : list passenger) (st : state) : state :=
  {| gps_manager := gps_manager st; fare_rate_per_km := fare_rate_per_km st;
     last_gps_update := last_gps_update st; passengers := ps;
     private_mode_active := private_mode_active st;
     private_fare := private_fare st;
     private_start_location := private_start_location st;
     private_last_location := private_last_location st;
     private_start_time := private_start_time st;
     private_distance := private_distance st;
     private_waiting_time := private_waiting_time st;
     minimum_speed_threshold := minimum_speed_threshold st |}.

Definition set_last_gps_update (t : R) (st : state) : state :=
  {| gps_manager := gps_manager st; fare_rate_per_km := fare_rate_per_km st;
     last_gps_update := t; passengers := passengers st;
     private_mode_active := private_mode_active st;
     private_fare := private_fare st;
     private_start_location := private_start_location st;
     private_last_location := private_last_location st;
     private_start_time := private_start_time st;
     private_distance := private_distance st;
     private_waiting_time := private_waiting_time st;
     minimum_speed_threshold := minimum_speed_threshold st |}.

Definition set_private_mode_active (b : bool) (st : state) : state :=
  {| gps_manager := gps_manager st; fare_rate_per_km := fare_rate_per_km st;
     last_gps_update := last_gps_update st; passengers := passengers st;
     private_mode_active := b;
     private_fare := private_fare st;
     private_start_location := private_start_location st;
     private_last_location := private_last_location st;
     private_start_time := private_start_time st;
     private_distance := private_distance st;
     private_waiting_time := private_waiting_time st;
     minimum_speed_threshold := minimum_speed_threshold st |}.

Definition set_private_fare (f : R) (st : state) : state :=
  {| gps_manager := gps_manager st; fare_rate_per_km := fare_rate_per_km st;
     last_gps_update := last_gps_update st; passengers := passengers st;
     private_mode_active := private_mode_active st;
     private_fare := f;
     private_start_location := private_start_location st;
     private_last_location := private_last_location st;
     private_start_time := private_start_time st;
     private_distance := private_distance st;
     private_waiting_time := private_waiting_time st;
     minimum_speed_threshold := minimum_speed_threshold st |}.

Definition set_private_last_location (l : option location) (st : state) : state :=
  {| gps_manager := gps_manager st; fare_rate_per_km := fare_rate_per_km st;
     last_gps_update := last_gps_update st; passengers := passengers st;
     private_mode_active := private_mode_active st;
     private_fare := private_fare st;
     private_start_location := private_start_location st;
     private_last_location := l;
     private_start_time := private_start_time st;
     private_distance := private_distance st;
     private_waiting_time := private_waiting_time st;
     minimum_speed_threshold := minimum_speed_threshold st |}.

Definition set_private_distance (d : R) (st : state) : state :=
  {| gps_manager := gps_manager st; fare_rate_per_km := fare_rate_per_km st;
     last_gps_update := last_gps_update st; passengers := passengers st;
     private_mode_active := private_mode_active st;
     private_fare := private_fare st;
     private_start_location := private_start_location st;
     private_last_location := private_last_location st;
     private_start_time := private_start_time st;
     private_distance := d;
     private_waiting_time := private_waiting_time st;
     minimum_speed_threshold := minimum_speed_threshold st |}.

Definition set_private_waiting_time (w : R) (st : state) : state :=
  {| gps_manager := gps_manager st; fare_rate_per_km := fare_rate_per_km st;
     last_gps_update := last_gps_update st; passengers := passengers st;
     private_mode_active := private_mode_active st;
     private_fare := private_fare st;
     private_start_location := private_start_location st;
     private_last_location := private_last_location st;
     private_start_time := private_start_time st;
     private_distance := private_distance st;
     private_waiting_time := w;
     minimum_speed_threshold := minimum_speed_threshold st |}.

Definition set_fare_rate_per_km (r : R) (st : state) : state :=
  {| gps_manager := gps_manager st; fare_rate_per_km := r;
     last_gps_update := last_gps_update st; passengers := passengers st;
     private_mode_active := private_mode_active st;
     private_fare := private_fare st;
     private_start_location := private_start_location st;
     private_last_location := private_last_location st;
     private_start_time := private_start_time st;
     private_distance := private_distance st;
     private_waiting_time := private_waiting_time st;
     minimum_speed_threshold := minimum_speed_threshold st |}.

(** [_calculate_distance(loc1, loc2)]. *)
Definition _calculate_distance (loc1 loc2 : option location) : R :=
  match loc1, loc2 with
  | Some l1, Some l2 =>
      GPSManager.calculate_distance (fst l1) (snd l1) (fst l2) (snd l2)
  | _, _ => 0.0
  end.

(** The waiting charge per minute, a local constant of both updaters. *)
Definition waiting_charge_per_minute : R := 2.0.

(** [_update_passenger_fare(pid, passenger, current_location,
    current_speed, time_delta)]: the updated dict and the signals. *)
Definition _update_passenger_fare (self : state) (pid : nat) (p : passenger)
    (current_location : location) (current_speed time_delta : R)
    : passenger * list signal :=
  match last_location p with
  | None =>
      ({| onboard := onboard p; fare := fare p;
          start_location := start_location p;
          last_location := Some current_location;
          start_time := start_time p; total_distance := total_distance p;
          ride_id := ride_id p; waiting_time := waiting_time p |}, [])
  | Some _ =>
      let distance_moved :=
        _calculate_distance (last_location p) (Some current_location) in
      let p1 :=
        if Rlt_dec 0.005 distance_moved then
          let distance_fare := distance_moved * fare_rate_per_km self in
          {| onboard := onboard p; fare := fare p + distance_fare;
             start_location := start_location p;
             last_location := Some current_location;
             start_time := start_time p;
             total_distance := total_distance p + distance_moved;
             ride_id := ride_id p; waiting_time := waiting_time p |}
        else p in
      let p2 :=
        if Rlt_dec current_speed (minimum_speed_threshold self) then
          let waiting_charge := (time_delta / 60.0) * waiting_charge_per_minute in
          {| onboard := onboard p1; fare := fare p1 + waiting_charge;
             start_location := start_location p1;
             last_location := last_location p1;
             start_time := start_time p1;
             total_distance := total_distance p1;
             ride_id := ride_id p1;
             waiting_time := waiting_time p1 + time_delta / 60.0 |}
        else p1 in
      (p2, [fare_updated pid (fare p2)])
  end.

(** [_update_private_fare(current_location, current_speed, time_delta)]. *)
Definition _update_private_fare (clk : clock) (current_location : location)
    (current_speed time_delta : R) (self : state) : state * list signal :=
  match private_last_location self with
  | None => (set_private_last_location (Some current_location) self, [])
  | Some _ =>
      let distance_moved :=
        _calculate_distance (private_last_location self) (Some current_location) in
      let '(s1, e1) :=
        if Rlt_dec 0.005 distance_moved then
          let distance_fare := distance_moved * fare_rate_per_km self in
          let s := set_private_fare (private_fare self + distance_fare) self in
          let s := set_private_distance (private_distance s + distance_moved) s in
          let s := set_private_last_location (Some current_location) s in
          (s, [total_fare_updated (private_fare s);
               distance_updated (private_distance s)])
        else (self, []) in
      let '(s2, e2) :=
        if Rlt_dec current_speed (minimum_speed_threshold s1) then
          let waiting_charge := (time_delta / 60.0) * waiting_charge_per_minute in
          let s := set_private_fare (private_fare s1 + waiting_charge) s1 in
          let s := set_private_waiting_time
                     (private_waiting_time s + time_delta / 60.0) s in
          (s, [total_fare_updated (private_fare s)])
        else (s1, []) in
      let e3 :=
        match private_start_time s2 with
        | Some t0 =>
            let duration_minutes := (datetime_now clk - t0) / 60 in
            [duration_updated (PyNum.int duration_minutes)]
        | None => []
        end in
      (s2, e1 ++ e2 ++ e3)
  end.

(** The body of [_calculation_loop]'s [for pid, passenger in
    self.passengers.items()], from slot [pid] on. *)
Fixpoint update_onboard (self : state) (pid : nat) (ps : list passenger)
    (current_location : location) (current_speed time_delta : R)
    : list passenger * list signal :=
  match ps with
  | [] => ([], [])
  | p :: rest =>
      let '(p', e) :=
        if onboard p then
          _update_passenger_fare self pid p current_location current_speed time_delta
        else (p, []) in
      let '(rest', es) :=
        update_onboard self (S pid) rest current_location current_speed time_delta in
      (p' :: rest', e ++ es)
  end.

(** One pass of [_calculation_loop] at [time.time() = time_time clk]. *)
Definition _calculation_loop (clk : clock) (self : state) : state * list signal :=
  let current_location := GPSManager.get_location (gps_manager self) in
  let current_speed := GPSManager.get_speed (gps_manager self) in
  let current_time := time_time clk in
  let time_delta := current_time - last_gps_update self in
  if Rle_dec 1.0 time_delta then
    let '(ps, e1) :=
      update_onboard self 0 (passengers self) current_location current_speed time_delta in
    let s1 := set_passengers ps self in
    let '(s2, e2) :=
      if private_mode_active s1 then
        _update_private_fare clk current_location current_speed time_delta s1
      else (s1, []) in
    (set_last_gps_update current_time s2, e1 ++ e2)
  else (self, []).

(** The id of a ride: [f"RIDE-{passenger_id+1}-{int(time.time())}"]. *)
Definition ride_id_of (passenger_id : nat) (t : R) : string :=
  ("RIDE-" ++ PyNum.str_int (Z.of_nat (passenger_id + 1)) ++ "-"
     ++ PyNum.str_int (PyNum.int t))%string.

(** [handle_passenger_change(passenger_id, onboard)]. *)
Definition handle_passenger_change (passenger_id : nat) (onboard_ : bool)
    (clk : clock) (self : state) : result :=
  if decide (length (passengers self) ≤ passenger_id)%nat then
    (self, [], Returned)
  else
    match passengers self !! passenger_id with
    | None => (self, [], Raised "KeyError")
    | Some p =>
        let current_location := GPSManager.get_location (gps_manager self) in
        if onboard_ && negb (onboard p) then
          (* Passenger boarding *)
          let p' := {|
            onboard := true;
            fare := 0.0;
            start_location := Some current_location;
            last_location := Some current_location;
            start_time := Some (datetime_now clk);
            total_distance := 0.0;
            ride_id := Some (ride_id_of passenger_id (time_time clk));
            waiting_time := 0.0 |} in
          (set_passengers (<[passenger_id := p']> (passengers self)) self,
           [fare_updated passenger_id 0.0], Returned)
        else if negb onboard_ && onboard p then
          (* Passenger alighting *)
          let p_off := {|
            onboard := false; fare := fare p;
            start_location := start_location p;
            last_location := last_location p;
            start_time := start_time p;
            total_distance := total_distance p;
            ride_id := ride_id p; waiting_time := waiting_time p |} in
          let end_time := datetime_now clk in
          match start_time p with
          | None =>
              (set_passengers (<[passenger_id := p_off]> (passengers self)) self,
               [], Raised "TypeError")
          | Some t0 =>
              let duration := (end_time - t0) / 60 in
              let final_distance :=
                match start_location p with
                | Some _ => _calculate_distance (start_location p) (Some current_location)
                | None => 0.0
                end in
              let ride_data := {|
                Ride.ride_id := ride_id p;
                Ride.passenger_id := passenger_id + 1;
                Ride.start_time := t0;
                Ride.end_time := end_time;
                Ride.duration_minutes := PyNum.round duration 1;
                Ride.total_distance_km := PyNum.round (total_distance p) 3;
                Ride.straight_line_distance_km := PyNum.round final_distance 3;
                Ride.fare_amount := PyNum.round (fare p) 2;
                Ride.fare_rate_per_km := fare_rate_per_km self;
                Ride.waiting_time_minutes := PyNum.round (waiting_time p) 1;
                Ride.start_location := start_location p;
                Ride.end_location := current_location;
                Ride.average_speed :=
                  PyNum.round
                    (if Rlt_dec 0 duration
                     then total_distance p / (duration / 60) else 0) 1 |} in
              (* Reset passenger data *)
              let p_reset := {|
                onboard := false; fare := 0.0; start_location := None;
                last_location := None; start_time := None;
                total_distance := 0.0; ride_id := None;
                waiting_time := 0.0 |} in
              (set_passengers (<[passenger_id := p_reset]> (passengers self)) self,
               [ride_completed passenger_id ride_data], Returned)
          end
        else (self, [], Returned)
    end.

(** [start_private_mode()]. *)
Definition start_private_mode (clk : clock) (self : state) : result :=
  let loc := GPSManager.get_location (gps_manager self) in
  ({| gps_manager := GPSManager.reset_trip (datetime_now clk) (gps_manager self);
      fare_rate_per_km := fare_rate_per_km self;
      last_gps_update := last_gps_update self;
      passengers := passengers self;
      private_mode_active := true;
      private_fare := 0.0;
      private_start_location := Some loc;
      private_last_location := Some loc;
      private_start_time := Some (datetime_now clk);
      private_distance := 0.0;
      private_waiting_time := 0.0;
      minimum_speed_threshold := minimum_speed_threshold self |},
   [total_fare_updated 0.0; distance_updated 0.0; duration_updated 0],
   Returned).

(** [stop_private_mode()]: the state, the returned [ride_data] ([None]
    when the method returns [None]) and how the call ended. *)
Definition stop_private_mode (clk : clock) (self : state)
    : state * option PrivateRide.data * completion :=
  if private_mode_active self then
    let s1 := set_private_mode_active false self in
    let end_time := datetime_now clk in
    match private_start_time self with
    | None => (s1, None, Raised "TypeError")
    | Some t0 =>
        let duration := (end_time - t0) / 60 in
        let current_location := GPSManager.get_location (gps_manager self) in
        let gps_total_distance := GPSManager.get_total_distance (gps_manager self) in
        let straight_line_distance :=
          match private_start_location self with
          | Some _ =>
              _calculate_distance (private_start_location self) (Some current_location)
          | None => 0.0
          end in
        let ride_data := {|
          PrivateRide.ride_id :=
            ("PRIVATE-" ++ PyNum.str_int (PyNum.int (time_time clk)))%string;
          PrivateRide.start_time := t0;
          PrivateRide.end_time := end_time;
          PrivateRide.duration_minutes := PyNum.round duration 1;
          PrivateRide.calculated_distance_km := PyNum.round (private_distance self) 3;
          PrivateRide.gps_total_distance_km := PyNum.round gps_total_distance 3;
          PrivateRide.straight_line_distance_km := PyNum.round straight_line_distance 3;
          PrivateRide.fare_amount := PyNum.round (private_fare self) 2;
          PrivateRide.fare_rate_per_km := fare_rate_per_km self;
          PrivateRide.waiting_time_minutes := PyNum.round (private_waiting_time self) 1;
          PrivateRide.start_location := private_start_location self;
          PrivateRide.end_location := current_location;
          PrivateRide.average_speed :=
            PyNum.round
              (if Rlt_dec 0 duration
               then gps_total_distance / (duration / 60) else 0) 1;
          PrivateRide.max_speed :=
            PyNum.round (PyNum.max0 (GPSManager.get_speed (gps_manager self))) 1 |} in
        (s1, Some ride_data, Returned)
    end
  else (self, None, Returned).

(** [set_fare_rate(rate)]. *)
Definition set_fare_rate (rate : R) (self : state) : state :=
  set_fare_rate_per_km rate self.

End FareCalculator.

(** ** Digital input sampler: [GPIOManager] *)

Module GPIOManager.

(** [GPIO.LOW = 0], [GPIO.HIGH = 1]. *)
Inductive level := LOW | HIGH.

Inductive signal :=
| passenger_changed (passenger_id : nat) (onboard : bool)
| sos_button_pressed
| sos_button_released
| mode_switch_changed (mode : string).

(** The class dicts, in the order they are written. *)
Definition PINS : list (string * nat) := [
  ("sos_buzzer", 26); ("sos_button", 12); ("sos_led", 21);
  ("passenger_1", 6); ("passenger_2", 13); ("passenger_3", 19);
  ("mode_private", 7); ("mode_sharing", 8);
  ("mode_waiting", 18); ("mode_for_hire", 23);
  ("mpu_scl", 3); ("mpu_sda", 2); ("mpu_int", 4)
]%nat%string.

Definition MODES : list (string * string) := [
  ("mode_private", "Private");
  ("mode_sharing", "Sharing");
  ("mode_waiting", "Waiting");
  ("mode_for_hire", "For Hire")
]%string.

(** [d[key]] on a dict kept as an association list. *)
Fixpoint getitem {V : Type} (d : list (string * V)) (key : string) : option V :=
  match d with
  | [] => None
  | (k, v) :: rest => if String.eqb k key then Some v else getitem rest key
  end.

Record state := {
  running : bool;
  passenger_states : list bool;
  current_mode : string;
  sos_active : bool
}.

Definition init : state := {|
  running := false;
  passenger_states := [false; false; false];
  current_mode := "For Hire";
  sos_active := false
|}.

Definition set_sos_active (b : bool) (g : state) : state := {|
  running := running g; passenger_states := passenger_states g;
  current_mode := current_mode g; sos_active := b |}.

Definition set_current_mode (m : string) (g : state) : state := {|
  running := running g; passenger_states := passenger_states g;
  current_mode := m; sos_active := sos_active g |}.

Definition set_running (b : bool) (g : state) : state := {|
  running := b; passenger_states := passenger_states g;
  current_mode := current_mode g; sos_active := sos_active g |}.

(** The [for mode_key, mode_name in self.MODES.items()] scan of
    [_monitor_mode_switch]; [input pin] is what [GPIO.input(pin)] reads
    during the scan.  The outer [None] is a [KeyError], the inner one is
    "no line found LOW". *)
Fixpoint scan_modes (input : nat → level) (modes : list (string * string))
    : option (option string) :=
  match modes with
  | [] => Some None
  | (mode_key, mode_name) :: rest =>
      match getitem PINS mode_key with
      | None => None
      | Some pin =>
          match input pin with
          | LOW => Some (Some mode_name)
          | HIGH => scan_modes input rest
          end
      end
  end.

(** [selected_mode] of one pass of [_monitor_mode_switch]. *)
Definition selected_mode (input : nat → level) : option string :=
  match scan_modes input MODES with
  | None => None
  | Some (Some m) => Some m
  | Some None => Some "For Hire"%string
  end.

(** One pass of the [while self.running] loop of [_monitor_mode_switch];
    an exception is caught by the loop and changes nothing. *)
Definition _monitor_mode_switch (input : nat → level) (g : state)
    : state * list signal :=
  match selected_mode input with
  | None => (g, [])
  | Some m =>
      if String.eqb m (current_mode g) then (g, [])
      else (set_current_mode m g, [mode_switch_changed m])
  end.

(** An effect on an output line: [GPIO.output(pin, level)]. *)
Inductive output := Output (pin : nat) (l : level).

Definition pin (name : string) : nat := default 0%nat (getitem PINS name).

(** [activate_sos()]; the caller starts the [_sos_pattern] thread. *)
Definition activate_sos (g : state) : state := set_sos_active true g.

(** [deactivate_sos()]. *)
Definition deactivate_sos (g : state) : state * list output :=
  (set_sos_active false g,
   [Output (pin "sos_buzzer") LOW; Output (pin "sos_led") LOW]).

(** The body of the [while] loop of [_sos_pattern], one entry per
    [time.sleep]: the level written to buzzer and LED just before it
    ([None] for a bare pause) and the milliseconds slept. *)
Definition beeps (ms : Z) : list (option level * Z) :=
  concat (replicate 3 [(Some HIGH, ms); (Some LOW, 200%Z)]).

Definition sos_cycle : list (option level * Z) :=
  beeps 200 ++ [(None, 200%Z)] ++ beeps 600 ++ [(None, 200%Z)]
    ++ beeps 200 ++ [(None, 1000%Z)].

End GPIOManager.

(** ** SOS state machine: [SOSSystem] *)

Module SOSSystem.

(** [sos_data] of [activate_sos]; times are in milliseconds, and the
    [timestamp] entry, the same instant as text, is left out. *)
Record data := {
  activation_time : Z;
  location : option location;
  status : string;
  type : string
}.

Inductive signal :=
| sos_status_changed (msg : string)
| sos_activated (sos_data : data)
| sos_deactivated.

Record state := {
  sos_active : bool;
  countdown_active : bool;
  current_countdown : Z
}.

Definition init : state := {|
  sos_active := false; countdown_active := false; current_countdown := 0 |}.

(** [handle_sos_button_press()]; the boolean tells whether a
    [_countdown_loop] thread was started. *)
Definition handle_sos_button_press (s : state) : state * bool :=
  if negb (countdown_active s) && negb (sos_active s) then
    ({| sos_active := sos_active s; countdown_active := true;
        current_countdown := current_countdown s |}, true)
  else (s, false).

(** [deactivate_sos()]. *)
Definition deactivate_sos (s : state) : state * list signal :=
  if sos_active s then
    ({| sos_active := false; countdown_active := countdown_active s;
        current_countdown := current_countdown s |},
     [sos_status_changed "✅ SOS Deactivated - Normal"; sos_deactivated])
  else (s, []).

(** [handle_sos_button_release()]. *)
Definition handle_sos_button_release (s : state) : state * list signal :=
  if countdown_active s then
    ({| sos_active := sos_active s; countdown_active := false;
        current_countdown := current_countdown s |},
     [sos_status_changed "SOS Cancelled - Normal"])
  else if sos_active s then deactivate_sos s
  else (s, []).

(** [activate_sos()] at time [now]; the object has no [gps_manager]
    attribute, so the location stays [None]. *)
Definition activate_sos (now : Z) (s : state) : state * list signal :=
  let sos_data := {| activation_time := now; location := None;
                     status := "ACTIVE"; type := "MANUAL_ACTIVATION" |} in
  ({| sos_active := true; countdown_active := countdown_active s;
      current_countdown := current_countdown s |},
   [sos_status_changed "🚨 SOS ACTIVATED! 🚨"; sos_activated sos_data]).

(** [range(5, 0, -1)]. *)
Definition countdown_range : list Z := [5; 4; 3; 2; 1]%Z.

(** [_countdown_loop], cut at its [time.sleep(1)]: [remaining] is what
    the [for] has still to visit.  The result is the new state, the
    signals, and what is left to visit after the sleep ([None] when the
    thread has ended). *)
Definition _countdown_loop (now : Z) (remaining : list Z) (s : state)
    : state * list signal * option (list Z) :=
  match remaining with
  | i :: rest =>
      if negb (countdown_active s) then (s, [], None)
      else
        let status_msg :=
          ("SOS COUNTDOWN: " ++ PyNum.str_int i ++ " seconds")%string in
        ({| sos_active := sos_active s;
            countdown_active := countdown_active s;
            current_countdown := i |},
         [sos_status_changed status_msg], Some rest)
  | [] =>
      if countdown_active s then
        let '(s1, sigs) := activate_sos now s in
        ({| sos_active := sos_active s1; countdown_active := false;
            current_countdown := current_countdown s1 |}, sigs, None)
      else (s, [], None)
  end.

(** [get_sos_status()]. *)
Definition get_sos_status (s : state) : string :=
  if sos_active s then "SOS_ACTIVE"%string
  else if countdown_active s then
    ("SOS_COUNTDOWN_" ++ PyNum.str_int (current_countdown s))%string
  else "NORMAL"%string.

End SOSSystem.

(** ** The emergency line over time

    The three threads that serve the emergency button
    ([GPIOManager._monitor_sos_button], [SOSSystem._countdown_loop],
    [GPIOManager._sos_pattern]) run on one clock counted in milliseconds.
    A thread runs from one [time.sleep] to the next in no time and a sleep
    lasts exactly what it asks for; a signal reaches its slot at once.  The
    thread due first runs first, the order of creation deciding between
    threads due together. *)

Module Timeline.

Import GPIOManager.

(** Where [_monitor_sos_button] resumes. *)
Inductive monitor_pc :=
| Idle                                 (* top of [while self.running] *)
| Hold (press_start : Z).              (* test of the inner [while] *)

(** A thread, by where it resumes. *)
Inductive thread :=
| Monitor (pc : monitor_pc)
| Countdown (remaining : list Z)       (* top of the [for] *)
| Pattern (pc : nat).                  (* next entry of [sos_cycle] *)

Inductive event :=
| Gpio_signal (s : GPIOManager.signal)
| Sos_signal (s : SOSSystem.signal)
| Gpio_output (o : GPIOManager.output).

Record world := {
  now : Z;
  gpio : GPIOManager.state;
  sos : SOSSystem.state;
  threads : list (Z * thread);         (* wake-up time, resume point *)
  log : list (Z * event)               (* oldest first *)
}.

(** What running one thread up to its next sleep does. *)
Record effect := {
  gpio' : GPIOManager.state;
  sos' : SOSSystem.state;
  events : list event;
  resume : option (Z * thread);
  spawned : list (Z * thread)
}.

(** [_monitor_sos_button], resumed at [pc] at time [t], the emergency
    line reading [line]. *)
Definition _monitor_sos_button (line : level) (t : Z) (pc : monitor_pc)
    (g : GPIOManager.state) (s : SOSSystem.state) : effect :=
  match pc with
  | Hold press_start =>
      match line with
      | LOW =>
          let hold_time := (t - press_start)%Z in
          if (5000 <=? hold_time)%Z then
            let '(g1, sp) :=
              if negb (GPIOManager.sos_active g)
              then (GPIOManager.activate_sos g, [(t, Pattern 0)])
              else (g, []) in
            (* break; then [hold_time < 5.0] is false *)
            {| gpio' := g1; sos' := s; events := [];
               resume := Some ((t + 50)%Z, Monitor Idle); spawned := sp |}
          else
            {| gpio' := g; sos' := s; events := [];
               resume := Some ((t + 100)%Z, Monitor (Hold press_start));
               spawned := [] |}
      | HIGH =>
          let hold_time := (t - press_start)%Z in
          if (hold_time <? 5000)%Z then
            let '(s1, sigs) := SOSSystem.handle_sos_button_release s in
            let '(g1, outs) :=
              if GPIOManager.sos_active g
              then GPIOManager.deactivate_sos g else (g, []) in
            {| gpio' := g1; sos' := s1;
               events := Gpio_signal sos_button_released
                           :: map Sos_signal sigs ++ map Gpio_output outs;
               resume := Some ((t + 50)%Z, Monitor Idle); spawned := [] |}
          else
            {| gpio' := g; sos' := s; events := [];
               resume := Some ((t + 50)%Z, Monitor Idle); spawned := [] |}
      end
  | Idle =>
      if negb (running g) then
        {| gpio' := g; sos' := s; events := []; resume := None; spawned := [] |}
      else
        match line with
        | LOW =>
            let '(s1, started) := SOSSystem.handle_sos_button_press s in
            {| gpio' := g; sos' := s1;
               events := [Gpio_signal sos_button_pressed];
               resume := Some (t, Monitor (Hold t));
               spawned := if started
                          then [(t, Countdown SOSSystem.countdown_range)]
                          else [] |}
        | HIGH =>
            {| gpio' := g; sos' := s; events := [];
               resume := Some ((t + 50)%Z, Monitor Idle); spawned := [] |}
        end
  end.

(** [_countdown_loop], resumed at time [t]. *)
Definition countdown_thread_step (t : Z) (remaining : list Z)
    (g : GPIOManager.state) (s : SOSSystem.state) : effect :=
  let '(s1, sigs, rest) := SOSSystem._countdown_loop t remaining s in
  {| gpio' := g; sos' := s1; events := map Sos_signal sigs;
     resume := match rest with
               | Some r => Some ((t + 1000)%Z, Countdown r)
               | None => None
               end;
     spawned := [] |}.

(** [_sos_pattern], resumed at entry [pc] of the cycle at time [t]; the
    [while self.sos_active and self.running] test is made at entry 0
    only. *)
Definition _sos_pattern (t : Z) (pc : nat)
    (g : GPIOManager.state) (s : SOSSystem.state) : effect :=
  if Nat.eqb pc 0 && negb (GPIOManager.sos_active g && running g) then
    {| gpio' := g; sos' := s; events := []; resume := None; spawned := [] |}
  else
    match sos_cycle !! pc with
    | None =>
        {| gpio' := g; sos' := s; events := []; resume := None; spawned := [] |}
    | Some (lvl, ms) =>
        {| gpio' := g; sos' := s;
           events :=
             match lvl with
             | Some l => [Gpio_output (Output (pin "sos_buzzer") l);
                          Gpio_output (Output (pin "sos_led") l)]
             | None => []
             end;
           resume := Some ((t + ms)%Z,
                           Pattern (if Nat.eqb (S pc) (length sos_cycle)
                                    then 0 else S pc));
           spawned := [] |}
    end.

(** The index of the thread due first. *)
Fixpoint earliest_from (i : nat) (best : nat * Z) (ts : list (Z * thread))
    : nat :=
  match ts with
  | [] => fst best
  | (t, _) :: rest =>
      earliest_from (S i) (if (t <? snd best)%Z then (i, t) else best) rest
  end.

Definition earliest (ts : list (Z * thread)) : option nat :=
  match ts with
  | [] => None
  | (t, _) :: rest => Some (earliest_from 1 (0%nat, t) rest)
  end.

(** The time at which the next thread runs. *)
Definition next_time (w : world) : Z :=
  match earliest (threads w) with
  | Some i =>
      match threads w !! i with
      | Some (t, _) => t
      | None => now w
      end
  | None => now w
  end.

(** Run the thread due first, the emergency line reading [line]. *)
Definition step_with (line : level) (w : world) : world :=
  match earliest (threads w) with
  | None => w
  | Some i =>
      match threads w !! i with
      | None => w
      | Some (t, th) =>
          let e :=
            match th with
            | Countdown remaining =>
                countdown_thread_step t remaining (gpio w) (sos w)
            | Pattern pc => _sos_pattern t pc (gpio w) (sos w)
            | Monitor pc => _monitor_sos_button line t pc (gpio w) (sos w)
            end in
          {| now := t;
             gpio := gpio' e;
             sos := sos' e;
             threads :=
               match resume e with
               | Some th' => <[i := th']> (threads w)
               | None => delete i (threads w)
               end ++ spawned e;
             log := log w ++ map (λ ev, (t, ev)) (events e) |}
      end
  end.

(** The emergency line as a function of time. *)
Definition step (line : Z → level) (w : world) : world :=
  step_with (line (next_time w)) w.

Fixpoint run (line : Z → level) (n : nat) (w : world) : world :=
  match n with
  | O => w
  | S n' => step line (run line n' w)
  end.

(** After [start()]: the monitor thread alone, everything at rest. *)
Definition start : world := {|
  now := 0;
  gpio := GPIOManager.set_running true GPIOManager.init;
  sos := SOSSystem.init;
  threads := [(0%Z, Monitor Idle)];
  log := []
|}.

(** The line held LOW from time 0 until [release], HIGH afterwards. *)
Definition held_until (release : Z) : Z → level :=
  λ t, if (t <? release)%Z then LOW else HIGH.

(** The buzzer is driven HIGH at some time after [t]. *)
Definition buzzer_high_after (t : Z) (w : world) : bool :=
  existsb (λ '(t', ev),
             match ev with
             | Gpio_output (Output p HIGH) =>
                 (t <? t')%Z && Nat.eqb p (pin "sos_buzzer")
             | _ => false
             end) (log w).

(** The latest time at which the buzzer is driven HIGH. *)
Definition last_buzzer_high (w : world) : option Z :=
  fold_left (λ acc '(t', ev),
               match ev with
               | Gpio_output (Output p HIGH) =>
                   if Nat.eqb p (pin "sos_buzzer") then Some t' else acc
               | _ => acc
               end) (log w) None.

(** The log holds a [sos_button_released] signal. *)
Definition release_signalled (w : world) : bool :=
  existsb (λ '(_, ev),
             match ev with
             | Gpio_signal sos_button_released => true
             | _ => false
             end) (log w).

(** The worlds of a run of [n] steps, the first one first. *)
Fixpoint trace (line : Z → level) (n : nat) (w : world) : list world :=
  w :: match n with
       | O => []
       | S n' => trace line n' (step line w)
       end.

(** The cancellation status is in the log. *)
Definition cancel_signalled (w : world) : bool :=
  existsb (λ '(_, ev),
             match ev with
             | Sos_signal (SOSSystem.sos_status_changed msg) =>
                 String.eqb msg "SOS Cancelled - Normal"
             | _ => false
             end) (log w).

(** What a run of [n] steps with the line released at [100 * k] ms is
    tested for: no thread wakes up strictly between [100 * (k - 1)] and
    [100 * k]; the machine is never Active; and the last world is back to
    Normal, the cancellation signalled, with only the idle monitor left,
    due after the release. *)
Definition cancels_cleanly (n : nat) (k : Z) : bool :=
  let ws := trace (held_until (100 * k)) n start in
  forallb (λ w, (next_time w <=? 100 * (k - 1))%Z
                || (100 * k <=? next_time w)%Z) ws
  && forallb (λ w, negb (SOSSystem.sos_active (sos w))) ws
  && match last ws with
     | Some w =>
         running (gpio w)
         && negb (SOSSystem.countdown_active (sos w))
         && cancel_signalled w
         && match threads w with
            | [(t, Monitor Idle)] => (100 * k <=? t)%Z
            | _ => false
            end
     | None => false
     end.

(** The sampler runs, only its monitor thread is left, idle, and it wakes
    at or after [release]. *)
Definition quiet (release : Z) (w : world) : Prop :=
  running (gpio w) = true
  ∧ ∃ t, (release ≤ t)%Z ∧ threads w = [(t, Monitor Idle)].

End Timeline.

(** ** Runs of the fare engine *)

Module FareRuns.

Import FareCalculator.

(** A slot fed a sequence of samples [(location, speed, time_delta)], one
    [_update_passenger_fare] each. *)
Definition feed (self : state) (pid : nat) (p : passenger)
    (samples : list (location * R * R)) : passenger :=
  fold_left
    (λ q '(c, speed, dt), (_update_passenger_fare self pid q c speed dt).1)
    samples p.

(** What can happen to a [FareCalculator] between two calls. *)
Inductive action :=
| Gps_update (g : GPSManager.state)   (* the GPS thread stores a fix or a speed *)
| Tick (clk : clock)                  (* one pass of [_calculation_loop] *)
| Set_fare_rate (rate : R)
| Passenger_change (passenger_id : nat) (onboard : bool) (clk : clock)
| Start_private (clk : clock)
| Stop_private (clk : clock).

Definition exec (a : action) (st : state) : state * list signal :=
  match a with
  | Gps_update g => (set_gps_manager g st, [])
  | Tick clk => _calculation_loop clk st
  | Set_fare_rate rate => (set_fare_rate rate st, [])
  | Passenger_change i b clk =>
      ((handle_passenger_change i b clk st).1.1,
       (handle_passenger_change i b clk st).1.2)
  | Start_private clk =>
      ((start_private_mode clk st).1.1, (start_private_mode clk st).1.2)
  | Stop_private clk => ((stop_private_mode clk st).1.1, [])
  end.

Fixpoint exec_all (acts : list action) (st : state) : state * list signal :=
  match acts with
  | [] => (st, [])
  | a :: rest =>
      let r := exec a st in
      let r' := exec_all rest r.1 in
      (r'.1, r.2 ++ r'.2)
  end.

(** The action is not the alighting of slot [pid]. *)
Definition keeps_aboard (pid : nat) (a : action) : Prop :=
  match a with
  | Passenger_change i false _ => i ≠ pid
  | _ => True
  end.

(** The signal is a ride-completed record of slot [pid]. *)
Definition completes (pid : nat) (s : signal) : bool :=
  match s with
  | ride_completed i _ => Nat.eqb i pid
  | _ => false
  end.

Definition Rsum (l : list R) : R := fold_right Rplus 0 l.

(** The charges of one accumulation tick for slot [pid], as the
    specification words them: [moved * rate_per_km] when the slot moved
    more than the 5 m noise floor, and [(tick_seconds / 60) *
    waiting_rate_per_minute] when the sample speed is below 2.0 km/h. *)
Definition spec_tick_charges (pid : nat) (clk : clock) (st : state) : list R :=
  let sample := GPSManager.get_location (gps_manager st) in
  let speed_kmh := GPSManager.get_speed (gps_manager st) in
  let tick_seconds := time_time clk - last_gps_update st in
  match passengers st !! pid with
  | Some p =>
      if onboard p then
        if Rle_dec 1 tick_seconds then
          match last_location p with
          | Some l =>
              let moved :=
                GPSManager.calculate_distance l.1 l.2 sample.1 sample.2 in
              (if Rlt_dec 0.005 moved
               then [moved * fare_rate_per_km st] else [])
              ++ (if Rlt_dec speed_kmh 2.0
                  then [tick_seconds / 60 * 2.0] else [])
          | None => []
          end
        else []
      else []
  | None => []
  end.

Definition charges (pid : nat) (a : action) (st : state) : list R :=
  match a with
  | Tick clk => spec_tick_charges pid clk st
  | _ => []
  end.

Fixpoint charges_all (pid : nat) (acts : list action) (st : state) : list R :=
  match acts with
  | [] => []
  | a :: rest => charges pid a st ++ charges_all pid rest (exec a st).1
  end.

(** [q'] is still the ride that [q] is. *)
Definition same_ride (q q' : passenger) : Prop :=
  onboard q' = onboard q ∧ ride_id q' = ride_id q
  ∧ start_time q' = start_time q ∧ start_location q' = start_location q.

(** From [st] to [st'], slot [pid] stayed on the ride of [q], its fare
    grew by [extra], and [evs] holds no ride-completed record of it. *)
Definition rides_on (pid : nat) (q : passenger) (extra : R)
    (st st' : state) (evs : list signal) : Prop :=
  ∃ q', passengers st' !! pid = Some q' ∧ same_ride q q'
        ∧ fare q' = fare q + extra
        ∧ minimum_speed_threshold st' = minimum_speed_threshold st
        ∧ Forall (λ s, completes pid s = false) evs.

(** No character of [s] is a dash. *)
Fixpoint dashless (s : string) : Prop :=
  match s with
  | EmptyString => True
  | String c rest => c ≠ "-"%char ∧ dashless rest
  end.

End FareRuns.


(** ** Fare engine: queries and reachable states *)

Module FareReach.

Import FareCalculator FareRuns.

(** [get_passenger_fare(passenger_id)]. *)
Definition get_passenger_fare (passenger_id : nat) (self : state) : R :=
  if decide (passenger_id < length (passengers self))%nat then
    match passengers self !! passenger_id with
    | Some p => fare p
    | None => 0.0
    end
  else 0.0.

(** [get_total_fare()]. *)
Definition get_total_fare (self : state) : R := private_fare self.

(** A slot as the engine leaves it: in its zero state when offboard,
    with its ride on record when onboard. *)
Definition settled (p : passenger) : Prop :=
  if onboard p then
    is_Some (start_time p) ∧ is_Some (start_location p)
    ∧ is_Some (last_location p) ∧ is_Some (ride_id p)
  else p = empty_passenger.

(** What every state of a running engine satisfies. *)
Definition sound (st : state) : Prop :=
  length (passengers st) = 3%nat
  ∧ Forall settled (passengers st)
  ∧ (private_mode_active st = true →
     is_Some (private_start_time st) ∧ is_Some (private_last_location st)).

(** Nothing the meter shows is negative. *)
Definition nonneg (st : state) : Prop :=
  0 <= fare_rate_per_km st
  ∧ minimum_speed_threshold st = 2.0
  ∧ Forall (λ p, 0 <= fare p ∧ 0 <= total_distance p ∧ 0 <= waiting_time p)
           (passengers st)
  ∧ 0 <= private_fare st ∧ 0 <= private_distance st
  ∧ 0 <= private_waiting_time st.

(** The action sets no negative rate. *)
Definition rate_ok (a : action) : Prop :=
  match a with
  | Set_fare_rate rate => 0 <= rate
  | _ => True
  end.

(** The action is a pass of the calculation loop. *)
Definition is_tick (a : action) : Prop :=
  match a with
  | Tick _ => True
  | _ => False
  end.

End FareReach.

(** ** Ride upload: [FareSyncService] *)

Module FareSyncService.

(** The [payload] dict of [_send_to_backend]; the two times stand for
    their [isoformat()] text. *)
Record payload := {
  rideId : option string;
  driverId : string;
  passengerId : string;
  startTime : R;
  endTime : R;
  startLatitude : R;
  startLongitude : R;
  endLatitude : R;
  endLongitude : R;
  distanceKm : R;
  fareAmount : R;
  fareRate : R
}.

(** The dict literal of [_send_to_backend(passenger_id, ride_data)].
    [None] is the [TypeError] of [ride_data["start_location"][0]] on
    [None]: the [except] clause prints it and nothing is posted. *)
Definition build_payload (driver_id : string) (passenger_id : nat)
    (ride_data : Ride.data) : option payload :=
  match Ride.start_location ride_data with
  | None => None
  | Some start_location =>
      Some {|
        rideId := Ride.ride_id ride_data;
        driverId := driver_id;
        passengerId := PyNum.str_int (Z.of_nat (passenger_id + 1));
        startTime := Ride.start_time ride_data;
        endTime := Ride.end_time ride_data;
        startLatitude := start_location.1;
        startLongitude := start_location.2;
        endLatitude := (Ride.end_location ride_data).1;
        endLongitude := (Ride.end_location ride_data).2;
        distanceKm := Ride.total_distance_km ride_data;
        fareAmount := Ride.fare_amount ride_data;
        fareRate := Ride.fare_rate_per_km ride_data |}
  end.

End FareSyncService.

(** ** Geo engine: the receiver loops of [GPSManager] *)

Module GPSLoops.

(** [s.split(",")]. *)
Fixpoint split (s : string) : list string :=
  match s with
  | EmptyString => [EmptyString]
  | String c rest =>
      if Ascii.eqb c "," then EmptyString :: split rest
      else match split rest with
           | w :: ws => String c w :: ws
           | [] => [String c EmptyString]
           end
  end.

(** [s[:n]] and [s[n:]]. *)
Fixpoint take (n : nat) (s : string) : string :=
  match n, s with
  | S n', String c rest => String c (take n' rest)
  | _, _ => EmptyString
  end.

Fixpoint drop (n : nat) (s : string) : string :=
  match n, s with
  | S n', String _ rest => drop n' rest
  | _, _ => s
  end.

(** [bool(s)] for a string. *)
Definition nonempty (s : string) : bool :=
  match s with EmptyString => false | _ => true end.

(** The status fields next to the trip fields. *)
Record state := {
  trip : GPSManager.state;
  gps_fix : bool;
  satellites_count : Z;
  altitude : R;
  heading : R;
  sim_last_update : R
}.

(** [__init__] at clock [now]. *)
Definition init (now : R) : state := {|
  trip := GPSManager.init;
  gps_fix := false;
  satellites_count := 0;
  altitude := 0.0;
  heading := 0.0;
  sim_last_update := now
|}.

Inductive signal :=
| location_updated (lat lon : R)
| speed_updated (speed : R)
| distance_updated (total : R).

Definition get_location (g : state) : location :=
  GPSManager.get_location (trip g).
Definition get_speed (g : state) : R := GPSManager.get_speed (trip g).
Definition get_total_distance (g : state) : R :=
  GPSManager.get_total_distance (trip g).

(** [get_trip_duration()] at [datetime.now() = now]. *)
Definition get_trip_duration (now : R) (g : state) : R :=
  match GPSManager.trip_start_time (trip g) with
  | Some t0 => (now - t0) / 60
  | None => 0
  end.

Section Parsing.

(** [float(s)] and [int(s)]: [None] is a [ValueError].  Nothing is
    assumed of what they accept. *)
Variable float : string → option R.
Variable int : string → option Z.

(** [_parse_gpgga(sentence)]; [None] is the returned [None], also the one
    of the [except] clause. *)
Definition _parse_gpgga (sentence : string) : option (R * R * R * Z) :=
  let parts := split sentence in
  if decide (length parts < 15)%nat then None
  else
    match parts !! 2%nat, parts !! 3%nat, parts !! 4%nat, parts !! 5%nat,
          parts !! 6%nat, parts !! 7%nat, parts !! 9%nat with
    | Some lat_raw, Some lat_dir, Some lon_raw, Some lon_dir,
      Some quality, Some satellites, Some altitude_ =>
        if negb (nonempty lat_raw) || negb (nonempty lon_raw)
           || String.eqb quality "0" then None
        else
          d ← float (take 2 lat_raw);
          m ← float (drop 2 lat_raw);
          let lat := d + m / 60.0 in
          let lat := if String.eqb lat_dir "S" then - lat else lat in
          d ← float (take 3 lon_raw);
          m ← float (drop 3 lon_raw);
          let lon := d + m / 60.0 in
          let lon := if String.eqb lon_dir "W" then - lon else lon in
          alt ← (if nonempty altitude_ then float altitude_ else Some 0.0);
          sats ← (if nonempty satellites then int satellites else Some 0%Z);
          Some (lat, lon, alt, sats)
    | _, _, _, _, _, _, _ => None
    end.

(** [_parse_gpvtg(sentence)]. *)
Definition _parse_gpvtg (sentence : string) : option R :=
  let parts := split sentence in
  if decide (7 < length parts)%nat then
    match parts !! 7%nat with
    | Some field => if nonempty field then float field else None
    | None => None
    end
  else None.

(** [_parse_gpgsa(sentence)]. *)
Definition _parse_gpgsa (sentence : string) : bool :=
  let parts := split sentence in
  if decide (2 < length parts)%nat then
    match parts !! 2%nat with
    | Some fix_type => String.eqb fix_type "2" || String.eqb fix_type "3"
    | None => false
    end
  else false.

(** The body of the [while] of [_serial_loop] for one received line,
    already decoded and stripped. *)
Definition _serial_loop (line : string) (g : state) : state * list signal :=
  if String.prefix "$GPGGA" line then
    match _parse_gpgga line with
    | Some (lat, lon, altitude_, satellites) =>
        let t := GPSManager.on_gpgga lat lon (trip g) in
        ({| trip := t; gps_fix := true; satellites_count := satellites;
            altitude := altitude_; heading := heading g;
            sim_last_update := sim_last_update g |},
         match GPSManager.previous_location (trip g) with
         | Some _ =>
             [distance_updated (GPSManager.total_distance_traveled t)]
         | None => []
         end ++ [location_updated lat lon])
    | None => (g, [])
    end
  else if String.prefix "$GPVTG" line then
    match _parse_gpvtg line with
    | Some speed =>
        ({| trip := GPSManager.on_gpvtg speed (trip g);
            gps_fix := gps_fix g; satellites_count := satellites_count g;
            altitude := altitude g; heading := heading g;
            sim_last_update := sim_last_update g |},
         [speed_updated speed])
    | None => (g, [])
    end
  else if String.prefix "$GPGSA" line then
    if _parse_gpgsa line then
      ({| trip := trip g; gps_fix := true;
          satellites_count := satellites_count g;
          altitude := altitude g; heading := heading g;
          sim_last_update := sim_last_update g |}, [])
    else (g, [])
  else (g, []).

(** The lines of a session, in the order received. *)
Definition receive (lines : list string) (g : state) : state :=
  fold_left (λ g line, (_serial_loop line g).1) lines g.

End Parsing.

(** [reset_trip()] at [datetime.now() = now]. *)
Definition reset_trip (now : R) (g : state) : state := {|
  trip := GPSManager.reset_trip now (trip g);
  gps_fix := gps_fix g; satellites_count := satellites_count g;
  altitude := altitude g; heading := heading g;
  sim_last_update := sim_last_update g
|}.

(** *** The simulated receiver *)





(** What [random] returns during one iteration, in the order drawn. *)
Record draws := {
  noise_lat : R;      (* [uniform(-0.0001, 0.0001)] *)
  noise_lon : R;      (* [uniform(-0.0001, 0.0001)] *)
  speed_noise : R;    (* [uniform(-2, 2)] *)
  satellites : Z;     (* [randint(6, 12)] *)
  alt : R;            (* [uniform(10, 50)] *)
  turn : R            (* [uniform(-5, 5)] *)
}.

(** The draws are within the bounds asked of [random]. *)
Definition in_range (d : draws) : Prop :=
  -0.0001 <= noise_lat d <= 0.0001 ∧ -0.0001 <= noise_lon d <= 0.0001
  ∧ -2 <= speed_noise d <= 2 ∧ (6 ≤ satellites d ≤ 12)%Z
  ∧ 10 <= alt d <= 50 ∧ -5 <= turn d <= 5.






End GPSLoops.

(** ** Runs of the geo engine *)

Module GPSRuns.

(** A sequence of accepted [$GPGGA] fixes, in the order received. *)
Definition feed_fixes (fixes : list location) (g : GPSManager.state)
    : GPSManager.state :=
  fold_left (λ g '(lat, lon), GPSManager.on_gpgga lat lon g) fixes g.

(** [n] fixes due north of [(lat0, lon)], [delta] degrees apart. *)
Definition northbound (lat0 lon delta : R) (n : nat) : list location :=
  map (λ k, (lat0 + INR k * delta, lon)) (seq 1 n).

(** The length of the path through [locs], leg by leg: what a distance
    travelled is. *)
Fixpoint path_length (locs : list location) : R :=
  match locs with
  | a :: (b :: _) as rest => haversine_km a b + path_length rest
  | _ => 0
  end.

End GPSRuns.

(** ** Passenger switches: [GPIOManager._monitor_passengers] *)

Module GPIOPassengers.

Import GPIOManager.

Definition set_passenger_states (ps : list bool) (g : state) : state := {|
  running := running g; passenger_states := ps;
  current_mode := current_mode g; sos_active := sos_active g |}.

(** The [for i in range(3)] of [_monitor_passengers], from the slots
    [slots] on; [input pin] is what [GPIO.input(pin)] reads during the
    pass.  A [KeyError] ends the pass, what was done before it stays. *)
Fixpoint monitor_slots (input : nat → level) (slots : list nat) (g : state)
    : state * list signal :=
  match slots with
  | [] => (g, [])
  | i :: rest =>
      match getitem PINS ("passenger_" ++ PyNum.str_int (Z.of_nat (i + 1))),
            passenger_states g !! i with
      | Some pin, Some previous =>
          let current_state :=
            match input pin with LOW => true | HIGH => false end in
          let '(g1, e1) :=
            if Bool.eqb current_state previous then (g, [])
            else (set_passenger_states
                    (<[i := current_state]> (passenger_states g)) g,
                  [passenger_changed i current_state]) in
          let '(g2, e2) := monitor_slots input rest g1 in
          (g2, e1 ++ e2)
      | _, _ => (g, [])
      end
  end.

(** One pass of the [while self.running] loop of [_monitor_passengers]. *)
Definition _monitor_passengers (input : nat → level) (g : state)
    : state * list signal :=
  monitor_slots input (seq 0 3) g.

(** [get_current_mode()]. *)
Definition get_current_mode (g : state) : string := current_mode g.

End GPIOPassengers.

(** ** Operating modes: [ModeController] *)

Module ModeController.

Inductive signal := mode_changed (mode_name : string).

Definition MODES : list (string * string) := [
  ("For Hire", "Available for passengers - GPIO 23");
  ("Private", "Single passenger/group - GPIO 7");
  ("Sharing", "3 individual passengers - GPIO 8");
  ("Waiting", "Driver break/waiting - GPIO 18")
]%string.

Record state := {
  current_mode : string;
  is_active : bool
}.

Definition init : state := {| current_mode := "For Hire"; is_active := false |}.

(** [key in d]. *)
Definition contains {V : Type} (d : list (string * V)) (key : string) : bool :=
  match GPIOManager.getitem d key with Some _ => true | None => false end.

(** [x in [...]]. *)
Definition among (l : list string) (x : string) : bool :=
  existsb (String.eqb x) l.

(** [handle_mode_change(mode_name)]. *)
Definition handle_mode_change (mode_name : string) (m : state)
    : state * list signal :=
  if contains MODES mode_name && negb (String.eqb mode_name (current_mode m))
  then ({| current_mode := mode_name; is_active := is_active m |},
        [mode_changed mode_name])
  else (m, []).

(** [start()], the sampler reporting [initial_mode]. *)
Definition start (initial_mode : string) (m : state) : state * list signal :=
  let m1 := {| current_mode := current_mode m; is_active := true |} in
  if negb (String.eqb initial_mode (current_mode m1))
  then handle_mode_change initial_mode m1
  else (m1, []).

Definition get_current_mode (m : state) : string := current_mode m.

(** [get_mode_description()]. *)
Definition get_mode_description (m : state) : string :=
  default "Unknown mode"%string (GPIOManager.getitem MODES (current_mode m)).

Definition is_fare_mode (m : state) : bool :=
  among ["Private"; "Sharing"]%string (current_mode m).

Definition is_passenger_mode (m : state) : bool :=
  among ["For Hire"; "Private"; "Sharing"]%string (current_mode m).

(** [force_mode_change(mode_name)]: the state, the signals and the value
    returned. *)
Definition force_mode_change (mode_name : string) (m : state)
    : state * list signal * bool :=
  if contains MODES mode_name
  then (handle_mode_change mode_name m, true)
  else (m, [], false).

End ModeController.

(** ** The display: [RickyUI] and its widgets

    Of the display the model keeps what the backend signals write: the
    mode and the page shown, the fare of the private page, the cards of
    the sharing page and the emergency banner.  Texts other than the
    banner's, colours and the pages' distance and duration fields are left
    out. *)

Module SOSStatusWidget.

Inductive style := Normal | Countdown | Active.

Record state := {
  current_status : string;
  status_label : string;
  status_style : style
}.

Definition init : state := {|
  current_status := "Normal";
  status_label := "Status: Normal";
  status_style := Normal
|}.

(** [c.upper()] for one character: the status texts are ASCII but for
    their emoji, which have no upper case. *)
Definition upper_ascii (c : ascii) : ascii :=
  let n := nat_of_ascii c in
  if (97 <=? n)%nat && (n <=? 122)%nat then ascii_of_nat (n - 32) else c.

Fixpoint upper (s : string) : string :=
  match s with
  | EmptyString => EmptyString
  | String c rest => String (upper_ascii c) (upper rest)
  end.

(** [needle in hay]. *)
Fixpoint contains (needle hay : string) : bool :=
  String.prefix needle hay
  || match hay with
     | EmptyString => false
     | String _ rest => contains needle rest
     end.

(** [update_status(status)]. *)
Definition update_status (status : string) (w : state) : state :=
  if contains "SOS" (upper status) && contains "COUNTDOWN" (upper status) then
    {| current_status := status; status_label := status;
       status_style := Countdown |}
  else if contains "SOS" (upper status) && contains "ACTIVATED" (upper status)
  then
    {| current_status := status;
       status_label := "🚨 EMERGENCY SOS ACTIVE! 🚨";
       status_style := Active |}
  else
    {| current_status := status; status_label := "Status: Normal";
       status_style := Normal |}.

End SOSStatusWidget.

Module RickyUI.

(** A [PassengerCard]. *)
Record card := {
  card_fare : R;
  card_onboard : bool
}.

Record state := {
  current_mode : string;
  mode_stack : nat;                 (* [mode_stack.currentIndex()] *)
  private_total_fare : R;           (* [private_widget.total_fare] *)
  passenger_cards : list card;      (* [sharing_widget.passenger_cards] *)
  sos_widget : SOSStatusWidget.state
}.

(** What [update_mode] asks of the fare engine. *)
Inductive call := Start_private_mode | Stop_private_mode.

Definition mode_mapping : list (string * nat) := [
  ("Sharing", 0); ("Private", 1); ("For Hire", 2); ("Waiting", 3)
]%nat%string.

Definition set_current_mode (mode : string) (u : state) : state := {|
  current_mode := mode; mode_stack := mode_stack u;
  private_total_fare := private_total_fare u;
  passenger_cards := passenger_cards u; sos_widget := sos_widget u |}.

Definition set_mode_stack (index : nat) (u : state) : state := {|
  current_mode := current_mode u; mode_stack := index;
  private_total_fare := private_total_fare u;
  passenger_cards := passenger_cards u; sos_widget := sos_widget u |}.

Definition set_private_total_fare (fare : R) (u : state) : state := {|
  current_mode := current_mode u; mode_stack := mode_stack u;
  private_total_fare := fare;
  passenger_cards := passenger_cards u; sos_widget := sos_widget u |}.

Definition set_passenger_cards (cards : list card) (u : state) : state := {|
  current_mode := current_mode u; mode_stack := mode_stack u;
  private_total_fare := private_total_fare u;
  passenger_cards := cards; sos_widget := sos_widget u |}.

Definition set_sos_widget (w : SOSStatusWidget.state) (u : state) : state := {|
  current_mode := current_mode u; mode_stack := mode_stack u;
  private_total_fare := private_total_fare u;
  passenger_cards := passenger_cards u; sos_widget := w |}.

(** [update_mode(mode)]: the display and the calls made to the fare
    engine, in order. *)
Definition update_mode (mode : string) (u : state) : state * list call :=
  let u := set_current_mode mode u in
  match GPIOManager.getitem mode_mapping mode with
  | Some index =>
      let u := set_mode_stack index u in
      if String.eqb mode "Private" then (u, [Start_private_mode])
      else if String.eqb (current_mode u) "Private"
              && negb (String.eqb mode "Private")
      then (u, [Stop_private_mode])
      else (u, [])
  | None => (u, [])
  end.

(** After [__init__], whose [setup_ui] ends with
    [update_mode("For Hire")]. *)
Definition init : state :=
  (update_mode "For Hire"
     {| current_mode := "For Hire"; mode_stack := 0;
        private_total_fare := 0.0;
        passenger_cards :=
          replicate 3 {| card_fare := 0.0; card_onboard := false |};
        sos_widget := SOSStatusWidget.init |}).1.

(** [update_passenger(passenger_id, onboard)]. *)
Definition update_passenger (passenger_id : nat) (onboard : bool) (u : state)
    : state :=
  if String.eqb (current_mode u) "Sharing" then
    match passenger_cards u !! passenger_id with
    | Some c =>
        set_passenger_cards
          (<[passenger_id := {| card_fare := card_fare c;
                                card_onboard := onboard |}]>
             (passenger_cards u)) u
    | None => u
    end
  else u.

(** [update_fares(passenger_id, fare)]. *)
Definition update_fares (passenger_id : nat) (fare : R) (u : state) : state :=
  if String.eqb (current_mode u) "Sharing" then
    match passenger_cards u !! passenger_id with
    | Some c =>
        set_passenger_cards
          (<[passenger_id := {| card_fare := fare;
                                card_onboard := card_onboard c |}]>
             (passenger_cards u)) u
    | None => u
    end
  else if String.eqb (current_mode u) "Private" then
    set_private_total_fare fare u
  else u.

(** [update_sos_status(status)]. *)
Definition update_sos_status (status : string) (u : state) : state :=
  set_sos_widget (SOSStatusWidget.update_status status (sos_widget u)) u.

Definition get_current_mode (u : state) : string := current_mode u.

End RickyUI.

(** ** The meter as wired by [main.py]

    [RickyAutometer.setup_connections] and the [start()] methods connect
    the signals; a signal reaches its slots at once, in the order the
    slots were connected. *)

Module System.

Import GPIOManager.

Record state := {
  gpio : GPIOManager.state;
  fare_calculator : FareCalculator.state;
  mode_controller : ModeController.state;
  ui : RickyUI.state
}.

(** The slots of the fare engine's signals: [fare_updated] goes to
    [ui.update_fares]; [total_fare_updated] and [ride_completed] have no
    slot; [distance_updated] and [duration_updated] write fields the
    model leaves out. *)
Definition on_fare_signal (s : FareCalculator.signal) (u : RickyUI.state)
    : RickyUI.state :=
  match s with
  | FareCalculator.fare_updated passenger_id fare_amount =>
      RickyUI.update_fares passenger_id fare_amount u
  | _ => u
  end.

Definition on_fare_signals (sigs : list FareCalculator.signal)
    (u : RickyUI.state) : RickyUI.state :=
  fold_left (λ u s, on_fare_signal s u) sigs u.

(** A call of [update_mode] into the fare engine, its signals
    delivered. *)
Definition on_call (clk : clock) (c : RickyUI.call)
    (r : FareCalculator.state * RickyUI.state)
    : FareCalculator.state * RickyUI.state :=
  match c with
  | RickyUI.Start_private_mode =>
      let out := FareCalculator.start_private_mode clk r.1 in
      (out.1.1, on_fare_signals out.1.2 r.2)
  | RickyUI.Stop_private_mode =>
      ((FareCalculator.stop_private_mode clk r.1).1.1, r.2)
  end.

(** The slot of [mode_controller.mode_changed]: [ui.update_mode]. *)
Definition on_mode_changed (clk : clock) (s : ModeController.signal)
    (r : FareCalculator.state * RickyUI.state)
    : FareCalculator.state * RickyUI.state :=
  match s with
  | ModeController.mode_changed mode_name =>
      let '(u, calls) := RickyUI.update_mode mode_name r.2 in
      fold_left (λ r c, on_call clk c r) calls (r.1, u)
  end.

Definition on_mode_signals (clk : clock) (sigs : list ModeController.signal)
    (r : FareCalculator.state * RickyUI.state)
    : FareCalculator.state * RickyUI.state :=
  fold_left (λ r s, on_mode_changed clk s r) sigs r.

(** The slots of the sampler's signals.  [mode_switch_changed] goes to
    [mode_controller.handle_mode_change] once [mode_controller.start()]
    has connected it (it sets [is_active] in the same breath) and is lost
    before; [passenger_changed] goes to [ui.update_passenger], then to
    [fare_calculator.handle_passenger_change]. *)
Definition on_gpio_signal (clk : clock) (s : GPIOManager.signal) (sys : state)
    : state :=
  match s with
  | mode_switch_changed mode =>
      if ModeController.is_active (mode_controller sys) then
        let '(m, sigs) :=
          ModeController.handle_mode_change mode (mode_controller sys) in
        let r := on_mode_signals clk sigs (fare_calculator sys, ui sys) in
        {| gpio := gpio sys; fare_calculator := r.1;
           mode_controller := m; ui := r.2 |}
      else sys
  | passenger_changed passenger_id onboard =>
      let u := RickyUI.update_passenger passenger_id onboard (ui sys) in
      let out := FareCalculator.handle_passenger_change passenger_id onboard
                   clk (fare_calculator sys) in
      {| gpio := gpio sys; fare_calculator := out.1.1;
         mode_controller := mode_controller sys;
         ui := on_fare_signals out.1.2 u |}
  | _ => sys
  end.

Definition on_gpio_signals (clk : clock) (sigs : list GPIOManager.signal)
    (sys : state) : state :=
  fold_left (λ sys s, on_gpio_signal clk s sys) sigs sys.

Definition set_gpio (g : GPIOManager.state) (sys : state) : state := {|
  gpio := g; fare_calculator := fare_calculator sys;
  mode_controller := mode_controller sys; ui := ui sys |}.

(** What the threads do, one step each. *)
Inductive event :=
| Mode_poll (input : nat → level) (clk : clock)
| Passenger_poll (input : nat → level) (clk : clock)
| Calculation (clk : clock)
| Gps (g : GPSManager.state).

Definition step (e : event) (sys : state) : state :=
  match e with
  | Mode_poll input clk =>
      let '(g, sigs) := GPIOManager._monitor_mode_switch input (gpio sys) in
      on_gpio_signals clk sigs (set_gpio g sys)
  | Passenger_poll input clk =>
      let '(g, sigs) := GPIOPassengers._monitor_passengers input (gpio sys) in
      on_gpio_signals clk sigs (set_gpio g sys)
  | Calculation clk =>
      let '(f, sigs) :=
        FareCalculator._calculation_loop clk (fare_calculator sys) in
      {| gpio := gpio sys; fare_calculator := f;
         mode_controller := mode_controller sys;
         ui := on_fare_signals sigs (ui sys) |}
  | Gps g =>
      {| gpio := gpio sys;
         fare_calculator :=
           FareCalculator.set_gps_manager g (fare_calculator sys);
         mode_controller := mode_controller sys; ui := ui sys |}
  end.

Definition run (events : list event) (sys : state) : state :=
  fold_left (λ sys e, step e sys) events sys.

(** [RickyAutometer.__init__] at clock [clk], and the sampler started. *)
Definition init (clk : clock) : state := {|
  gpio := GPIOManager.set_running true GPIOManager.init;
  fare_calculator := FareCalculator.init GPSManager.init 12.0 clk;
  mode_controller := ModeController.init;
  ui := RickyUI.init
|}.

(** [mode_controller.start()] at clock [clk]. *)
Definition start_mode_controller (clk : clock) (sys : state) : state :=
  let '(m, sigs) :=
    ModeController.start (GPIOPassengers.get_current_mode (gpio sys))
      (mode_controller sys) in
  let r := on_mode_signals clk sigs (fare_calculator sys, ui sys) in
  {| gpio := gpio sys; fare_calculator := r.1;
     mode_controller := m; ui := r.2 |}.

(** A session: [RickyAutometer.run()] starts the sampler, the geo engine
    and the fare engine, whose threads may run ([early]) before it starts
    the mode controller; then everything runs ([later]). *)
Definition session (clk0 : clock) (early : list event) (clk : clock)
    (later : list event) : state :=
  run later (start_mode_controller clk (run early (init clk0))).

(** The slot of [sos_system.sos_status_changed]:
    [ui.update_sos_status]; the other signals of the SOS machine have no
    slot. *)
Definition on_sos_signal (s : SOSSystem.signal) (u : RickyUI.state)
    : RickyUI.state :=
  match s with
  | SOSSystem.sos_status_changed msg => RickyUI.update_sos_status msg u
  | _ => u
  end.

Definition on_sos_signals (sigs : list SOSSystem.signal) (u : RickyUI.state)
    : RickyUI.state :=
  fold_left (λ u s, on_sos_signal s u) sigs u.

(** The switch of position [position] (a key of [PINS]) is closed, the
    other lines read HIGH. *)
Definition switch_at (position : string) : nat → level :=
  λ p, if Nat.eqb p (pin position) then LOW else HIGH.

(** The mode is one of the four positions of the rotary switch. *)
Definition position (mode : string) : Prop :=
  mode = "Private"%string ∨ mode = "Sharing"%string
  ∨ mode = "Waiting"%string ∨ mode = "For Hire"%string.

(** Sampler, controller and display agree on the mode, and the page
    shown is the page of that mode. *)
Definition mode_synced (sys : state) : Prop :=
  ModeController.current_mode (mode_controller sys) = current_mode (gpio sys)
  ∧ RickyUI.current_mode (ui sys) = current_mode (gpio sys)
  ∧ getitem RickyUI.mode_mapping (current_mode (gpio sys))
    = Some (RickyUI.mode_stack (ui sys)).

(** Sampler and fare engine agree on who is aboard. *)
Definition passengers_synced (sys : state) : Prop :=
  FareCalculator.onboard <$> FareCalculator.passengers (fare_calculator sys)
  = passenger_states (gpio sys).

(** No passenger switch is closed during the poll. *)
Definition nobody_aboard (e : event) : Prop :=
  match e with
  | Passenger_poll input _ =>
      input (pin "passenger_1") = HIGH ∧ input (pin "passenger_2") = HIGH
      ∧ input (pin "passenger_3") = HIGH
  | _ => True
  end.

End System.

(** ** More lines, and what every run keeps *)

Module TimelineRuns.

Import GPIOManager Timeline.

(** The line held LOW from time 0 until [r], released, and held again
    from [p] until [q]. *)
Definition held_twice (r p q : Z) : Z → level :=
  λ t, if ((t <? r) || ((p <=? t) && (t <? q)))%Z then LOW else HIGH.

(** An [sos_activated] signal was emitted at time [t]. *)
Definition activated_at (t : Z) (w : world) : bool :=
  existsb (λ '(t', ev),
             match ev with
             | Sos_signal (SOSSystem.sos_activated _) => (t' =? t)%Z
             | _ => false
             end) (log w).

(** No world of [ws] has a thread waking strictly between [lo] and
    [hi]. *)
Definition off_window (lo hi : Z) (ws : list world) : bool :=
  forallb (λ w, (next_time w <=? lo)%Z || (hi <=? next_time w)%Z) ws.




(** The alarm runs and nothing but the idle monitor, due at or after
    [release], is there to stop it. *)
Definition alarmed (release : Z) (w : world) : Prop :=
  running (gpio w) = true ∧ GPIOManager.sos_active (gpio w) = true
  ∧ ∃ t t' pc, (release ≤ t)%Z ∧ (pc < length sos_cycle)%nat
               ∧ threads w = [(t, Monitor Idle); (t', Pattern pc)].

(** Every thread is due at a multiple of 50 ms, the clock stands at
    one, and neither is before the start. *)
Definition on_grid (w : world) : Prop :=
  (0 ≤ now w ∧ now w mod 50 = 0)%Z
  ∧ Forall (λ th : Z * thread, (0 ≤ th.1 ∧ th.1 mod 50 = 0)%Z) (threads w).

(** What one thread does between two sleeps: it resumes a multiple of
    50 ms later, and threads it starts are due at once. *)
Definition timely (t : Z) (e : effect) : Prop :=
  (∀ r, resume e = Some r → ∃ d, (0 ≤ d ∧ d mod 50 = 0) ∧ r.1 = t + d)%Z
  ∧ Forall (λ th : Z * thread, th.1 = t) (spawned e).

(** The line HIGH but from [a] up to [b]. *)
Definition tap (a b : Z) : Z → level :=
  λ t, if ((a <=? t) && (t <? b))%Z then LOW else HIGH.

(** The run up to [bound]: steps are taken as long as a thread is due at
    or before [bound]. *)
Fixpoint run_until (line : Z → level) (bound : Z) (fuel : nat) (w : world)
    : world :=
  match fuel with
  | O => w
  | S fuel' =>
      if (next_time w <=? bound)%Z
      then run_until line bound fuel' (step line w)
      else w
  end.

(** An [sos_deactivated] signal was emitted at a time from [lo] to
    [hi]. *)
Definition deactivated_between (lo hi : Z) (w : world) : bool :=
  existsb (λ '(t, ev),
             match ev with
             | Sos_signal SOSSystem.sos_deactivated =>
                 ((lo <=? t) && (t <=? hi))%Z
             | _ => false
             end) (log w).

(** The first second of a countdown was announced at [t] or later. *)
Definition countdown_begun_since (t : Z) (w : world) : bool :=
  existsb (λ '(t', ev),
             match ev with
             | Sos_signal (SOSSystem.sos_status_changed msg) =>
                 (t <=? t')%Z && String.eqb msg "SOS COUNTDOWN: 5 seconds"
             | _ => false
             end) (log w).

(** The event is a write to an output line. *)
Definition is_output (ev : Z * event) : bool :=
  match ev.2 with
  | Gpio_output _ => true
  | _ => false
  end.

(** What a run of [n] steps with the line released at [50 * c] ms, after
    the activation, is tested for: the machine was activated at second 5,
    the release was seen within 50 ms of [50 * c], the machine and the
    sampler are back to rest and only the idle monitor is left. *)
Definition deactivates_cleanly (n : nat) (c : Z) : bool :=
  let w := run (held_until (50 * c)) n start in
  running (gpio w)
  && negb (SOSSystem.sos_active (sos w))
  && negb (SOSSystem.countdown_active (sos w))
  && negb (GPIOManager.sos_active (gpio w))
  && activated_at 5000 w
  && deactivated_between (50 * c) (50 * c + 50) w
  && match threads w with
     | [(t, Monitor Idle)] => (50 * c <=? t)%Z
     | _ => false
     end.

(** What the run up to second 5 with the line released at [rr] and
    pressed again at [pp] is tested for: the cancellation was signalled, a
    countdown was begun at [pp] or later, and at second 5 the machine is
    Active while the alarm of the sampler is not. *)
Definition reactivates (rr pp : Z) : bool :=
  let w := run_until (held_twice rr pp 5050) 5000 200 start in
  (now w =? 5000)%Z && (5000 <? next_time w)%Z
  && cancel_signalled w
  && countdown_begun_since pp w
  && SOSSystem.sos_active (sos w)
  && negb (GPIOManager.sos_active (gpio w))
  && activated_at 5000 w.

End TimelineRuns.

(** * Properties *)

(** ** Geo engine *)

Section GeoEngine.

Import PyNum GPSManager.

Lemma truthy_true x : truthy x = true ↔ x ≠ 0.
Proof. unfold truthy. destruct (Req_dec_T x 0); split; congruence. Qed.

Lemma truthy_false x : truthy x = false ↔ x = 0.
Proof. unfold truthy. destruct (Req_dec_T x 0); split; congruence. Qed.

Lemma py_all_4 a b c d :
  py_all [a; b; c; d] = true ↔ a ≠ 0 ∧ b ≠ 0 ∧ c ≠ 0 ∧ d ≠ 0.
Proof.
  unfold py_all; simpl. rewrite !andb_true_iff, !truthy_true. tauto.
Qed.

Lemma py_all_4_false a b c d :
  py_all [a; b; c; d] = false ↔ a = 0 ∨ b = 0 ∨ c = 0 ∨ d = 0.
Proof.
  unfold py_all; simpl.
  rewrite andb_true_r, !andb_false_iff, !truthy_false. tauto.
Qed.

(** The argument of the square root lies in [0, 1] whatever the
    angles, so the [try] block never raises on real numbers. *)
Lemma haversine_arg_bounds p1 p2 l :
  0 <= sin ((p2 - p1) / 2) ^ 2 + cos p1 * cos p2 * sin (l / 2) ^ 2 <= 1.
Proof.
  pose proof (cos_2a_sin ((p2 - p1) / 2)) as Hd.
  replace (2 * ((p2 - p1) / 2)) with (p2 - p1) in Hd by lra.
  rewrite cos_minus in Hd.
  pose proof (COS_bound (p2 - p1)) as Hm. rewrite cos_minus in Hm.
  pose proof (COS_bound (p2 + p1)) as Hp. rewrite cos_plus in Hp.
  pose proof (SIN_bound (l / 2)) as Hs.
  set (x := cos p1 * cos p2).
  set (y := sin p1 * sin p2).
  set (s := sin (l / 2)) in *.
  set (h := sin ((p2 - p1) / 2)) in *.
  assert (Hx : cos p2 * cos p1 = x) by (unfold x; ring).
  assert (Hy : sin p2 * sin p1 = y) by (unfold y; ring).
  rewrite Hx, Hy in Hd, Hm, Hp.
  assert (Hh : h ^ 2 = (1 - (x + y)) / 2) by (simpl; lra).
  assert (Hs2 : 0 <= s ^ 2 <= 1) by (simpl; nra).
  rewrite Hh. set (s2 := s ^ 2) in *. clearbody s2.
  split; nra.
Qed.

Lemma math_sqrt_ok a : 0 <= a → math_sqrt a = Some (sqrt a).
Proof. intros Ha. unfold math_sqrt. destruct (Rlt_dec a 0); [lra | done]. Qed.

Lemma math_asin_ok s : -1 <= s <= 1 → math_asin s = Some (asin s).
Proof.
  intros Hs. unfold math_asin.
  destruct (Rlt_dec s (-1)); [lra |].
  destruct (Rlt_dec 1 s); [lra | done].
Qed.

Lemma sqrt_unit a : 0 <= a <= 1 → -1 <= sqrt a <= 1.
Proof.
  intros [H0 H1]. pose proof (sqrt_pos a).
  pose proof (sqrt_le_1_alt a 1 H1) as Hle. rewrite sqrt_1 in Hle. lra.
Qed.

(** The [try] block computes the haversine distance and never raises. *)
Lemma haversine_try_spec lat1 lon1 lat2 lon2 :
  haversine_try lat1 lon1 lat2 lon2
  = Some (haversine_km (lat1, lon1) (lat2, lon2)).
Proof.
  unfold haversine_try, haversine_km, radians; cbn [fst snd].
  replace ((lat2 - lat1) * (PI / 180))
    with (lat2 * (PI / 180) - lat1 * (PI / 180)) by ring.
  replace ((lon2 - lon1) * (PI / 180))
    with (lon2 * (PI / 180) - lon1 * (PI / 180)) by ring.
  set (p1 := lat1 * (PI / 180)). set (p2 := lat2 * (PI / 180)).
  set (l := lon2 * (PI / 180) - lon1 * (PI / 180)).
  pose proof (haversine_arg_bounds p1 p2 l) as Hb.
  rewrite math_sqrt_ok by lra. cbn [mbind option_bind].
  rewrite math_asin_ok by (apply sqrt_unit; lra). cbn [mbind option_bind].
  f_equal. lra.
Qed.

(** What [calculate_distance] returns, case by case. *)
Lemma calculate_distance_cases lat1 lon1 lat2 lon2 :
  calculate_distance lat1 lon1 lat2 lon2
  = if py_all [lat1; lon1; lat2; lon2]
    then haversine_km (lat1, lon1) (lat2, lon2) else 0.
Proof.
  unfold calculate_distance. rewrite haversine_try_spec.
  destruct (py_all _); cbn [negb]; lra.
Qed.

Lemma haversine_km_refl a : haversine_km a a = 0.
Proof.
  unfold haversine_km.
  replace ((fst a - fst a) * (PI / 180) / 2) with 0 by lra.
  replace ((snd a - snd a) * (PI / 180) / 2) with 0 by lra.
  rewrite sin_0.
  replace (0 ^ 2 + cos (fst a * (PI / 180)) * cos (fst a * (PI / 180)) * 0 ^ 2)
    with 0 by (simpl; ring).
  rewrite sqrt_0, asin_0. ring.
Qed.

Lemma haversine_km_sym a b : haversine_km a b = haversine_km b a.
Proof.
  unfold haversine_km.
  replace ((fst a - fst b) * (PI / 180) / 2)
    with (- ((fst b - fst a) * (PI / 180) / 2)) by lra.
  replace ((snd a - snd b) * (PI / 180) / 2)
    with (- ((snd b - snd a) * (PI / 180) / 2)) by lra.
  rewrite !sin_neg.
  do 3 f_equal. simpl. ring.
Qed.

Lemma asin_nonneg x : 0 <= x <= 1 → 0 <= asin x.
Proof.
  intros Hx. destruct (Rle_lt_dec 0 (asin x)) as [H | H]; [done |].
  exfalso.
  pose proof (asin_bound x) as Hb. pose proof PI_RGT_0 as Hpi.
  assert (Hs : 0 < sin (- asin x)) by (apply sin_gt_0; lra).
  rewrite sin_neg, sin_asin in Hs by lra. lra.
Qed.

Lemma haversine_km_nonneg a b : 0 <= haversine_km a b.
Proof.
  unfold haversine_km.
  replace ((fst b - fst a) * (PI / 180))
    with (fst b * (PI / 180) - fst a * (PI / 180)) by ring.
  set (x := sqrt _).
  assert (Hx : 0 <= x <= 1).
  { pose proof (sqrt_pos
      (sin ((fst b * (PI / 180) - fst a * (PI / 180)) / 2) ^ 2
       + cos (fst a * (PI / 180)) * cos (fst b * (PI / 180))
         * sin ((snd b - snd a) * (PI / 180) / 2) ^ 2)).
    pose proof (sqrt_unit _ (haversine_arg_bounds (fst a * (PI / 180))
                  (fst b * (PI / 180)) ((snd b - snd a) * (PI / 180)))).
    unfold x. lra. }
  pose proof (asin_nonneg x Hx). lra.
Qed.

(** Along a meridian the haversine distance is the arc length. *)
Lemma haversine_km_meridian lat1 lat2 lon :
  0 <= lat2 - lat1 <= 180 →
  haversine_km (lat1, lon) (lat2, lon) = 6371 * (lat2 - lat1) * (PI / 180).
Proof.
  intros Hd. unfold haversine_km; cbn [fst snd].
  replace ((lon - lon) * (PI / 180) / 2) with 0 by lra.
  rewrite sin_0.
  set (x := (lat2 - lat1) * (PI / 180) / 2).
  replace (sin x ^ 2 + cos (lat1 * (PI / 180)) * cos (lat2 * (PI / 180)) * 0 ^ 2)
    with (sin x ^ 2) by (simpl; ring).
  pose proof PI_RGT_0 as Hpi.
  assert (Hx : 0 <= x <= PI / 2) by (unfold x; split; nra).
  rewrite sqrt_pow2 by (apply sin_ge_0; lra).
  rewrite asin_sin by lra.
  unfold x. lra.
Qed.

Lemma calculate_distance_zero lat1 lon1 lat2 lon2 :
  lat1 = 0 ∨ lon1 = 0 ∨ lat2 = 0 ∨ lon2 = 0 →
  calculate_distance lat1 lon1 lat2 lon2 = 0.
Proof.
  intros H. rewrite calculate_distance_cases.
  apply py_all_4_false in H. by rewrite H.
Qed.

Lemma calculate_distance_nonzero lat1 lon1 lat2 lon2 :
  lat1 ≠ 0 → lon1 ≠ 0 → lat2 ≠ 0 → lon2 ≠ 0 →
  calculate_distance lat1 lon1 lat2 lon2 = haversine_km (lat1, lon1) (lat2, lon2).
Proof.
  intros H1 H2 H3 H4. rewrite calculate_distance_cases.
  assert (H : py_all [lat1; lon1; lat2; lon2] = true) by (by apply py_all_4).
  by rewrite H.
Qed.

Lemma calculate_distance_refl lat lon : calculate_distance lat lon lat lon = 0.
Proof.
  rewrite calculate_distance_cases.
  destruct (py_all _); [apply haversine_km_refl | done].
Qed.

Lemma calculate_distance_sym lat1 lon1 lat2 lon2 :
  calculate_distance lat1 lon1 lat2 lon2 = calculate_distance lat2 lon2 lat1 lon1.
Proof.
  rewrite !calculate_distance_cases.
  rewrite (haversine_km_sym (lat1, lon1) (lat2, lon2)).
  replace (py_all [lat2; lon2; lat1; lon1]) with (py_all [lat1; lon1; lat2; lon2]);
    [done |].
  unfold py_all; simpl.
  destruct (truthy lat1), (truthy lon1), (truthy lat2), (truthy lon2); done.
Qed.

(** The distance the code returns is the haversine distance or zero, and
    never more than the haversine distance. *)
Lemma calculate_distance_le_haversine lat1 lon1 lat2 lon2 :
  0 <= calculate_distance lat1 lon1 lat2 lon2
    <= haversine_km (lat1, lon1) (lat2, lon2).
Proof.
  rewrite calculate_distance_cases.
  pose proof (haversine_km_nonneg (lat1, lon1) (lat2, lon2)).
  destruct (py_all _); lra.
Qed.

(** A step of 0.0002 degrees of latitude in Mumbai: about 22 m, above
    the 5 m noise floor. *)
Lemma mumbai_step_distance :
  calculate_distance 19.0760 72.8777 19.0762 72.8777
  = 6371 * 0.0002 * (PI / 180).
Proof.
  rewrite calculate_distance_nonzero by lra.
  rewrite haversine_km_meridian by lra. lra.
Qed.

Lemma mumbai_step_above_floor : 0.005 < 6371 * 0.0002 * (PI / 180).
Proof. pose proof PI2_3_2. lra. Qed.

Lemma int_of_floor x z : IZR z <= x < IZR z + 1 → 0 <= x → PyNum.int x = z.
Proof.
  intros Hx H0. unfold PyNum.int. destruct (Rle_dec 0 x); [| lra].
  symmetry. apply Int_part_spec. lra.
Qed.

End GeoEngine.

Create HintDb geo discriminated.
#[export] Hint Resolve calculate_distance_nonzero calculate_distance_zero
  calculate_distance_refl calculate_distance_sym haversine_km_nonneg : geo.

(** C6 (as amended).  [calculate_distance] is the haversine great-circle
    distance with Earth radius 6371.0 km whenever none of the four
    coordinate components is 0.0, and 0.0 as soon as one of them is; on
    every input the distance from a location to itself is 0 and the
    distance is symmetric (exactly so, in real arithmetic). *)
Theorem C6_distance_haversine_identity_symmetry (lat1 lon1 lat2 lon2 : R) :
  (lat1 ≠ 0 → lon1 ≠ 0 → lat2 ≠ 0 → lon2 ≠ 0 →
   GPSManager.calculate_distance lat1 lon1 lat2 lon2
   = haversine_km (lat1, lon1) (lat2, lon2))
  ∧ (lat1 = 0 ∨ lon1 = 0 ∨ lat2 = 0 ∨ lon2 = 0 →
     GPSManager.calculate_distance lat1 lon1 lat2 lon2 = 0)
  ∧ GPSManager.calculate_distance lat1 lon1 lat1 lon1 = 0
  ∧ GPSManager.calculate_distance lat1 lon1 lat2 lon2
    = GPSManager.calculate_distance lat2 lon2 lat1 lon1.
Proof. repeat split; auto with geo. Qed.

(** Two fixes 0.0002 degrees of latitude apart in Mumbai are about 22 m
    apart. *)
Lemma C6_distance_witness :
  GPSManager.calculate_distance 19.0760 72.8777 19.0762 72.8777
  = haversine_km (19.0760, 72.8777) (19.0762, 72.8777)
  ∧ haversine_km (19.0760, 72.8777) (19.0762, 72.8777)
    = 6371 * 0.0002 * (PI / 180).
Proof.
  destruct (C6_distance_haversine_identity_symmetry 19.0760 72.8777 19.0762 72.8777)
    as [H _].
  split; [apply H; lra |].
  rewrite haversine_km_meridian by lra.
  lra.
Defined.

(** C6 as stated fails on the prime meridian: from (10, 0) to (20, 0) the
    haversine distance is ten degrees of arc, about 1112 km, and the code
    returns 0. *)
Lemma C6_counterexample :
  GPSManager.calculate_distance 10 0 20 0 = 0
  ∧ haversine_km (10, 0) (20, 0) = 6371 * 10 * (PI / 180)
  ∧ GPSManager.calculate_distance 10 0 20 0 ≠ haversine_km (10, 0) (20, 0).
Proof.
  assert (H0 : GPSManager.calculate_distance 10 0 20 0 = 0)
    by (apply calculate_distance_zero; auto).
  assert (H1 : haversine_km (10, 0) (20, 0) = 6371 * 10 * (PI / 180))
    by (rewrite haversine_km_meridian by lra; lra).
  repeat split; [done | done |].
  rewrite H0, H1. pose proof PI_RGT_0. lra.
Qed.


(** ** Fare engine: one accumulation tick *)

(** Decide every real comparison the goal branches on. *)
Ltac tick_cases :=
  repeat match goal with
         | |- context [Rlt_dec ?a ?b] => destruct (Rlt_dec a b)
         end.

Section AccumulationTick.

Import FareCalculator FareRuns.

Variable self : state.
Variable pid : nat.

(** The tick of a slot that has no last location records the sample and
    charges nothing. *)
Lemma update_passenger_fare_first p c speed dt :
  last_location p = None →
  let p' := (_update_passenger_fare self pid p c speed dt).1 in
  fare p' = fare p ∧ total_distance p' = total_distance p
  ∧ waiting_time p' = waiting_time p ∧ last_location p' = Some c
  ∧ (_update_passenger_fare self pid p c speed dt).2 = [].
Proof. intros H. unfold _update_passenger_fare. rewrite H. done. Qed.

(** The tick of a slot whose last location is [l], field by field. *)
Lemma update_passenger_fare_tick p l c speed dt :
  last_location p = Some l →
  let moved := _calculate_distance (Some l) (Some c) in
  let p' := (_update_passenger_fare self pid p c speed dt).1 in
  fare p'
  = fare p
    + (if Rlt_dec 0.005 moved then moved * fare_rate_per_km self else 0)
    + (if Rlt_dec speed (minimum_speed_threshold self)
       then dt / 60 * waiting_charge_per_minute else 0)
  ∧ total_distance p'
    = total_distance p + (if Rlt_dec 0.005 moved then moved else 0)
  ∧ last_location p' = Some (if Rlt_dec 0.005 moved then c else l)
  ∧ waiting_time p'
    = waiting_time p
      + (if Rlt_dec speed (minimum_speed_threshold self) then dt / 60 else 0)
  ∧ onboard p' = onboard p ∧ start_location p' = start_location p
  ∧ start_time p' = start_time p ∧ ride_id p' = ride_id p
  ∧ (_update_passenger_fare self pid p c speed dt).2 = [fare_updated pid (fare p')].
Proof.
  intros H. unfold _update_passenger_fare. rewrite H. cbn zeta.
  tick_cases; cbn; repeat split; try done; try lra.
Qed.

Lemma update_passenger_fare_distance_mono p c speed dt :
  total_distance p
  <= total_distance (_update_passenger_fare self pid p c speed dt).1.
Proof.
  destruct (last_location p) as [l |] eqn:H.
  - destruct (update_passenger_fare_tick p l c speed dt H) as (_ & -> & _).
    destruct (Rlt_dec 0.005 _); lra.
  - destruct (update_passenger_fare_first p c speed dt H) as (_ & -> & _). lra.
Qed.

Lemma feed_distance_mono samples p :
  total_distance p <= total_distance (feed self pid p samples).
Proof.
  revert p. induction samples as [| [[c speed] dt] rest IH]; intros p; cbn.
  - lra.
  - etransitivity; [| apply IH]. apply update_passenger_fare_distance_mono.
Qed.

End AccumulationTick.

(** ** Ride ids *)

Section RideIds.

Import PyNum FareRuns.
Local Open Scope string_scope.

Lemma string_of_uint_dashless d : dashless (NilEmpty.string_of_uint d).
Proof. induction d; cbn; (split; [discriminate | done]) || done. Qed.

Lemma str_int_pos_dashless z : (0 < z)%Z → dashless (str_int z).
Proof.
  intros Hz. destruct z as [| p |]; try lia.
  unfold str_int; cbn [Z.to_int NilZero.string_of_int NilZero.string_of_uint].
  destruct (Pos.to_uint p); try apply string_of_uint_dashless.
  cbn. split; [discriminate | done].
Qed.

(** The first dash of a string cuts it in one way only. *)
Lemma dash_split a a' b b' :
  dashless a → dashless a' →
  a ++ "-" ++ b = a' ++ "-" ++ b' → a = a' ∧ b = b'.
Proof.
  revert a'. induction a as [| c a IH]; intros [| c' a'] Ha Ha' H; cbn in *.
  - by injection H.
  - injection H as H _. destruct Ha' as [Hc _]. by subst c'.
  - injection H as H _. destruct Ha as [Hc _]. by subst c.
  - injection H as -> H. destruct Ha, Ha'.
    destruct (IH a') as [-> ->]; done.
Qed.

Lemma to_int_proper z :
  Z.to_int z ≠ Decimal.Pos Decimal.Nil ∧ Z.to_int z ≠ Decimal.Neg Decimal.Nil.
Proof.
  destruct z as [| p | p]; cbn; split; try discriminate;
    intros [= H]; by apply (DecimalPos.Unsigned.to_uint_nonnil p).
Qed.

Lemma str_int_inj z z' : str_int z = str_int z' → z = z'.
Proof.
  unfold str_int. intros H.
  apply DecimalZ.to_int_inj.
  destruct (to_int_proper z) as [H1 H2], (to_int_proper z') as [H1' H2'].
  pose proof (NilZero.isi _ H1 H2) as E.
  pose proof (NilZero.isi _ H1' H2') as E'.
  rewrite H in E. congruence.
Qed.

(** Two ride ids are equal exactly when slot and clock second are. *)
Lemma ride_id_of_inj pid t pid' t' :
  FareCalculator.ride_id_of pid t = FareCalculator.ride_id_of pid' t'
  ↔ pid = pid' ∧ PyNum.int t = PyNum.int t'.
Proof.
  unfold FareCalculator.ride_id_of. split.
  - intros H. cbn [append] in H. injection H as H.
    apply dash_split in H; try (apply str_int_pos_dashless; lia).
    destruct H as [Ha Hb].
    apply str_int_inj in Ha. apply str_int_inj in Hb. split; [lia | done].
  - by intros [-> ->].
Qed.

End RideIds.

(** ** Fare engine: a ride from boarding to alighting *)

Section Rides.

Import FareCalculator FareRuns.

(** The [for] loop of a tick updates each onboard slot by
    [_update_passenger_fare] and leaves the others alone. *)
Lemma update_onboard_lookup self c speed dt ps k i :
  (update_onboard self k ps c speed dt).1 !! i
  = (λ p, if onboard p
          then (_update_passenger_fare self (k + i) p c speed dt).1 else p)
    <$> ps !! i.
Proof.
  revert k i. induction ps as [| p ps IH]; intros k i; cbn [update_onboard].
  - done.
  - destruct (update_onboard self (S k) ps c speed dt) as [rest' es] eqn:Hr.
    specialize (IH (S k)). rewrite Hr in IH. cbn [fst] in IH.
    destruct i as [| i].
    + cbn. replace (k + 0)%nat with k by lia.
      destruct (onboard p); [| done].
      by destruct (_update_passenger_fare self k p c speed dt).
    + assert (Hi : ((if onboard p
                    then _update_passenger_fare self k p c speed dt
                    else (p, [])).1 :: rest') !! S i = rest' !! i) by done.
      destruct (if onboard p then _ else _) as [p' e]. cbn [fst] in *.
      rewrite Hi, IH. replace (S k + i)%nat with (k + S i)%nat by lia. done.
Qed.

Lemma update_passenger_fare_signals self k p c speed dt :
  Forall (λ s, ∀ pid, completes pid s = false)
         (_update_passenger_fare self k p c speed dt).2.
Proof.
  unfold _update_passenger_fare.
  destruct (last_location p); cbn; repeat constructor.
Qed.

Lemma update_onboard_signals self c speed dt ps k :
  Forall (λ s, ∀ pid, completes pid s = false)
         (update_onboard self k ps c speed dt).2.
Proof.
  revert k. induction ps as [| p ps IH]; intros k; cbn [update_onboard].
  - constructor.
  - specialize (IH (S k)).
    destruct (update_onboard self (S k) ps c speed dt) as [rest' es].
    pose proof (update_passenger_fare_signals self k p c speed dt) as Hp.
    destruct (onboard p).
    + destruct (_update_passenger_fare self k p c speed dt) as [p' e].
      cbn in *. by apply Forall_app.
    + done.
Qed.

(** The private-trip updater touches the private fields only. *)
Lemma update_private_fare_frame clk c speed dt st :
  let r := _update_private_fare clk c speed dt st in
  passengers r.1 = passengers st
  ∧ minimum_speed_threshold r.1 = minimum_speed_threshold st
  ∧ fare_rate_per_km r.1 = fare_rate_per_km st
  ∧ gps_manager r.1 = gps_manager st
  ∧ Forall (λ s, ∀ pid, completes pid s = false) r.2.
Proof.
  unfold _update_private_fare.
  destruct (private_last_location st); [| cbn; repeat split; constructor].
  cbn zeta.
  destruct (Rlt_dec 0.005 _), (Rlt_dec speed _); cbn;
    destruct (private_start_time st); cbn; repeat split;
    repeat constructor.
Qed.

Lemma Rsum_app l1 l2 : Rsum (l1 ++ l2) = Rsum l1 + Rsum l2.
Proof.
  unfold Rsum. induction l1 as [| x l1 IH]; cbn; [| rewrite IH]; lra.
Qed.

(** One pass of the calculation loop charges an onboard slot what the
    specification says and nothing else. *)
Lemma calculation_loop_slot clk st pid q :
  passengers st !! pid = Some q → onboard q = true →
  minimum_speed_threshold st = 2 →
  rides_on pid q (Rsum (spec_tick_charges pid clk st)) st
           (_calculation_loop clk st).1 (_calculation_loop clk st).2.
Proof.
  intros Hq Hon Hthr.
  unfold _calculation_loop, spec_tick_charges. rewrite Hq, Hon.
  set (dt := time_time clk - last_gps_update st).
  set (c := GPSManager.get_location (gps_manager st)).
  set (speed := GPSManager.get_speed (gps_manager st)).
  destruct (Rle_dec 1.0 dt) as [Hdt | Hdt].
  2: { destruct (Rle_dec 1 dt); [lra |].
       exists q. unfold Rsum. cbn. repeat split; try done; lra. }
  destruct (Rle_dec 1 dt); [| lra].
  pose proof (update_onboard_lookup st c speed dt (passengers st) 0 pid) as Hl.
  pose proof (update_onboard_signals st c speed dt (passengers st) 0) as He.
  destruct (update_onboard st 0 (passengers st) c speed dt) as [ps e1].
  cbn [fst snd] in Hl, He. rewrite Hq in Hl. cbn in Hl. rewrite Hon in Hl.
  set (s1 := set_passengers ps st).
  pose proof (update_private_fare_frame clk c speed dt s1) as Hf.
  destruct (private_mode_active s1).
  - destruct (_update_private_fare clk c speed dt s1) as [s2 e2].
    cbn in Hf. destruct Hf as (Hps & Hm & _ & _ & He2).
    exists (_update_passenger_fare st pid q c speed dt).1. cbn.
    rewrite Hps. split; [done |].
    assert (Hsig : Forall (λ s, completes pid s = false) (e1 ++ e2)).
    { apply Forall_app; split; eapply Forall_impl; eauto. }
    clear He He2 Hl.
    destruct (last_location q) as [l |] eqn:Hlast.
    + destruct (update_passenger_fare_tick st pid q l c speed dt Hlast)
        as (Hfare & _ & _ & _ & H1 & H2 & H3 & H4 & _).
      repeat split; try done. rewrite Hfare, Hthr, Rsum_app.
      unfold _calculate_distance, waiting_charge_per_minute.
      destruct (Rlt_dec 0.005 _), (Rlt_dec speed 2), (Rlt_dec speed 2.0);
        cbn; lra.
    + destruct (update_passenger_fare_first st pid q c speed dt Hlast)
        as (Hfare & _).
      unfold _update_passenger_fare in *. rewrite Hlast in *. cbn in *.
      repeat split; try done. lra.
  - exists (_update_passenger_fare st pid q c speed dt).1. cbn.
    split; [done |].
    assert (Hsig : Forall (λ s, completes pid s = false) (e1 ++ [])).
    { apply Forall_app; split; [| constructor]. eapply Forall_impl; eauto. }
    clear He Hl.
    destruct (last_location q) as [l |] eqn:Hlast.
    + destruct (update_passenger_fare_tick st pid q l c speed dt Hlast)
        as (Hfare & _ & _ & _ & H1 & H2 & H3 & H4 & _).
      repeat split; try done. rewrite Hfare, Hthr, Rsum_app.
      unfold _calculate_distance, waiting_charge_per_minute.
      destruct (Rlt_dec 0.005 _), (Rlt_dec speed 2), (Rlt_dec speed 2.0);
        cbn; lra.
    + unfold _update_passenger_fare in *. rewrite Hlast in *. cbn in *.
      repeat split; try done. lra.
Qed.

Lemma lookup_in_range {A} (l : list A) i x :
  l !! i = Some x → ¬ (length l ≤ i)%nat.
Proof. intros H%lookup_lt_Some. lia. Qed.

(** Boarding a slot that is offboard. *)
Lemma handle_passenger_change_board st pid p clk :
  passengers st !! pid = Some p → onboard p = false →
  handle_passenger_change pid true clk st
  = (set_passengers
       (<[pid := {| onboard := true; fare := 0.0;
                    start_location := Some (GPSManager.get_location (gps_manager st));
                    last_location := Some (GPSManager.get_location (gps_manager st));
                    start_time := Some (datetime_now clk);
                    total_distance := 0.0;
                    ride_id := Some (ride_id_of pid (time_time clk));
                    waiting_time := 0.0 |}]> (passengers st)) st,
     [fare_updated pid 0.0], Returned).
Proof.
  intros Hp Hoff. unfold handle_passenger_change.
  destruct (decide _) as [Hle | _]; [by apply lookup_in_range in Hp |].
  rewrite Hp, Hoff. done.
Qed.

(** Alighting a slot that is onboard: the record and the reset. *)
Lemma handle_passenger_change_alight st pid q clk t0 :
  passengers st !! pid = Some q → onboard q = true → start_time q = Some t0 →
  ∃ rd,
    handle_passenger_change pid false clk st
    = (set_passengers (<[pid := empty_passenger]> (passengers st)) st,
       [ride_completed pid rd], Returned)
    ∧ Ride.ride_id rd = ride_id q
    ∧ Ride.passenger_id rd = (pid + 1)%nat
    ∧ Ride.fare_amount rd = PyNum.round (fare q) 2
    ∧ Ride.total_distance_km rd = PyNum.round (total_distance q) 3
    ∧ Ride.waiting_time_minutes rd = PyNum.round (waiting_time q) 1
    ∧ Ride.start_time rd = t0 ∧ Ride.end_time rd = datetime_now clk
    ∧ Ride.start_location rd = start_location q
    ∧ Ride.end_location rd = GPSManager.get_location (gps_manager st).
Proof.
  intros Hq Hon Ht. unfold handle_passenger_change.
  destruct (decide _) as [Hle | _]; [by apply lookup_in_range in Hq |].
  rewrite Hq, Hon, Ht. cbn [negb andb]. eexists. split; [reflexivity |].
  by cbn.
Qed.

(** A change event that repeats the state of the slot, or names a slot
    that does not exist, is a no-op. *)
Lemma handle_passenger_change_same st pid b clk :
  (∀ p, passengers st !! pid = Some p → onboard p = b) →
  handle_passenger_change pid b clk st = (st, [], Returned).
Proof.
  intros H. unfold handle_passenger_change.
  destruct (decide _) as [Hle | Hlt]; [done |].
  destruct (passengers st !! pid) as [p |] eqn:Hp.
  - rewrite (H p eq_refl). by destruct b.
  - apply lookup_ge_None in Hp. lia.
Qed.

(** A change event of one slot leaves every other slot alone. *)
Lemma handle_passenger_change_other st i b clk pid :
  i ≠ pid →
  let r := handle_passenger_change i b clk st in
  passengers r.1.1 !! pid = passengers st !! pid
  ∧ minimum_speed_threshold r.1.1 = minimum_speed_threshold st
  ∧ Forall (λ s, completes pid s = false) r.1.2.
Proof.
  intros Hne. unfold handle_passenger_change.
  destruct (decide _) as [Hle | Hlt]; [by repeat split |].
  destruct (passengers st !! i) as [p |] eqn:Hp; [| by repeat split].
  assert (Hfalse : Nat.eqb i pid = false) by by apply Nat.eqb_neq.
  destruct (b && negb (onboard p)).
  { cbn. rewrite list_lookup_insert_ne by done. by repeat constructor. }
  destruct (negb b && onboard p); [| by repeat split].
  destruct (start_time p); cbn; rewrite list_lookup_insert_ne by done;
    repeat split; repeat constructor. done.
Qed.

Lemma rides_on_refl pid q st :
  passengers st !! pid = Some q → rides_on pid q 0 st st [].
Proof. intros H. exists q. repeat split; try done. lra. Qed.

Lemma rides_on_frame pid q st st' evs :
  passengers st !! pid = Some q →
  passengers st' !! pid = passengers st !! pid →
  minimum_speed_threshold st' = minimum_speed_threshold st →
  Forall (λ s, completes pid s = false) evs →
  rides_on pid q (Rsum []) st st' evs.
Proof.
  intros Hq Hp Hm He. exists q. rewrite Hp. unfold Rsum; cbn.
  repeat split; try done. lra.
Qed.

(** Whatever happens short of its alighting, an onboard slot stays on its
    ride and its fare grows by the charges of the action. *)
Lemma exec_rides_on pid a st q :
  passengers st !! pid = Some q → onboard q = true →
  minimum_speed_threshold st = 2 → keeps_aboard pid a →
  rides_on pid q (Rsum (charges pid a st)) st (exec a st).1 (exec a st).2.
Proof.
  intros Hq Hon Hthr Hk.
  destruct a as [g | clk | rate | i b clk | clk | clk]; cbn [exec charges fst snd].
  - by apply rides_on_frame.
  - by apply calculation_loop_slot.
  - by apply rides_on_frame.
  - destruct (decide (i = pid)) as [-> | Hne].
    + destruct b; [| done].
      rewrite handle_passenger_change_same; [by apply rides_on_frame |].
      intros p Hp. congruence.
    + destruct (handle_passenger_change_other st i b clk pid Hne) as (H1 & H2 & H3).
      by apply rides_on_frame.
  - apply rides_on_frame; try done. cbn. repeat constructor.
  - apply rides_on_frame; try done; unfold stop_private_mode;
      destruct (private_mode_active st); try done;
      destruct (private_start_time st); done.
Qed.

Lemma exec_all_rides_on pid acts : ∀ st q,
  passengers st !! pid = Some q → onboard q = true →
  minimum_speed_threshold st = 2 → Forall (keeps_aboard pid) acts →
  rides_on pid q (Rsum (charges_all pid acts st)) st
           (exec_all acts st).1 (exec_all acts st).2.
Proof.
  induction acts as [| a acts IH]; intros st q Hq Hon Hthr Hk.
  - by apply rides_on_refl.
  - apply Forall_cons in Hk as [Ha Hk]. cbn [exec_all charges_all fst snd].
    destruct (exec_rides_on pid a st q Hq Hon Hthr Ha)
      as (q1 & Hq1 & (Ho1 & Hr1 & Ht1 & Hs1) & Hf1 & Hm1 & He1).
    destruct (IH (exec a st).1 q1 Hq1) as
      (q2 & Hq2 & (Ho2 & Hr2 & Ht2 & Hs2) & Hf2 & Hm2 & He2);
      [congruence | congruence | done |].
    exists q2. rewrite Rsum_app.
    repeat split; try congruence; [lra | by apply Forall_app].
Qed.

End Rides.

(** C1 (as amended).  For every passenger slot, a boarding transition
    (offboard to onboard) sets fare, accumulated distance and waiting time
    to zero, captures the current location as start and last location and
    assigns a non-null ride id, which equals the id of another boarding
    exactly when slot and clock second are the same; whatever happens
    next short of the alighting of the slot emits no ride-completed record
    for it; the alighting transition then emits exactly one ride-completed
    record, with the ride id of the boarding and with [fare_amount] the sum
    of the per-tick charges accumulated while onboard rounded to 2 decimal
    places, and leaves the slot in its zero state. *)
Theorem C1_boarding_to_alighting
    (st : FareCalculator.state) (pid : nat) (p : FareCalculator.passenger)
    (clk_b clk_a : clock) (acts : list FareRuns.action) :
  FareCalculator.passengers st !! pid = Some p →
  FareCalculator.onboard p = false →
  FareCalculator.minimum_speed_threshold st = 2 →
  Forall (FareRuns.keeps_aboard pid) acts →
  let here := GPSManager.get_location (FareCalculator.gps_manager st) in
  let rid := FareCalculator.ride_id_of pid (time_time clk_b) in
  let boarded := {|
    FareCalculator.onboard := true; FareCalculator.fare := 0;
    FareCalculator.start_location := Some here;
    FareCalculator.last_location := Some here;
    FareCalculator.start_time := Some (datetime_now clk_b);
    FareCalculator.total_distance := 0;
    FareCalculator.ride_id := Some rid;
    FareCalculator.waiting_time := 0 |} in
  let r1 := FareCalculator.handle_passenger_change pid true clk_b st in
  let r2 := FareRuns.exec_all acts r1.1.1 in
  let r3 := FareCalculator.handle_passenger_change pid false clk_a r2.1 in
  r1.2 = Returned
  ∧ r1.1.2 = [FareCalculator.fare_updated pid 0]
  ∧ FareCalculator.passengers r1.1.1 !! pid = Some boarded
  ∧ (∀ pid' t', rid = FareCalculator.ride_id_of pid' t'
                ↔ pid = pid' ∧ PyNum.int (time_time clk_b) = PyNum.int t')
  ∧ Forall (λ s, FareRuns.completes pid s = false) r2.2
  ∧ r3.2 = Returned
  ∧ ∃ rd, r3.1.2 = [FareCalculator.ride_completed pid rd]
          ∧ Ride.ride_id rd = Some rid
          ∧ Ride.fare_amount rd
            = PyNum.round (FareRuns.Rsum (FareRuns.charges_all pid acts r1.1.1)) 2
          ∧ FareCalculator.passengers r3.1.1 !! pid
            = Some FareCalculator.empty_passenger.
Proof.
  intros Hp Hoff Hthr Hacts here rid boarded r1 r2 r3.
  assert (Hr1 : r1 = (FareCalculator.set_passengers
                        (<[pid := boarded]> (FareCalculator.passengers st)) st,
                      [FareCalculator.fare_updated pid 0], Returned)).
  { unfold r1. rewrite (handle_passenger_change_board st pid p clk_b Hp Hoff).
    unfold boarded, here, rid. repeat f_equal; lra. }
  assert (Hb : FareCalculator.passengers r1.1.1 !! pid = Some boarded).
  { rewrite Hr1. cbn. apply list_lookup_insert_eq. by eapply lookup_lt_Some. }
  destruct (exec_all_rides_on pid acts r1.1.1 boarded Hb eq_refl)
    as (q & Hq & (Ho & Hr & Ht & Hs) & Hf & Hm & He);
    [by rewrite Hr1 | done |].
  fold r2 in Hq, He.
  destruct (handle_passenger_change_alight r2.1 pid q clk_a (datetime_now clk_b)
              Hq Ho Ht) as (rd & Hr3 & Hrid & _ & Hfare & _).
  fold r3 in Hr3.
  split; [by rewrite Hr1 |]. split; [by rewrite Hr1 |]. split; [done |].
  split; [intros pid' t'; apply ride_id_of_inj |]. split; [done |].
  split; [by rewrite Hr3 |].
  exists rd. rewrite Hr3. cbn [fst snd].
  split; [done |]. split; [by rewrite Hrid, Hr |].
  split.
  - rewrite Hfare, Hf. f_equal. cbn. lra.
  - cbn. apply list_lookup_insert_eq. by eapply lookup_lt_Some.
Qed.

(** A ride of slot 0 in Mumbai: boarding at second 100, one fix 22 m
    north at 15 km/h, one tick two seconds later, alighting. *)
Lemma C1_ride_witness :
  let clk t := {| datetime_now := t; time_time := t |} in
  let st0 := FareCalculator.init GPSManager.init 12 (clk 100) in
  let acts := [FareRuns.Gps_update
                 (GPSManager.on_gpvtg 15
                    (GPSManager.on_gpgga 19.0762 72.8777 GPSManager.init));
               FareRuns.Tick (clk 102)] in
  let r1 := FareCalculator.handle_passenger_change 0 true (clk 100) st0 in
  let r2 := FareRuns.exec_all acts r1.1.1 in
  let r3 := FareCalculator.handle_passenger_change 0 false (clk 102.5) r2.1 in
  ∃ rd, r3.1.2 = [FareCalculator.ride_completed 0 rd]
        ∧ Ride.ride_id rd = Some "RIDE-1-100"%string
        ∧ Ride.fare_amount rd = PyNum.round (6371 * 0.0002 * (PI / 180) * 12) 2.
Proof.
  intros clk st0 acts r1 r2 r3.
  assert (Hthr : FareCalculator.minimum_speed_threshold st0 = 2)
    by (cbn; lra).
  assert (Hacts : Forall (FareRuns.keeps_aboard 0) acts)
    by (repeat constructor).
  destruct (C1_boarding_to_alighting st0 0 FareCalculator.empty_passenger
              (clk 100) (clk 102.5) acts eq_refl eq_refl Hthr Hacts)
    as (_ & _ & _ & _ & _ & _ & rd & Hev & Hid & Hfare & _).
  exists rd. split; [exact Hev |]. split.
  - rewrite Hid. unfold FareCalculator.ride_id_of, clk. cbn [time_time].
    rewrite (int_of_floor 100 100) by lra. reflexivity.
  - rewrite Hfare. f_equal.
    unfold acts. cbn [FareRuns.charges_all FareRuns.charges app].
    rewrite (handle_passenger_change_board st0 0 FareCalculator.empty_passenger
               (clk 100) eq_refl eq_refl).
    unfold FareRuns.spec_tick_charges. cbn.
    destruct (Rle_dec 1 (102 - 100)); [| lra].
    rewrite mumbai_step_distance.
    destruct (Rlt_dec 0.005 _) as [_ | Hn];
      [| destruct Hn; apply mumbai_step_above_floor].
    destruct (Rlt_dec 15 2.0); [lra |].
    unfold FareRuns.Rsum. cbn. lra.
Defined.

(** C1 as stated fails on the ride id: slot 0 boards at clock 100.2,
    alights, and boards again at clock 100.7; both rides carry the id
    RIDE-1-100. *)
Lemma C1_counterexample :
  let clk t := {| datetime_now := t; time_time := t |} in
  let st0 := FareCalculator.init GPSManager.init 12 (clk 100) in
  let r1 := FareCalculator.handle_passenger_change 0 true (clk 100.2) st0 in
  let r2 := FareCalculator.handle_passenger_change 0 false (clk 100.5) r1.1.1 in
  let r3 := FareCalculator.handle_passenger_change 0 true (clk 100.7) r2.1.1 in
  (FareCalculator.passengers r1.1.1 !! 0%nat) ≫= FareCalculator.ride_id
  = Some "RIDE-1-100"%string
  ∧ (∃ rd, r2.1.2 = [FareCalculator.ride_completed 0 rd]
           ∧ Ride.ride_id rd = Some "RIDE-1-100"%string)
  ∧ (FareCalculator.passengers r3.1.1 !! 0%nat) ≫= FareCalculator.ride_id
    = Some "RIDE-1-100"%string.
Proof.
  intros clk st0 r1 r2 r3.
  assert (Ha : FareCalculator.ride_id_of 0 100.2 = "RIDE-1-100"%string).
  { unfold FareCalculator.ride_id_of.
    rewrite (int_of_floor 100.2 100) by lra. reflexivity. }
  assert (Hb : FareCalculator.ride_id_of 0 100.7 = "RIDE-1-100"%string).
  { unfold FareCalculator.ride_id_of.
    rewrite (int_of_floor 100.7 100) by lra. reflexivity. }
  assert (H1 : r1 = _) by
    exact (handle_passenger_change_board st0 0 FareCalculator.empty_passenger
             (clk 100.2) eq_refl eq_refl).
  destruct (handle_passenger_change_alight r1.1.1 0
              (default FareCalculator.empty_passenger
                 (FareCalculator.passengers r1.1.1 !! 0%nat))
              (clk 100.5) 100.2)
    as (rd & H2 & Hrid & _); try (rewrite H1; reflexivity).
  fold r2 in H2.
  assert (H3 : r3 = _) by
    exact (handle_passenger_change_board r2.1.1 0 FareCalculator.empty_passenger
             (clk 100.7) ltac:(rewrite H2, H1; reflexivity) eq_refl).
  split.
  { rewrite H1. cbn -[FareCalculator.ride_id_of].
    unfold clk; cbn [time_time]. by rewrite Ha. }
  split.
  - exists rd. rewrite H2. split; [done |].
    rewrite Hrid, H1. cbn -[FareCalculator.ride_id_of].
    unfold clk; cbn [time_time]. by rewrite Ha.
  - rewrite H3. cbn -[FareCalculator.ride_id_of].
    unfold clk; cbn [time_time]. by rewrite Hb.
Qed.

(** ** Fare engine: the claims about one tick *)

Section TickFacts.

Import FareCalculator FareRuns.

Lemma feed_app self pid p s1 s2 :
  feed self pid p (s1 ++ s2) = feed self pid (feed self pid p s1) s2.
Proof. unfold feed. apply fold_left_app. Qed.

(** A private trip is charged by the same rule as a passenger slot. *)
Lemma update_private_fare_tick clk st l c speed dt :
  private_last_location st = Some l →
  let moved := _calculate_distance (Some l) (Some c) in
  let st' := (_update_private_fare clk c speed dt st).1 in
  private_fare st'
  = private_fare st
    + (if Rlt_dec 0.005 moved then moved * fare_rate_per_km st else 0)
    + (if Rlt_dec speed (minimum_speed_threshold st)
       then dt / 60 * waiting_charge_per_minute else 0)
  ∧ private_distance st'
    = private_distance st + (if Rlt_dec 0.005 moved then moved else 0)
  ∧ private_last_location st' = Some (if Rlt_dec 0.005 moved then c else l)
  ∧ private_waiting_time st'
    = private_waiting_time st
      + (if Rlt_dec speed (minimum_speed_threshold st) then dt / 60 else 0).
Proof.
  intros H. unfold _update_private_fare. rewrite H. cbn zeta.
  tick_cases; cbn; repeat split; try done; try lra.
Qed.

End TickFacts.

(** C2.  For every sequence of GPS samples applied to a passenger slot the
    accumulated distance is non-decreasing across ticks; it strictly
    increases on a tick only when the distance between the slot's last
    recorded location and the new sample (as the code computes it, and so
    the haversine distance too) exceeds 0.005 km; a sub-threshold movement
    leaves accumulated distance and last location unchanged. *)
Theorem C2_distance_accumulates_above_noise_floor
    (self : FareCalculator.state) (pid : nat) (p : FareCalculator.passenger)
    (before after : list (location * R * R))
    (c : location) (speed dt : R) :
  let p' := (FareCalculator._update_passenger_fare self pid p c speed dt).1 in
  FareCalculator.total_distance (FareRuns.feed self pid p before)
  <= FareCalculator.total_distance (FareRuns.feed self pid p (before ++ after))
  ∧ FareCalculator.total_distance p <= FareCalculator.total_distance p'
  ∧ (FareCalculator.total_distance p < FareCalculator.total_distance p' →
     ∃ l, FareCalculator.last_location p = Some l
          ∧ 0.005 < GPSManager.calculate_distance l.1 l.2 c.1 c.2
          ∧ 0.005 < haversine_km l c)
  ∧ (∀ l, FareCalculator.last_location p = Some l →
          GPSManager.calculate_distance l.1 l.2 c.1 c.2 <= 0.005
          ∨ haversine_km l c <= 0.005 →
          FareCalculator.total_distance p' = FareCalculator.total_distance p
          ∧ FareCalculator.last_location p' = FareCalculator.last_location p).
Proof.
  intros p'. split; [| split; [| split]].
  - rewrite feed_app. apply feed_distance_mono.
  - apply update_passenger_fare_distance_mono.
  - intros Hlt. destruct (FareCalculator.last_location p) as [l |] eqn:Hl.
    + exists l. split; [done |].
      destruct (update_passenger_fare_tick self pid p l c speed dt Hl)
        as (_ & Hd & _).
      fold p' in Hd. cbn [FareCalculator._calculate_distance] in Hd.
      pose proof (calculate_distance_le_haversine l.1 l.2 c.1 c.2) as Hh.
      destruct l, c; cbn [fst snd] in *.
      destruct (Rlt_dec 0.005 _); lra.
    + destruct (update_passenger_fare_first self pid p c speed dt Hl)
        as (_ & Hd & _).
      fold p' in Hd. lra.
  - intros l Hl Hsub.
    destruct (update_passenger_fare_tick self pid p l c speed dt Hl)
      as (_ & Hd & Hloc & _).
    fold p' in Hd, Hloc. cbn [FareCalculator._calculate_distance] in Hd, Hloc.
    pose proof (calculate_distance_le_haversine l.1 l.2 c.1 c.2) as Hh.
    rewrite Hd, Hloc, Hl. destruct l, c; cbn [fst snd] in *.
    destruct (Rlt_dec 0.005 _); [lra |]. split; [lra | done].
Qed.

(** A slot last seen in Mumbai and a fix 22 m north of it: the accumulated
    distance grows, and the theorem then yields the movement above the
    noise floor. *)
Lemma C2_distance_witness :
  let self := FareCalculator.init GPSManager.init 12
                {| datetime_now := 0; time_time := 0 |} in
  let p := {|
    FareCalculator.onboard := true; FareCalculator.fare := 0;
    FareCalculator.start_location := Some (19.0760, 72.8777);
    FareCalculator.last_location := Some (19.0760, 72.8777);
    FareCalculator.start_time := Some 0;
    FareCalculator.total_distance := 0;
    FareCalculator.ride_id := Some "RIDE-1-0"%string;
    FareCalculator.waiting_time := 0 |} in
  FareCalculator.total_distance
    (FareCalculator._update_passenger_fare self 0 p (19.0762, 72.8777) 15 2).1
  = 6371 * 0.0002 * (PI / 180)
  ∧ 0.005 < haversine_km (19.0760, 72.8777) (19.0762, 72.8777).
Proof.
  intros self p.
  destruct (update_passenger_fare_tick self 0 p (19.0760, 72.8777)
              (19.0762, 72.8777) 15 2 eq_refl) as (_ & Hd & _).
  cbn [FareCalculator._calculate_distance fst snd] in Hd.
  rewrite mumbai_step_distance in Hd.
  destruct (Rlt_dec 0.005 _) as [Hfloor | Hn];
    [| destruct Hn; apply mumbai_step_above_floor].
  cbn [FareCalculator.total_distance] in Hd.
  split; [rewrite Hd; cbn; lra |].
  destruct (C2_distance_accumulates_above_noise_floor self 0 p [] []
              (19.0762, 72.8777) 15 2) as (_ & _ & Hinc & _).
  destruct Hinc as (l & Hl & _ & Hh).
  - rewrite Hd. cbn. lra.
  - injection Hl as <-. exact Hh.
Defined.

(** C3.  In one accumulation tick of a slot with a last location, the
    fare grows by the distance charge ([moved * rate_per_km] when
    [moved > 0.005] km) plus the waiting charge ([(tick_seconds / 60) *
    2.0] when the speed is below 2.0 km/h), each decided on its own; a
    slow sample that still moves more than 5 m is charged both. *)
Theorem C3_distance_and_waiting_charges_independent
    (self : FareCalculator.state) (pid : nat) (p : FareCalculator.passenger)
    (l c : location) (speed dt : R) :
  FareCalculator.last_location p = Some l →
  FareCalculator.minimum_speed_threshold self = 2 →
  let moved := GPSManager.calculate_distance l.1 l.2 c.1 c.2 in
  let p' := (FareCalculator._update_passenger_fare self pid p c speed dt).1 in
  let distance_charge :=
    if Rlt_dec 0.005 moved
    then moved * FareCalculator.fare_rate_per_km self else 0 in
  let waiting_charge := if Rlt_dec speed 2 then dt / 60 * 2 else 0 in
  FareCalculator.fare p' = FareCalculator.fare p + distance_charge + waiting_charge
  ∧ (0.005 < moved → speed < 2 →
     FareCalculator.fare p'
     = FareCalculator.fare p + moved * FareCalculator.fare_rate_per_km self
       + dt / 60 * 2
     ∧ FareCalculator.total_distance p' = FareCalculator.total_distance p + moved
     ∧ FareCalculator.waiting_time p' = FareCalculator.waiting_time p + dt / 60).
Proof.
  intros Hl Hthr moved p' distance_charge waiting_charge.
  destruct (update_passenger_fare_tick self pid p l c speed dt Hl)
    as (Hf & Hd & _ & Hw & _).
  fold p' in Hf, Hd, Hw.
  cbn [FareCalculator._calculate_distance] in Hf, Hd.
  unfold FareCalculator.waiting_charge_per_minute in Hf.
  rewrite Hthr in Hf, Hw. fold moved in Hf, Hd.
  unfold distance_charge, waiting_charge.
  split.
  - rewrite Hf. tick_cases; lra.
  - intros Hm Hs. rewrite Hf, Hd, Hw. tick_cases; lra.
Qed.

(** A crawling sample (1 km/h) 22 m north of the last location, two
    seconds after it, at 12.0 per km: both charges in one tick. *)
Lemma C3_charges_witness :
  let self := FareCalculator.init GPSManager.init 12
                {| datetime_now := 0; time_time := 0 |} in
  let p := {|
    FareCalculator.onboard := true; FareCalculator.fare := 0;
    FareCalculator.start_location := Some (19.0760, 72.8777);
    FareCalculator.last_location := Some (19.0760, 72.8777);
    FareCalculator.start_time := Some 0;
    FareCalculator.total_distance := 0;
    FareCalculator.ride_id := Some "RIDE-1-0"%string;
    FareCalculator.waiting_time := 0 |} in
  FareCalculator.fare
    (FareCalculator._update_passenger_fare self 0 p (19.0762, 72.8777) 1 2).1
  = 6371 * 0.0002 * (PI / 180) * 12 + 2 / 60 * 2.
Proof.
  intros self p.
  assert (Hthr : FareCalculator.minimum_speed_threshold self = 2)
    by (cbn; lra).
  destruct (C3_distance_and_waiting_charges_independent self 0 p
              (19.0760, 72.8777) (19.0762, 72.8777) 1 2 eq_refl Hthr)
    as [_ Hboth].
  cbn [fst snd] in Hboth. rewrite mumbai_step_distance in Hboth.
  destruct (Hboth mumbai_step_above_floor ltac:(lra)) as (Hf & _).
  rewrite Hf. cbn. lra.
Defined.

(** C10.  As soon as one of the four coordinate components is exactly
    0.0 the distance function returns 0.0, as it does for an absent
    location: a tick whose last location or sample lies on the equator or
    on the prime meridian adds no distance and no distance fare, for a
    passenger slot and for the private trip alike. *)
Theorem C10_zero_coordinate_counts_as_absent (lat1 lon1 lat2 lon2 : R) :
  lat1 = 0 ∨ lon1 = 0 ∨ lat2 = 0 ∨ lon2 = 0 →
  GPSManager.calculate_distance lat1 lon1 lat2 lon2 = 0
  ∧ FareCalculator._calculate_distance (Some (lat1, lon1)) (Some (lat2, lon2))
    = FareCalculator._calculate_distance None (Some (lat2, lon2))
  ∧ (∀ self pid p speed dt,
       FareCalculator.last_location p = Some (lat1, lon1) →
       let p' := (FareCalculator._update_passenger_fare
                    self pid p (lat2, lon2) speed dt).1 in
       FareCalculator.total_distance p' = FareCalculator.total_distance p
       ∧ FareCalculator.last_location p' = FareCalculator.last_location p
       ∧ FareCalculator.fare p'
         = FareCalculator.fare p
           + (if Rlt_dec speed (FareCalculator.minimum_speed_threshold self)
              then dt / 60 * 2 else 0))
  ∧ (∀ clk st speed dt,
       FareCalculator.private_last_location st = Some (lat1, lon1) →
       let st' := (FareCalculator._update_private_fare
                     clk (lat2, lon2) speed dt st).1 in
       FareCalculator.private_distance st' = FareCalculator.private_distance st
       ∧ FareCalculator.private_last_location st'
         = FareCalculator.private_last_location st
       ∧ FareCalculator.private_fare st'
         = FareCalculator.private_fare st
           + (if Rlt_dec speed (FareCalculator.minimum_speed_threshold st)
              then dt / 60 * 2 else 0)).
Proof.
  intros Hz. pose proof (calculate_distance_zero _ _ _ _ Hz) as H0.
  split; [done |]. split; [cbn; lra |]. split.
  - intros self pid p speed dt Hl p'.
    destruct (update_passenger_fare_tick self pid p _ (lat2, lon2) speed dt Hl)
      as (Hf & Hd & Hloc & _).
    fold p' in Hf, Hd, Hloc.
    cbn [FareCalculator._calculate_distance fst snd] in Hf, Hd, Hloc.
    unfold FareCalculator.waiting_charge_per_minute in Hf.
    rewrite H0 in Hf, Hd, Hloc. rewrite Hf, Hd, Hloc, Hl.
    destruct (Rlt_dec 0.005 0); [lra |].
    destruct (Rlt_dec speed _); repeat split; lra.
  - intros clk st speed dt Hl st'.
    destruct (update_private_fare_tick clk st _ (lat2, lon2) speed dt Hl)
      as (Hf & Hd & Hloc & _).
    fold st' in Hf, Hd, Hloc.
    cbn [FareCalculator._calculate_distance fst snd] in Hf, Hd, Hloc.
    unfold FareCalculator.waiting_charge_per_minute in Hf.
    rewrite H0 in Hf, Hd, Hloc. rewrite Hf, Hd, Hloc, Hl.
    destruct (Rlt_dec 0.005 0); [lra |].
    destruct (Rlt_dec speed _); repeat split; lra.
Qed.

(** Ten degrees of latitude along the prime meridian, about 1112 km of
    arc, count for nothing. *)
Lemma C10_prime_meridian_witness :
  GPSManager.calculate_distance 10 0 20 0 = 0
  ∧ haversine_km (10, 0) (20, 0) = 6371 * 10 * (PI / 180).
Proof.
  split.
  - apply (C10_zero_coordinate_counts_as_absent 10 0 20 0). auto.
  - rewrite haversine_km_meridian by lra. lra.
Defined.

(** C8.  An offboard event for a slot that is already offboard (or that
    does not exist), and stopping private mode when it is not active,
    return normally, leave the whole state as it was and produce no
    ride-completed record. *)
Theorem C8_unboarded_alighting_is_noop
    (st : FareCalculator.state) (pid : nat) (clk : clock) :
  ((∀ p, FareCalculator.passengers st !! pid = Some p →
         FareCalculator.onboard p = false) →
   FareCalculator.handle_passenger_change pid false clk st = (st, [], Returned))
  ∧ (FareCalculator.private_mode_active st = false →
     FareCalculator.stop_private_mode clk st = (st, None, Returned)).
Proof.
  split.
  - apply handle_passenger_change_same.
  - intros H. unfold FareCalculator.stop_private_mode. by rewrite H.
Qed.

(** Straight after start-up no slot is boarded and private mode is off. *)
Lemma C8_fresh_meter_witness :
  let clk := {| datetime_now := 5; time_time := 5 |} in
  let st := FareCalculator.init GPSManager.init 12
              {| datetime_now := 0; time_time := 0 |} in
  FareCalculator.handle_passenger_change 1 false clk st = (st, [], Returned)
  ∧ FareCalculator.stop_private_mode clk st = (st, None, Returned).
Proof.
  intros clk st.
  destruct (C8_unboarded_alighting_is_noop st 1 clk) as [H1 H2].
  split.
  - apply H1. intros p [= <-]. reflexivity.
  - apply H2. reflexivity.
Defined.

(** ** Fare engine: the private trip *)

Section PrivateTrip.

Import FareCalculator FareRuns.

(** Entering private mode boards the private trip and resets the trip
    counters of the geo engine. *)
Lemma start_private_mode_boards clk st :
  let r := start_private_mode clk st in
  let here := GPSManager.get_location (gps_manager st) in
  r.2 = Returned
  ∧ r.1.2 = [total_fare_updated 0.0; distance_updated 0.0; duration_updated 0]
  ∧ private_mode_active r.1.1 = true
  ∧ private_fare r.1.1 = 0 ∧ private_distance r.1.1 = 0
  ∧ private_waiting_time r.1.1 = 0
  ∧ private_start_location r.1.1 = Some here
  ∧ private_last_location r.1.1 = Some here
  ∧ private_start_time r.1.1 = Some (datetime_now clk)
  ∧ gps_manager r.1.1 = GPSManager.reset_trip (datetime_now clk) (gps_manager st)
  ∧ GPSManager.get_total_distance (gps_manager r.1.1) = 0
  ∧ GPSManager.get_location (gps_manager r.1.1) = here
  ∧ passengers r.1.1 = passengers st.
Proof. cbn. repeat split; lra. Qed.

(** Leaving private mode: the record that is returned. *)
Lemma stop_private_mode_record clk st t0 :
  private_mode_active st = true → private_start_time st = Some t0 →
  ∃ rd,
    stop_private_mode clk st = (set_private_mode_active false st, Some rd, Returned)
    ∧ PrivateRide.start_time rd = t0
    ∧ PrivateRide.end_time rd = datetime_now clk
    ∧ PrivateRide.fare_amount rd = PyNum.round (private_fare st) 2
    ∧ PrivateRide.calculated_distance_km rd = PyNum.round (private_distance st) 3
    ∧ PrivateRide.gps_total_distance_km rd
      = PyNum.round (GPSManager.get_total_distance (gps_manager st)) 3
    ∧ PrivateRide.waiting_time_minutes rd
      = PyNum.round (private_waiting_time st) 1
    ∧ PrivateRide.start_location rd = private_start_location st
    ∧ PrivateRide.end_location rd = GPSManager.get_location (gps_manager st)
    ∧ PrivateRide.max_speed rd
      = PyNum.round (PyNum.max0 (GPSManager.get_speed (gps_manager st))) 1.
Proof.
  intros Ha Ht. unfold stop_private_mode. rewrite Ha, Ht.
  eexists. split; [reflexivity |]. by cbn.
Qed.

(** A pass of the calculation loop leaves the geo engine and the identity
    of the private trip alone. *)
Lemma calculation_loop_private_frame clk st :
  let st' := (_calculation_loop clk st).1 in
  gps_manager st' = gps_manager st
  ∧ private_mode_active st' = private_mode_active st
  ∧ private_start_time st' = private_start_time st
  ∧ private_start_location st' = private_start_location st.
Proof.
  unfold _calculation_loop.
  destruct (Rle_dec 1.0 _); [| done].
  destruct (update_onboard _ _ _ _ _ _) as [ps e1].
  destruct (private_mode_active (set_passengers ps st)) eqn:Ha; [| done].
  cbn in Ha. unfold _update_private_fare.
  destruct (private_last_location (set_passengers ps st)); [| done].
  cbn zeta.
  destruct (Rlt_dec 0.005 _), (Rlt_dec _ _); cbn; by rewrite Ha.
Qed.

Lemma round_IZR z n : PyNum.round (IZR z) n = IZR z.
Proof.
  unfold PyNum.round.
  assert (Hp : 10 ^ n = IZR (10 ^ Z.of_nat n)) by (by rewrite <- pow_IZR).
  assert (Hpos : 0 < 10 ^ n) by (apply pow_lt; lra).
  rewrite Hp at 1. rewrite <- mult_IZR.
  set (k := (z * 10 ^ Z.of_nat n)%Z).
  assert (Hk : Int_part (IZR k) = k) by (symmetry; apply Int_part_spec; lra).
  unfold PyNum.round_half_even, frac_part. rewrite Hk.
  destruct (Rlt_dec _ _); [| lra].
  unfold k. rewrite mult_IZR, <- Hp. field. lra.
Qed.

End PrivateTrip.

(** C7, the observed maximum speed.  A private trip starts; the GPS
    reports 40 km/h, a tick passes, the GPS reports 10 km/h, a tick
    passes, the trip stops.  The record reports [max_speed] 10 (the speed
    at the stop), not the 40 km/h observed during the trip; next to it
    stand the engine's own accumulated distance and the geo engine's
    total, each rounded to 3 places. *)
Theorem C7_max_speed_is_speed_at_stop :
  let clk t := {| datetime_now := t; time_time := t |} in
  let st0 := FareCalculator.init GPSManager.init 12 (clk 0) in
  let st1 := (FareCalculator.start_private_mode (clk 100) st0).1.1 in
  let g40 := GPSManager.on_gpvtg 40 (FareCalculator.gps_manager st1) in
  let g10 := GPSManager.on_gpvtg 10 g40 in
  let st2 := (FareRuns.exec_all
                [FareRuns.Gps_update g40; FareRuns.Tick (clk 101);
                 FareRuns.Gps_update g10; FareRuns.Tick (clk 102)] st1).1 in
  GPSManager.get_speed g40 = 40
  ∧ ∃ rd, FareCalculator.stop_private_mode (clk 103) st2
          = (FareCalculator.set_private_mode_active false st2, Some rd, Returned)
          ∧ PrivateRide.max_speed rd = 10
          ∧ PrivateRide.calculated_distance_km rd
            = PyNum.round (FareCalculator.private_distance st2) 3
          ∧ PrivateRide.gps_total_distance_km rd
            = PyNum.round (GPSManager.get_total_distance
                             (FareCalculator.gps_manager st2)) 3.
Proof.
  intros clk st0 st1 g40 g10 st2. split; [reflexivity |].
  set (sa := FareCalculator.set_gps_manager g40 st1).
  set (sb := (FareCalculator._calculation_loop (clk 101) sa).1).
  set (sc := FareCalculator.set_gps_manager g10 sb).
  assert (Hst2 : st2 = (FareCalculator._calculation_loop (clk 102) sc).1)
    by reflexivity.
  destruct (calculation_loop_private_frame (clk 101) sa) as (_ & Hb1 & Hb2 & _).
  destruct (calculation_loop_private_frame (clk 102) sc) as (Hc0 & Hc1 & Hc2 & _).
  rewrite <- Hst2 in Hc0, Hc1, Hc2.
  assert (Hact : FareCalculator.private_mode_active st2 = true)
    by (rewrite Hc1; change (FareCalculator.private_mode_active sb = true);
        unfold sb; by rewrite Hb1).
  assert (Ht : FareCalculator.private_start_time st2 = Some 100)
    by (rewrite Hc2; change (FareCalculator.private_start_time sb = Some 100);
        unfold sb; by rewrite Hb2).
  destruct (stop_private_mode_record (clk 103) st2 100 Hact Ht)
    as (rd & Hr & _ & _ & _ & Hcd & Hgd & _ & _ & _ & Hmax).
  exists rd. repeat split; try done.
  rewrite Hmax, Hc0. unfold sc, g10. cbn.
  unfold PyNum.max0. destruct (Rlt_dec 0 10); [| lra].
  apply (round_IZR 10 1).
Qed.

(** ** Mode selector *)

(** C5.  The mode resolved from the four selector lines depends on the
    state of these lines only; with no line asserted it is For Hire; with
    one line asserted it is the mode of that line; with several, the first
    asserted line in the order Private, Sharing, Waiting, For Hire wins.
    A pass of the monitor leaves that mode as the current mode. *)
Theorem C5_mode_by_fixed_priority (input : nat → GPIOManager.level) :
  let private := input 7%nat in
  let sharing := input 8%nat in
  let waiting := input 18%nat in
  let for_hire := input 23%nat in
  let resolved :=
    match private, sharing, waiting with
    | GPIOManager.LOW, _, _ => "Private"
    | GPIOManager.HIGH, GPIOManager.LOW, _ => "Sharing"
    | GPIOManager.HIGH, GPIOManager.HIGH, GPIOManager.LOW => "Waiting"
    | GPIOManager.HIGH, GPIOManager.HIGH, GPIOManager.HIGH => "For Hire"
    end%string in
  GPIOManager.selected_mode input = Some resolved
  ∧ (∀ input', input' 7%nat = private → input' 8%nat = sharing →
               input' 18%nat = waiting → input' 23%nat = for_hire →
               GPIOManager.selected_mode input' = GPIOManager.selected_mode input)
  ∧ (private = GPIOManager.HIGH → sharing = GPIOManager.HIGH →
     waiting = GPIOManager.HIGH → for_hire = GPIOManager.HIGH →
     GPIOManager.selected_mode input = Some "For Hire"%string)
  ∧ (private = GPIOManager.LOW →
     GPIOManager.selected_mode input = Some "Private"%string)
  ∧ (private = GPIOManager.HIGH → sharing = GPIOManager.LOW →
     GPIOManager.selected_mode input = Some "Sharing"%string)
  ∧ (private = GPIOManager.HIGH → sharing = GPIOManager.HIGH →
     waiting = GPIOManager.LOW →
     GPIOManager.selected_mode input = Some "Waiting"%string)
  ∧ (private = GPIOManager.HIGH → sharing = GPIOManager.HIGH →
     waiting = GPIOManager.HIGH → for_hire = GPIOManager.LOW →
     GPIOManager.selected_mode input = Some "For Hire"%string)
  ∧ (∀ g, GPIOManager.current_mode
            (GPIOManager._monitor_mode_switch input g).1 = resolved).
Proof.
  intros private sharing waiting for_hire resolved.
  assert (Hsel : ∀ i : nat → GPIOManager.level,
            GPIOManager.selected_mode i
            = Some match i 7%nat, i 8%nat, i 18%nat with
                   | GPIOManager.LOW, _, _ => "Private"
                   | GPIOManager.HIGH, GPIOManager.LOW, _ => "Sharing"
                   | GPIOManager.HIGH, GPIOManager.HIGH, GPIOManager.LOW => "Waiting"
                   | GPIOManager.HIGH, GPIOManager.HIGH, GPIOManager.HIGH => "For Hire"
                   end%string).
  { intros i. unfold GPIOManager.selected_mode. cbn.
    destruct (i 7%nat), (i 8%nat), (i 18%nat), (i 23%nat); reflexivity. }
  subst private sharing waiting for_hire resolved.
  split; [apply Hsel |].
  split.
  { intros input' H7 H8 H18 _. rewrite !Hsel, H7, H8, H18. reflexivity. }
  rewrite Hsel.
  repeat split;
    try (intros;
         repeat match goal with H : input _ = _ |- _ => rewrite H; clear H end;
         reflexivity).
  intros g. unfold GPIOManager._monitor_mode_switch. rewrite Hsel.
  match goal with
  | |- context [String.eqb ?m (GPIOManager.current_mode g)] =>
      destruct (String.eqb m (GPIOManager.current_mode g)) eqn:E;
      [symmetry; by apply String.eqb_eq | reflexivity]
  end.
Qed.

(** The selector on its second position: the Sharing line alone is LOW. *)
Lemma C5_sharing_position_witness :
  GPIOManager.selected_mode
    (λ pin, if Nat.eqb pin 8 then GPIOManager.LOW else GPIOManager.HIGH)
  = Some "Sharing"%string.
Proof.
  destruct (C5_mode_by_fixed_priority
              (λ pin, if Nat.eqb pin 8 then GPIOManager.LOW else GPIOManager.HIGH))
    as (_ & _ & _ & _ & H & _).
  apply H; reflexivity.
Defined.

(** ** SOS state machine *)

(** C9.  Deactivating while the SOS state is not active changes nothing
    and emits nothing; deactivating leaves the state not active, so a
    second deactivation in a row is such a no-op and two deactivations end
    in the state one deactivation ends in. *)
Theorem C9_deactivation_idempotent (s : SOSSystem.state) :
  (SOSSystem.sos_active s = false → SOSSystem.deactivate_sos s = (s, []))
  ∧ SOSSystem.sos_active (SOSSystem.deactivate_sos s).1 = false
  ∧ SOSSystem.deactivate_sos (SOSSystem.deactivate_sos s).1
    = ((SOSSystem.deactivate_sos s).1, []).
Proof.
  unfold SOSSystem.deactivate_sos.
  destruct (SOSSystem.sos_active s) eqn:E; cbn; rewrite ?E; repeat split; done.
Qed.

(** From Normal nothing happens; from Active the first call emits the
    deactivation and the second is silent. *)
Lemma C9_deactivation_witness :
  SOSSystem.deactivate_sos SOSSystem.init = (SOSSystem.init, [])
  ∧ (SOSSystem.deactivate_sos (SOSSystem.activate_sos 0 SOSSystem.init).1).1
    = SOSSystem.init
  ∧ SOSSystem.deactivate_sos
      (SOSSystem.deactivate_sos (SOSSystem.activate_sos 0 SOSSystem.init).1).1
    = (SOSSystem.init, []).
Proof.
  destruct (C9_deactivation_idempotent SOSSystem.init) as (H1 & _ & _).
  destruct (C9_deactivation_idempotent
              (SOSSystem.activate_sos 0 SOSSystem.init).1) as (_ & _ & H3).
  split; [apply H1; reflexivity |].
  split; [reflexivity | exact H3].
Defined.

(** ** The emergency line over time *)

Section EmergencyLine.

Import Timeline.
Local Open Scope Z_scope.

Lemma run_plus line n m w : run line (n + m) w = run line n (run line m w).
Proof. induction n as [| n IH]; cbn; [done | by rewrite IH]. Qed.

(** A run reads the line at the times its threads wake up only. *)
Lemma run_agree line line' bound n w :
  (∀ t, t ≤ bound → line t = line' t) →
  forallb (λ k, next_time (run line' k w) <=? bound) (seq 0 n) = true →
  run line n w = run line' n w.
Proof.
  intros Hl. induction n as [| n IH]; [done |].
  rewrite seq_S, forallb_app. cbn [forallb seq Nat.add].
  rewrite !andb_true_iff. intros (Hn & Hk & _).
  cbn [run]. rewrite (IH Hn). unfold step.
  rewrite Hl; [done | by apply Z.leb_le].
Qed.

(** The line held for five seconds or more: the machine is Active five
    seconds after the press. *)
Lemma hold_five_seconds_activates release :
  5000 ≤ release →
  let w := run (held_until release) 58 start in
  now w = 5000
  ∧ sos w = {| SOSSystem.sos_active := true;
               SOSSystem.countdown_active := false;
               SOSSystem.current_countdown := 1 |}.
Proof.
  intros Hr w.
  destruct (Z.eq_dec release 5000) as [-> | Hne].
  - vm_compute. split; reflexivity.
  - assert (Hw : w = run (held_until 5001) 58 start).
    { apply (run_agree _ _ 5000); [| vm_compute; reflexivity].
      intros t Ht. unfold held_until.
      destruct (Z.ltb_spec t release), (Z.ltb_spec t 5001);
        (reflexivity || lia). }
    rewrite Hw. vm_compute. split; reflexivity.
Qed.

(** Once only the idle monitor is left and the line stays released,
    nothing changes but the clock. *)
Lemma quiet_step release w :
  quiet release w →
  quiet release (step (held_until release) w)
  ∧ sos (step (held_until release) w) = sos w
  ∧ gpio (step (held_until release) w) = gpio w
  ∧ log (step (held_until release) w) = log w.
Proof.
  intros (Hrun & t & Ht & Hth).
  unfold step, next_time, step_with. rewrite Hth. cbn.
  unfold held_until. destruct (Z.ltb_spec t release); [lia |].
  rewrite Hrun. cbn. rewrite app_nil_r. repeat split; try done.
  exists (t + 50). split; [lia | done].
Qed.

Lemma quiet_run release n w :
  quiet release w →
  quiet release (run (held_until release) n w)
  ∧ sos (run (held_until release) n w) = sos w
  ∧ gpio (run (held_until release) n w) = gpio w
  ∧ log (run (held_until release) n w) = log w.
Proof.
  intros Hq. induction n as [| n (IH & Hs & Hg & Hl)]; [done |].
  cbn [run]. destruct (quiet_step _ _ IH) as (H1 & H2 & H3 & H4).
  repeat split; try congruence; apply H1.
Qed.

(** The line released at second 3 of the countdown: the cancellation is
    signalled, the machine is back to Normal and is never Active. *)
Lemma release_at_second_3_cancels :
  let line := held_until 3000 in
  In (3000, Sos_signal (SOSSystem.sos_status_changed "SOS Cancelled - Normal"))
     (log (run line 36 start))
  ∧ ∀ n, SOSSystem.sos_active (sos (run line n start)) = false
         ∧ ((36 ≤ n)%nat →
            SOSSystem.get_sos_status (sos (run line n start)) = "NORMAL"%string
            ∧ log (run line n start) = log (run line 36 start)).
Proof.
  intros line. split; [vm_compute; tauto |].
  assert (Hq : quiet 3000 (run line 36 start)).
  { split; [vm_compute; reflexivity |].
    exists 3050. split; [lia | vm_compute; reflexivity]. }
  assert (Hearly : forallb
            (λ n, negb (SOSSystem.sos_active (sos (run line n start))))
            (seq 0 36) = true) by (vm_compute; reflexivity).
  intros n. destruct (Nat.le_gt_cases 36 n) as [Hn | Hn].
  - replace n with ((n - 36) + 36)%nat by lia. rewrite run_plus.
    destruct (quiet_run 3000 (n - 36) _ Hq) as (_ & Hs & _ & Hl).
    fold line in Hs, Hl. rewrite Hs, Hl.
    split; [| intros _; split]; vm_compute; reflexivity.
  - split; [| lia].
    rewrite forallb_forall in Hearly.
    apply negb_true_iff, Hearly, in_seq. lia.
Qed.

Lemma run_step_first line n w :
  run line (S n) w = run line n (step line w).
Proof. replace (S n) with (n + 1)%nat by lia. by rewrite run_plus. Qed.

Lemma trace_lookup line n : ∀ w j,
  (j ≤ n)%nat → trace line n w !! j = Some (run line j w).
Proof.
  induction n as [| n IH]; intros w [| j] Hj; cbn [trace]; try done; try lia.
  rewrite run_step_first. cbn. apply IH. lia.
Qed.

Lemma trace_last line n : ∀ w, last (trace line n w) = Some (run line n w).
Proof.
  induction n as [| n IH]; intros w; [done |].
  cbn [trace]. rewrite run_step_first, <- IH. by destruct n.
Qed.

(** Two lines that read the same whenever a thread of the run on the
    second one wakes up give the same run. *)
Lemma run_agree_on_trace line line' n w :
  Forall (λ w', line (next_time w') = line' (next_time w')) (trace line' n w) →
  ∀ j, (j ≤ S n)%nat → run line j w = run line' j w.
Proof.
  intros Hall j. induction j as [| j IH]; intros Hj; [done |].
  cbn [run]. rewrite IH by lia. unfold step. f_equal.
  rewrite Forall_lookup in Hall.
  apply (Hall j). apply trace_lookup. lia.
Qed.

Lemma cancel_signalled_log w w' :
  log w = log w' → cancel_signalled w = cancel_signalled w'.
Proof. unfold cancel_signalled. by intros ->. Qed.

Lemma get_sos_status_normal s :
  SOSSystem.sos_active s = false → SOSSystem.countdown_active s = false →
  SOSSystem.get_sos_status s = "NORMAL"%string.
Proof. unfold SOSSystem.get_sos_status. by intros -> ->. Qed.

Lemma trace_length line n : ∀ w, length (trace line n w) = S n.
Proof. induction n as [| n IH]; intros w; cbn; [done | by rewrite IH]. Qed.

(** Releases at a multiple of 100 ms up to 4.9 s, by evaluation. *)
Lemma grid_releases_cancel :
  forallb (cancels_cleanly 80) (map Z.of_nat (seq 1 49)) = true.
Proof. vm_compute. reflexivity. Qed.

Lemma cancels_cleanly_facts k :
  cancels_cleanly 80 k = true →
  let line := held_until (100 * k) in
  (∀ j, (j ≤ 80)%nat →
        let t := next_time (run line j start) in
        t ≤ 100 * (k - 1) ∨ 100 * k ≤ t)
  ∧ (∀ j, (j ≤ 80)%nat → SOSSystem.sos_active (sos (run line j start)) = false)
  ∧ GPIOManager.running (gpio (run line 80 start)) = true
  ∧ SOSSystem.countdown_active (sos (run line 80 start)) = false
  ∧ cancel_signalled (run line 80 start) = true
  ∧ ∃ t, 100 * k ≤ t ∧ threads (run line 80 start) = [(t, Monitor Idle)].
Proof.
  intros Hc line. unfold cancels_cleanly in Hc. fold line in Hc.
  rewrite trace_last in Hc.
  apply andb_true_iff in Hc as [Hc Hlast].
  apply andb_true_iff in Hc as [Hgrid Hnever].
  rewrite forallb_forall in Hgrid, Hnever.
  assert (Hin : ∀ j, (j ≤ 80)%nat →
                     In (run line j start) (trace line 80 start)).
  { intros j Hj. apply list_elem_of_In, list_elem_of_lookup. exists j.
    by apply trace_lookup. }
  generalize dependent (trace line 80 start). intros ws Hgrid Hnever Hin.
  generalize dependent (run line 80 start). intros w80 Hlast.
  split.
  { intros j Hj t. specialize (Hgrid _ (Hin j Hj)).
    apply orb_true_iff in Hgrid as [H%Z.leb_le | H%Z.leb_le]; auto. }
  split.
  { intros j Hj. apply negb_true_iff, Hnever, Hin, Hj. }
  destruct (threads w80) as [| [t [[| ?] | ? | ?]] [| ? ?]] eqn:Hth;
    rewrite ?andb_false_r in Hlast; try discriminate Hlast.
  rewrite !andb_true_iff in Hlast.
  destruct Hlast as [[[Hrun Hcd%negb_true_iff] Hsig] Ht%Z.leb_le].
  repeat split; try assumption. exists t. split; [assumption | reflexivity].
Qed.

(** Every release up to 4.9 s after the press, to the millisecond,
    cancels the countdown: the cancellation is signalled and the machine
    is never Active. *)
Lemma release_during_countdown_cancels release :
  0 < release ≤ 4900 →
  ∀ n, SOSSystem.sos_active (sos (run (held_until release) n start)) = false
       ∧ ((80 ≤ n)%nat →
          SOSSystem.get_sos_status (sos (run (held_until release) n start))
          = "NORMAL"%string
          ∧ cancel_signalled (run (held_until release) n start) = true).
Proof.
  intros Hr.
  set (k := (release + 99) / 100).
  assert (Hk : 100 * (k - 1) < release ≤ 100 * k).
  { unfold k. pose proof (Z.div_mod (release + 99) 100 ltac:(lia)).
    pose proof (Z.mod_pos_bound (release + 99) 100 ltac:(lia)). lia. }
  assert (Hc : cancels_cleanly 80 k = true).
  { pose proof grid_releases_cancel as Hall. rewrite forallb_forall in Hall.
    apply Hall, in_map_iff. exists (Z.to_nat k). split; [lia |].
    apply in_seq. lia. }
  clearbody k.
  destruct (cancels_cleanly_facts k Hc)
    as (Hgrid & Hnever & Hrun & Hcd & Hsig & t & Ht & Hth).
  assert (Hsame : ∀ j, (j ≤ 81)%nat →
            run (held_until release) j start
            = run (held_until (100 * k)) j start).
  { apply run_agree_on_trace, Forall_lookup.
    intros j w' Hj.
    assert (Hj' : (j ≤ 80)%nat).
    { apply lookup_lt_Some in Hj. rewrite trace_length in Hj. lia. }
    rewrite trace_lookup in Hj by assumption. injection Hj as <-.
    specialize (Hgrid j Hj'). cbn zeta in Hgrid.
    set (tj := next_time _) in *. clearbody tj. unfold held_until.
    destruct (Z.ltb_spec tj release), (Z.ltb_spec tj (100 * k));
      (reflexivity || lia). }
  assert (Hq : quiet release (run (held_until release) 80 start)).
  { rewrite Hsame by lia. split; [assumption |].
    exists t. split; [lia | assumption]. }
  intros n. destruct (Nat.le_gt_cases 80 n) as [Hn | Hn].
  - replace n with ((n - 80) + 80)%nat by lia. rewrite run_plus.
    destruct (quiet_run release (n - 80) _ Hq) as (_ & Hs & _ & Hl).
    rewrite Hs, (cancel_signalled_log _ _ Hl), Hsame by lia.
    split; [apply Hnever; lia |]. intros _.
    split; [| exact Hsig].
    apply get_sos_status_normal; [apply Hnever; lia | exact Hcd].
  - split; [| lia]. rewrite Hsame by lia. apply Hnever. lia.
Qed.

(** A release in the last tenth of a second of the countdown is first
    seen by the poll of second 5, where [hold_time < 5.0] fails: no
    release is signalled and the countdown activates the machine. *)
Lemma release_in_last_tenth_is_missed :
  let w := run (held_until 4950) 300 start in
  now w = 17100
  ∧ SOSSystem.get_sos_status (sos w) = "SOS_ACTIVE"%string
  ∧ release_signalled w = false
  ∧ threads w = [(17150, Monitor Idle)].
Proof. vm_compute. repeat split; reflexivity. Qed.

(** A release just after the activation falls between the [break] of
    the hold loop and the next edge test: it is never signalled and the
    machine stays Active, the alarm running. *)
Lemma release_after_break_is_missed :
  let w := run (held_until 5020) 300 start in
  now w = 15300
  ∧ SOSSystem.get_sos_status (sos w) = "SOS_ACTIVE"%string
  ∧ GPIOManager.sos_active (gpio w) = true
  ∧ release_signalled w = false.
Proof. vm_compute. repeat split; reflexivity. Qed.

End EmergencyLine.

(** C4, the alarm after the release.  The line is held for 6 seconds.
    Five seconds after the press the machine is Active; the release is
    seen at the poll of second 6.05, the SOS state is deactivated at once,
    the deactivation is signalled and buzzer and LED are driven LOW; but
    the alarm pattern, which tests the flag once per cycle only, drives
    the buzzer HIGH again from second 6.4 up to second 9.8, far more than
    one polling period (50 ms) after the release. *)
Theorem C4_alarm_pattern_outlives_release :
  let line := Timeline.held_until 6000 in
  let active := Timeline.run line 58 Timeline.start in
  let released := Timeline.run line 76 Timeline.start in
  let later := Timeline.run line 300 Timeline.start in
  (Timeline.now active = 5000%Z
   ∧ SOSSystem.get_sos_status (Timeline.sos active) = "SOS_ACTIVE"%string)
  ∧ (Timeline.now released = 6050%Z
     ∧ SOSSystem.get_sos_status (Timeline.sos released) = "NORMAL"%string
     ∧ GPIOManager.sos_active (Timeline.gpio released) = false
     ∧ In (6050%Z, Timeline.Sos_signal SOSSystem.sos_deactivated)
          (Timeline.log released)
     ∧ In (6050%Z, Timeline.Gpio_output
                     (GPIOManager.Output (GPIOManager.pin "sos_buzzer")
                        GPIOManager.LOW))
          (Timeline.log released))
  ∧ Timeline.buzzer_high_after (6050 + 50)%Z later = true
  ∧ Timeline.last_buzzer_high later = Some 9800%Z
  ∧ Timeline.threads later = [(16500%Z, Timeline.Monitor Timeline.Idle)].
Proof.
  intros line active released later.
  split; [vm_compute; split; reflexivity |].
  split; [vm_compute; tauto |].
  vm_compute. repeat split; reflexivity.
Qed.

(** ** Fare engine: the states reached from [__init__] *)

Section Reach.

Import FareCalculator FareRuns FareReach.

Lemma init_sound gps rate clk : sound (init gps rate clk).
Proof.
  split; [reflexivity |]. split; [| discriminate].
  repeat constructor.
Qed.

Lemma update_passenger_fare_settled self pid p c speed dt :
  settled p → onboard p = true →
  settled (_update_passenger_fare self pid p c speed dt).1.
Proof.
  unfold settled. intros Hs Hon. rewrite Hon in Hs.
  destruct Hs as (Ht & Hsl & Hl & Hr).
  destruct (last_location p) as [l |] eqn:Hlast; [| by destruct Hl].
  destruct (update_passenger_fare_tick self pid p l c speed dt Hlast)
    as (_ & _ & Hl' & _ & -> & -> & -> & -> & _).
  rewrite Hon, Hl'. done.
Qed.

Lemma update_onboard_settled self c speed dt ps k :
  Forall settled ps →
  Forall settled (update_onboard self k ps c speed dt).1
  ∧ length (update_onboard self k ps c speed dt).1 = length ps.
Proof.
  revert k. induction ps as [| p ps IH]; intros k Hs; cbn [update_onboard].
  - done.
  - apply Forall_cons in Hs as [Hp Hs]. specialize (IH (S k) Hs).
    destruct (update_onboard self (S k) ps c speed dt) as [rest' es].
    cbn [fst] in IH. destruct IH as [IH1 IH2].
    pose proof (update_passenger_fare_settled self k p c speed dt Hp) as Hq.
    destruct (onboard p).
    + destruct (_update_passenger_fare self k p c speed dt) as [p' e].
      cbn in *. split; [constructor; auto | lia].
    + cbn. split; [constructor; auto | lia].
Qed.

(** The private-trip updater keeps the trip boarded. *)
Lemma update_private_fare_boarded clk c speed dt st :
  let st' := (_update_private_fare clk c speed dt st).1 in
  private_mode_active st' = private_mode_active st
  ∧ private_start_time st' = private_start_time st
  ∧ is_Some (private_last_location st').
Proof.
  unfold _update_private_fare.
  destruct (private_last_location st) as [l |] eqn:Hl; [| cbn; eauto].
  cbn zeta.
  destruct (Rlt_dec 0.005 _), (Rlt_dec speed _); cbn;
    rewrite ?Hl; eauto.
Qed.

Lemma calculation_loop_sound clk st :
  sound st → sound (_calculation_loop clk st).1.
Proof.
  intros (Hlen & Hall & Hpriv). unfold _calculation_loop.
  destruct (Rle_dec 1.0 _); [| exact (conj Hlen (conj Hall Hpriv))].
  set (c := GPSManager.get_location (gps_manager st)).
  set (speed := GPSManager.get_speed (gps_manager st)).
  set (dt := time_time clk - last_gps_update st).
  destruct (update_onboard_settled st c speed dt (passengers st) 0 Hall)
    as [Hall' Hlen'].
  destruct (update_onboard st 0 (passengers st) c speed dt) as [ps e1].
  cbn [fst] in Hall', Hlen'.
  set (s1 := set_passengers ps st).
  pose proof (update_private_fare_frame clk c speed dt s1) as Hf.
  pose proof (update_private_fare_boarded clk c speed dt s1) as Hb.
  destruct (private_mode_active s1) eqn:Ha.
  - destruct (_update_private_fare clk c speed dt s1) as [s2 e2].
    cbn [fst snd] in Hf, Hb. destruct Hf as (Hps & _).
    destruct Hb as (Hb1 & Hb2 & Hb3).
    unfold sound. cbn. rewrite Hps. cbn. repeat split; try done; try lia.
    rewrite Hb2. cbn. apply Hpriv. exact Ha.
  - unfold sound. cbn. repeat split; try done; try lia;
      cbn in Ha; congruence.
Qed.

Lemma set_passengers_sound ps st :
  sound st → length ps = length (passengers st) → Forall settled ps →
  sound (set_passengers ps st).
Proof.
  intros (Hlen & _ & Hpriv) Hl Hall.
  split; [cbn; lia |]. split; [exact Hall | exact Hpriv].
Qed.

Lemma handle_passenger_change_sound i b clk st :
  sound st →
  sound (handle_passenger_change i b clk st).1.1
  ∧ (handle_passenger_change i b clk st).2 = Returned.
Proof.
  intros (Hlen & Hall & Hpriv). unfold handle_passenger_change.
  assert (Hst : sound st) by exact (conj Hlen (conj Hall Hpriv)).
  destruct (decide _) as [Hle | Hlt]; [done |].
  destruct (passengers st !! i) as [p |] eqn:Hp.
  2: { apply lookup_ge_None in Hp. lia. }
  pose proof (proj1 (Forall_lookup _ _) Hall i p Hp) as Hs.
  unfold settled in Hs.
  destruct b, (onboard p) eqn:Hon; cbn [andb negb]; try done.
  - (* boarding *)
    split; [| done]. cbn [fst].
    apply set_passengers_sound; [done | by rewrite length_insert |].
    apply Forall_insert; [done |]. unfold settled. cbn.
    repeat split; by eexists.
  - (* alighting *)
    destruct Hs as ([t0 Ht] & _). rewrite Ht.
    split; [| done]. cbn [fst].
    apply set_passengers_sound; [done | by rewrite length_insert |].
    apply Forall_insert; [done |]. reflexivity.
Qed.

Lemma start_private_mode_sound clk st :
  sound st → sound (start_private_mode clk st).1.1.
Proof.
  intros (Hlen & Hall & _).
  split; [exact Hlen |]. split; [exact Hall |].
  intros _. cbn. split; by eexists.
Qed.

Lemma stop_private_mode_sound clk st :
  sound st →
  sound (stop_private_mode clk st).1.1
  ∧ (stop_private_mode clk st).2 = Returned.
Proof.
  intros Hst. pose proof Hst as (Hlen & Hall & Hpriv).
  unfold stop_private_mode.
  destruct (private_mode_active st) eqn:Ha; [| done].
  destruct (Hpriv eq_refl) as ([t0 Ht] & _). rewrite Ht. cbn.
  split; [| done].
  split; [exact Hlen |]. split; [exact Hall | discriminate].
Qed.

Lemma exec_sound a st : sound st → sound (exec a st).1.
Proof.
  intros Hs. destruct a as [g | clk | rate | i b clk | clk | clk];
    cbn [exec fst].
  - exact Hs.
  - by apply calculation_loop_sound.
  - exact Hs.
  - by apply handle_passenger_change_sound.
  - by apply start_private_mode_sound.
  - by apply stop_private_mode_sound.
Qed.

Lemma exec_all_sound acts : ∀ st, sound st → sound (exec_all acts st).1.
Proof.
  induction acts as [| a acts IH]; intros st Hs; cbn [exec_all fst].
  - exact Hs.
  - apply IH. by apply exec_sound.
Qed.

End Reach.

(** X1.  Whatever sequence of GPS updates, calculation passes, rate
    changes, passenger events and private-mode calls follows [__init__],
    the engine has its three slots; a slot that is not onboard is in the
    zero state of [__init__]; an onboard slot has its start time, start
    location, last location and ride id; and an active private trip has
    its start time and last location. *)
Theorem reachable_states_are_sound
    (acts : list FareRuns.action) (gps : GPSManager.state) (rate : R)
    (clk : clock) :
  FareReach.sound (FareRuns.exec_all acts (FareCalculator.init gps rate clk)).1.
Proof. apply exec_all_sound, init_sound. Qed.


(** ** Fare engine: what the meter shows over a run *)

Section Meter.

Import FareCalculator FareRuns FareReach.

(** One pass of the calculation loop: nothing before a second has gone
    by; after it, every onboard slot is updated against the same reading
    and the pass is stamped. *)
Lemma calculation_loop_idle clk st :
  time_time clk - last_gps_update st < 1 → _calculation_loop clk st = (st, []).
Proof.
  intros H. unfold _calculation_loop. destruct (Rle_dec 1.0 _); [lra | done].
Qed.

Lemma calculation_loop_pass clk st :
  1 <= time_time clk - last_gps_update st →
  let c := GPSManager.get_location (gps_manager st) in
  let speed := GPSManager.get_speed (gps_manager st) in
  let dt := time_time clk - last_gps_update st in
  let st' := (_calculation_loop clk st).1 in
  last_gps_update st' = time_time clk
  ∧ ∀ pid, passengers st' !! pid
           = (λ p, if onboard p
                   then (_update_passenger_fare st pid p c speed dt).1
                   else p) <$> passengers st !! pid.
Proof.
  intros Hdt c speed dt st'. unfold st', _calculation_loop. fold c speed dt.
  destruct (Rle_dec 1.0 dt) as [_ | Hn]; [| unfold dt in Hn; lra].
  pose proof (update_onboard_lookup st c speed dt (passengers st) 0) as Hl.
  destruct (update_onboard st 0 (passengers st) c speed dt) as [ps e1].
  cbn [fst] in Hl.
  set (s1 := set_passengers ps st).
  pose proof (update_private_fare_frame clk c speed dt s1) as Hf.
  destruct (private_mode_active s1).
  - destruct (_update_private_fare clk c speed dt s1) as [s2 e2].
    cbn [fst snd] in Hf. destruct Hf as (Hps & _).
    cbn. rewrite Hps. cbn. split; [done |]. intros pid. apply Hl.
  - cbn. split; [done |]. intros pid. apply Hl.
Qed.

Lemma calculation_loop_frame clk st :
  let st' := (_calculation_loop clk st).1 in
  minimum_speed_threshold st' = minimum_speed_threshold st
  ∧ fare_rate_per_km st' = fare_rate_per_km st
  ∧ gps_manager st' = gps_manager st.
Proof.
  unfold _calculation_loop.
  destruct (Rle_dec 1.0 _); [| done].
  set (c := GPSManager.get_location (gps_manager st)).
  set (speed := GPSManager.get_speed (gps_manager st)).
  set (dt := time_time clk - last_gps_update st).
  destruct (update_onboard st 0 (passengers st) c speed dt) as [ps e1].
  set (s1 := set_passengers ps st).
  pose proof (update_private_fare_frame clk c speed dt s1) as Hf.
  destruct (private_mode_active s1); [| done].
  destruct (_update_private_fare clk c speed dt s1) as [s2 e2].
  cbn [fst snd] in Hf. destruct Hf as (_ & Hm & Hr & Hg & _).
  cbn. by rewrite Hm, Hr, Hg.
Qed.

Lemma handle_passenger_change_frame i b clk st :
  let st' := (handle_passenger_change i b clk st).1.1 in
  minimum_speed_threshold st' = minimum_speed_threshold st
  ∧ fare_rate_per_km st' = fare_rate_per_km st
  ∧ gps_manager st' = gps_manager st
  ∧ last_gps_update st' = last_gps_update st
  ∧ private_fare st' = private_fare st
  ∧ private_distance st' = private_distance st
  ∧ private_waiting_time st' = private_waiting_time st.
Proof.
  unfold handle_passenger_change.
  destruct (decide _); [done |].
  destruct (passengers st !! i) as [p |]; [| done].
  destruct (b && negb (onboard p)); [done |].
  destruct (negb b && onboard p); [| done].
  by destruct (start_time p).
Qed.

(** A tick charges nothing negative. *)
Lemma update_passenger_fare_grows self pid p c speed dt :
  0 <= fare_rate_per_km self → 0 <= dt →
  let p' := (_update_passenger_fare self pid p c speed dt).1 in
  fare p <= fare p' ∧ total_distance p <= total_distance p'
  ∧ waiting_time p <= waiting_time p'.
Proof.
  intros Hrate Hdt p'. unfold p'.
  destruct (last_location p) as [l |] eqn:Hl.
  - destruct (update_passenger_fare_tick self pid p l c speed dt Hl)
      as (-> & -> & _ & -> & _).
    cbn [_calculate_distance]. unfold waiting_charge_per_minute.
    pose proof (calculate_distance_le_haversine l.1 l.2 c.1 c.2) as [Hm _].
    pose proof (Rmult_le_pos _ _ Hm Hrate).
    tick_cases; lra.
  - destruct (update_passenger_fare_first self pid p c speed dt Hl)
      as (-> & -> & -> & _). lra.
Qed.

Lemma update_onboard_Forall (P : passenger → Prop) self c speed dt ps k :
  (∀ pid p, P p → onboard p = true →
            P (_update_passenger_fare self pid p c speed dt).1) →
  Forall P ps → Forall P (update_onboard self k ps c speed dt).1.
Proof.
  intros HP. revert k.
  induction ps as [| p ps IH]; intros k Hs; cbn [update_onboard].
  - done.
  - apply Forall_cons in Hs as [Hp Hs]. specialize (IH (S k) Hs).
    destruct (update_onboard self (S k) ps c speed dt) as [rest' es].
    cbn [fst] in IH. specialize (HP k p Hp).
    destruct (onboard p).
    + destruct (_update_passenger_fare self k p c speed dt) as [p' e].
      cbn in *. constructor; auto.
    + cbn. constructor; auto.
Qed.

Lemma update_private_fare_grows clk c speed dt st :
  0 <= fare_rate_per_km st → 0 <= dt →
  let st' := (_update_private_fare clk c speed dt st).1 in
  private_fare st <= private_fare st'
  ∧ private_distance st <= private_distance st'
  ∧ private_waiting_time st <= private_waiting_time st'.
Proof.
  intros Hrate Hdt st'. unfold st'.
  destruct (private_last_location st) as [l |] eqn:Hl.
  - destruct (update_private_fare_tick clk st l c speed dt Hl)
      as (-> & -> & _ & ->).
    cbn [_calculate_distance]. unfold waiting_charge_per_minute.
    pose proof (calculate_distance_le_haversine l.1 l.2 c.1 c.2) as [Hm _].
    pose proof (Rmult_le_pos _ _ Hm Hrate).
    tick_cases; lra.
  - unfold _update_private_fare. rewrite Hl. cbn. lra.
Qed.

Lemma init_nonneg gps rate clk : 0 <= rate → nonneg (init gps rate clk).
Proof.
  intros H. unfold nonneg. cbn.
  split; [done |]. split; [done |].
  split; [repeat constructor; cbn; lra | lra].
Qed.

Lemma calculation_loop_nonneg clk st :
  nonneg st → nonneg (_calculation_loop clk st).1.
Proof.
  intros Hn. pose proof Hn as (Hrate & Hthr & Hall & Hf & Hd & Hw).
  unfold _calculation_loop.
  destruct (Rle_dec 1.0 _) as [Hdt | _]; [| done].
  set (c := GPSManager.get_location (gps_manager st)).
  set (speed := GPSManager.get_speed (gps_manager st)).
  set (dt := time_time clk - last_gps_update st) in *.
  assert (Hdt0 : 0 <= dt) by lra.
  assert (Hall' : Forall (λ p, 0 <= fare p ∧ 0 <= total_distance p
                              ∧ 0 <= waiting_time p)
                         (update_onboard st 0 (passengers st) c speed dt).1).
  { apply update_onboard_Forall; [| done].
    intros pid p (H1 & H2 & H3) _.
    pose proof (update_passenger_fare_grows st pid p c speed dt Hrate Hdt0).
    cbn zeta in *. lra. }
  destruct (update_onboard st 0 (passengers st) c speed dt) as [ps e1].
  cbn [fst] in Hall'.
  set (s1 := set_passengers ps st).
  pose proof (update_private_fare_frame clk c speed dt s1) as Hfr.
  pose proof (update_private_fare_grows clk c speed dt s1 Hrate Hdt0) as Hg.
  destruct (private_mode_active s1).
  - destruct (_update_private_fare clk c speed dt s1) as [s2 e2].
    cbn [fst snd] in Hfr, Hg. destruct Hfr as (Hps & Hm & Hr & _).
    cbn in Hg. unfold nonneg. cbn. rewrite Hps, Hm, Hr. cbn.
    split; [done |]. split; [done |]. split; [done |]. lra.
  - unfold nonneg. cbn.
    split; [done |]. split; [done |]. split; [done |]. lra.
Qed.

Lemma handle_passenger_change_nonneg i b clk st :
  nonneg st → nonneg (handle_passenger_change i b clk st).1.1.
Proof.
  intros Hn. pose proof Hn as (Hrate & Hthr & Hall & Hf & Hd & Hw).
  unfold handle_passenger_change.
  destruct (decide _); [done |].
  destruct (passengers st !! i) as [p |] eqn:Hp; [| done].
  pose proof (proj1 (Forall_lookup _ _) Hall i p Hp) as Hq. cbn in Hq.
  destruct (b && negb (onboard p)).
  { unfold nonneg. cbn. split; [done |]. split; [done |].
    split; [| lra]. apply Forall_insert; [done |]. cbn. lra. }
  destruct (negb b && onboard p); [| done].
  destruct (start_time p); unfold nonneg; cbn;
    (split; [done |]); (split; [done |]); (split; [| lra]);
    (apply Forall_insert; [done |]); cbn; lra.
Qed.

Lemma exec_nonneg a st : rate_ok a → nonneg st → nonneg (exec a st).1.
Proof.
  intros Ha Hn. pose proof Hn as (Hrate & Hthr & Hall & Hf & Hd & Hw).
  destruct a as [g | clk | rate | i b clk | clk | clk]; cbn [exec fst].
  - exact Hn.
  - by apply calculation_loop_nonneg.
  - unfold nonneg. cbn in *. split; [done |]. split; [done |].
    split; [done |]. lra.
  - by apply handle_passenger_change_nonneg.
  - unfold nonneg. cbn. split; [done |]. split; [done |].
    split; [done |]. lra.
  - unfold stop_private_mode. destruct (private_mode_active st); [| done].
    destruct (private_start_time st); unfold nonneg; cbn;
      (split; [done |]); (split; [done |]); (split; [done |]); lra.
Qed.

Lemma exec_all_nonneg acts : ∀ st,
  Forall rate_ok acts → nonneg st → nonneg (exec_all acts st).1.
Proof.
  induction acts as [| a acts IH]; intros st Hr Hn; cbn [exec_all fst].
  - exact Hn.
  - apply Forall_cons in Hr as [Ha Hr]. apply IH; [done |].
    by apply exec_nonneg.
Qed.

Lemma spec_tick_charges_nonneg pid clk st :
  0 <= fare_rate_per_km st → 0 <= Rsum (spec_tick_charges pid clk st).
Proof.
  intros Hrate. unfold spec_tick_charges, Rsum.
  destruct (passengers st !! pid) as [p |]; [| cbn; lra].
  destruct (onboard p); [| cbn; lra].
  destruct (Rle_dec 1 _) as [Hdt |]; [| cbn; lra].
  destruct (last_location p) as [l |]; [| cbn; lra].
  set (c := GPSManager.get_location (gps_manager st)).
  pose proof (calculate_distance_le_haversine l.1 l.2 c.1 c.2) as [Hm _].
  pose proof (Rmult_le_pos _ _ Hm Hrate).
  tick_cases; cbn; lra.
Qed.

Lemma charges_nonneg pid a st :
  0 <= fare_rate_per_km st → 0 <= Rsum (charges pid a st).
Proof.
  intros H. destruct a; cbn [charges]; try (unfold Rsum; cbn; lra).
  by apply spec_tick_charges_nonneg.
Qed.

(** While a slot stays aboard its fare does not go down. *)
Lemma fare_grows_from acts : ∀ st pid q,
  nonneg st → passengers st !! pid = Some q → onboard q = true →
  Forall rate_ok acts → Forall (keeps_aboard pid) acts →
  ∃ q', passengers (exec_all acts st).1 !! pid = Some q'
        ∧ same_ride q q' ∧ fare q <= fare q'.
Proof.
  induction acts as [| a acts IH]; intros st pid q Hn Hq Hon Hr Hk.
  - exists q. cbn. repeat split; first [done | lra].
  - apply Forall_cons in Hr as [Ha Hr]. apply Forall_cons in Hk as [Hka Hk].
    pose proof Hn as (Hrate & Hthr & _).
    assert (Hthr2 : minimum_speed_threshold st = 2) by lra.
    destruct (exec_rides_on pid a st q Hq Hon Hthr2 Hka)
      as (q1 & Hq1 & (Ho1 & Hr1 & Ht1 & Hs1) & Hf1 & _).
    pose proof (charges_nonneg pid a st Hrate) as Hc.
    destruct (IH (exec a st).1 pid q1) as (q2 & Hq2 & (Ho2 & Hr2 & Ht2 & Hs2) & Hf2);
      [by apply exec_nonneg | done | congruence | done | done |].
    exists q2. cbn [exec_all fst].
    split; [done |]. split; [| lra].
    repeat split; congruence.
Qed.

(** A vehicle that stands still: every pass that counts charges the
    waiting rate for the time since the pass before, so the charges add
    up to the time between the first stamp and the last. *)
Lemma stationary_ticks ticks : ∀ st pid q,
  passengers st !! pid = Some q → onboard q = true →
  last_location q = Some (GPSManager.get_location (gps_manager st)) →
  GPSManager.get_speed (gps_manager st) < minimum_speed_threshold st →
  Forall is_tick ticks →
  let st' := (exec_all ticks st).1 in
  ∃ q', passengers st' !! pid = Some q' ∧ onboard q' = true
        ∧ fare q' = fare q + (last_gps_update st' - last_gps_update st) / 60 * 2
        ∧ waiting_time q'
          = waiting_time q + (last_gps_update st' - last_gps_update st) / 60
        ∧ total_distance q' = total_distance q.
Proof.
  induction ticks as [| a ticks IH]; intros st pid q Hq Hon Hloc Hslow Ht.
  - exists q. cbn. repeat split; try done; lra.
  - apply Forall_cons in Ht as [Ha Ht].
    destruct a as [| clk | | | |]; try done.
    cbn [exec_all exec fst]. cbn zeta.
    destruct (calculation_loop_frame clk st) as (Hm & _ & Hg).
    destruct (Rlt_dec (time_time clk - last_gps_update st) 1) as [Hidle | Hdt].
    + rewrite (calculation_loop_idle clk st Hidle). cbn [fst].
      by apply IH.
    + apply Rnot_lt_le in Hdt.
      destruct (calculation_loop_pass clk st Hdt) as [Hstamp Hslots].
      specialize (Hslots pid). rewrite Hq in Hslots. cbn in Hslots.
      rewrite Hon in Hslots.
      set (c := GPSManager.get_location (gps_manager st)) in *.
      set (speed := GPSManager.get_speed (gps_manager st)) in *.
      set (dt := time_time clk - last_gps_update st) in *.
      set (st1 := (_calculation_loop clk st).1) in *.
      destruct (update_passenger_fare_tick st pid q c c speed dt Hloc)
        as (Hf & Hd & Hl & Hw & Ho & _).
      cbn [_calculate_distance] in Hf, Hd, Hl.
      rewrite calculate_distance_refl in Hf, Hd, Hl.
      destruct (Rlt_dec 0.005 0) as [Habs |]; [lra |].
      destruct (Rlt_dec speed (minimum_speed_threshold st)); [| lra].
      unfold waiting_charge_per_minute in Hf.
      destruct (IH st1 pid _ Hslots) as (q' & Hq' & Ho' & Hf' & Hw' & Hd');
        [congruence | by rewrite Hl, Hg | by rewrite Hg, Hm | done |].
      exists q'. split; [done |]. split; [done |].
      rewrite Hf', Hw', Hd', Hf, Hw, Hd, Hstamp. unfold dt.
      repeat split; lra.
Qed.

Lemma calculation_loop_signals clk st :
  Forall (λ s, ∀ pid, completes pid s = false) (_calculation_loop clk st).2.
Proof.
  unfold _calculation_loop.
  destruct (Rle_dec 1.0 _); [| constructor].
  set (c := GPSManager.get_location (gps_manager st)).
  set (speed := GPSManager.get_speed (gps_manager st)).
  set (dt := time_time clk - last_gps_update st).
  pose proof (update_onboard_signals st c speed dt (passengers st) 0) as He.
  destruct (update_onboard st 0 (passengers st) c speed dt) as [ps e1].
  set (s1 := set_passengers ps st).
  pose proof (update_private_fare_frame clk c speed dt s1) as Hf.
  destruct (private_mode_active s1).
  - destruct (_update_private_fare clk c speed dt s1) as [s2 e2].
    cbn in *. destruct Hf as (_ & _ & _ & _ & He2). by apply Forall_app.
  - cbn in *. apply Forall_app. split; [done | constructor].
Qed.

(** What a sound engine emits for an alighting has all that the upload
    reads. *)
Lemma exec_completed_record a st pid rd :
  sound st → ride_completed pid rd ∈ (exec a st).2 →
  is_Some (Ride.start_location rd) ∧ is_Some (Ride.ride_id rd)
  ∧ Ride.passenger_id rd = (pid + 1)%nat.
Proof.
  intros (Hlen & Hall & _) Hin.
  destruct a as [g | clk | rate | i b clk | clk | clk]; cbn [exec snd] in Hin.
  - by apply elem_of_nil in Hin.
  - exfalso.
    pose proof (calculation_loop_signals clk st) as Hs.
    rewrite Forall_forall in Hs. specialize (Hs _ Hin pid). cbn in Hs.
    by rewrite Nat.eqb_refl in Hs.
  - by apply elem_of_nil in Hin.
  - unfold handle_passenger_change in Hin.
    destruct (decide _); [by apply elem_of_nil in Hin |].
    destruct (passengers st !! i) as [p |] eqn:Hp;
      [| by apply elem_of_nil in Hin].
    pose proof (proj1 (Forall_lookup _ _) Hall i p Hp) as Hq.
    unfold settled in Hq.
    destruct (b && negb (onboard p)).
    { cbn in Hin. apply list_elem_of_singleton in Hin. discriminate. }
    destruct (negb b && onboard p) eqn:Hb; [| by apply elem_of_nil in Hin].
    apply andb_true_iff in Hb as [_ Hon]. rewrite Hon in Hq.
    destruct Hq as ([t0 Ht] & Hsl & _ & Hr). rewrite Ht in Hin.
    cbn in Hin. apply list_elem_of_singleton in Hin.
    injection Hin as -> ->. by cbn.
  - cbn in Hin.
    repeat (apply elem_of_cons in Hin as [Hin | Hin]; [discriminate |]).
    by apply elem_of_nil in Hin.
  - by apply elem_of_nil in Hin.
Qed.

Lemma exec_all_completed_record acts : ∀ st pid rd,
  sound st → ride_completed pid rd ∈ (exec_all acts st).2 →
  is_Some (Ride.start_location rd) ∧ is_Some (Ride.ride_id rd)
  ∧ Ride.passenger_id rd = (pid + 1)%nat.
Proof.
  induction acts as [| a acts IH]; intros st pid rd Hs Hin;
    cbn [exec_all snd] in Hin.
  - by apply elem_of_nil in Hin.
  - apply elem_of_app in Hin as [Hin | Hin].
    + by eapply exec_completed_record.
    + eapply IH; [| exact Hin]. by apply exec_sound.
Qed.

End Meter.

(** X3.  With a rate that is not negative at [__init__] and at every
    [set_fare_rate], nothing the meter holds is ever negative: the fare
    [get_passenger_fare] returns for any slot number, the private fare
    [get_total_fare] returns, and every accumulated distance and waiting
    time. *)
Theorem reachable_fares_are_never_negative
    (acts : list FareRuns.action) (gps : GPSManager.state) (rate : R)
    (clk : clock) (passenger_id : nat) :
  0 <= rate → Forall FareReach.rate_ok acts →
  let st := (FareRuns.exec_all acts (FareCalculator.init gps rate clk)).1 in
  0 <= FareReach.get_passenger_fare passenger_id st
  ∧ 0 <= FareReach.get_total_fare st
  ∧ FareReach.nonneg st.
Proof.
  intros Hrate Hacts st.
  assert (Hn : FareReach.nonneg st)
    by (apply exec_all_nonneg; [done | by apply init_nonneg]).
  pose proof Hn as (_ & _ & Hall & Hf & _).
  split; [| done].
  unfold FareReach.get_passenger_fare.
  destruct (decide _); [| lra].
  destruct (FareCalculator.passengers st !! passenger_id) as [p |] eqn:Hp;
    [| lra].
  by destruct (proj1 (Forall_lookup _ _) Hall passenger_id p Hp).
Qed.

(** A meter at 12 per km: a passenger boards slot 0, the vehicle stands
    for a minute, one pass of the loop. *)
Lemma fares_nonnegative_witness :
  let clk t := {| datetime_now := t; time_time := t |} in
  let acts := [FareRuns.Passenger_change 0 true (clk 10);
               FareRuns.Tick (clk 70)] in
  let st := (FareRuns.exec_all acts
               (FareCalculator.init GPSManager.init 12 (clk 0))).1 in
  0 <= FareReach.get_passenger_fare 0 st.
Proof.
  intros clk acts st.
  apply (reachable_fares_are_never_negative acts GPSManager.init 12 (clk 0) 0).
  - lra.
  - repeat constructor.
Defined.

(** X4.  While a slot stays aboard, its fare never goes down, whatever
    else happens (GPS updates, passes of the loop, other slots' events,
    private-mode calls, rate changes that set no negative rate): the meter
    of a ride does not run backwards. *)
Theorem fare_never_decreases_during_a_ride
    (pre acts : list FareRuns.action) (gps : GPSManager.state) (rate : R)
    (clk : clock) (pid : nat) (q : FareCalculator.passenger) :
  0 <= rate → Forall FareReach.rate_ok (pre ++ acts) →
  Forall (FareRuns.keeps_aboard pid) acts →
  let st := (FareRuns.exec_all pre (FareCalculator.init gps rate clk)).1 in
  FareCalculator.passengers st !! pid = Some q →
  FareCalculator.onboard q = true →
  ∃ q', FareCalculator.passengers (FareRuns.exec_all acts st).1 !! pid = Some q'
        ∧ FareRuns.same_ride q q'
        ∧ FareCalculator.fare q <= FareCalculator.fare q'.
Proof.
  intros Hrate Hr Hk st Hq Hon.
  apply Forall_app in Hr as [Hr1 Hr2].
  apply fare_grows_from; try done.
  apply exec_all_nonneg; [done | by apply init_nonneg].
Qed.

(** Slot 0 boards in Mumbai; then a fix 22 m north at 15 km/h and a pass
    of the loop two seconds later. *)
Lemma fare_growth_witness :
  let clk t := {| datetime_now := t; time_time := t |} in
  let st0 := FareCalculator.init GPSManager.init 12 (clk 100) in
  let pre := [FareRuns.Passenger_change 0 true (clk 100)] in
  let acts := [FareRuns.Gps_update
                 (GPSManager.on_gpvtg 15
                    (GPSManager.on_gpgga 19.0762 72.8777 GPSManager.init));
               FareRuns.Tick (clk 102)] in
  ∃ q', FareCalculator.passengers
          (FareRuns.exec_all acts (FareRuns.exec_all pre st0).1).1 !! 0%nat
        = Some q'
        ∧ 0 <= FareCalculator.fare q'.
Proof.
  intros clk st0 pre acts.
  destruct (fare_never_decreases_during_a_ride pre acts GPSManager.init 12
              (clk 100) 0
              {| FareCalculator.onboard := true; FareCalculator.fare := 0.0;
                 FareCalculator.start_location := Some (19.0760, 72.8777);
                 FareCalculator.last_location := Some (19.0760, 72.8777);
                 FareCalculator.start_time := Some 100;
                 FareCalculator.total_distance := 0.0;
                 FareCalculator.ride_id
                   := Some (FareCalculator.ride_id_of 0 100);
                 FareCalculator.waiting_time := 0.0 |})
    as (q' & Hq' & _ & Hf).
  - lra.
  - repeat constructor.
  - repeat constructor.
  - reflexivity.
  - reflexivity.
  - exists q'. split; [exact Hq' |]. cbn in Hf. lra.
Defined.

(** X5.  A passenger boards while the vehicle stands still (speed reading
    below the waiting threshold) and it keeps standing: after any number
    of passes of the calculation loop, however spaced, the slot's fare is
    2 per minute of the time between the stamp of the last pass before the
    boarding and the stamp of the last pass so far, its waiting time is
    that time, and no distance is charged. *)
Theorem stationary_ride_is_charged_by_the_clock
    (st : FareCalculator.state) (pid : nat) (p : FareCalculator.passenger)
    (clk_b : clock) (ticks : list FareRuns.action) :
  FareCalculator.passengers st !! pid = Some p →
  FareCalculator.onboard p = false →
  GPSManager.get_speed (FareCalculator.gps_manager st)
  < FareCalculator.minimum_speed_threshold st →
  Forall FareReach.is_tick ticks →
  let st1 := (FareCalculator.handle_passenger_change pid true clk_b st).1.1 in
  let st2 := (FareRuns.exec_all ticks st1).1 in
  let elapsed :=
    FareCalculator.last_gps_update st2 - FareCalculator.last_gps_update st in
  ∃ q, FareCalculator.passengers st2 !! pid = Some q
       ∧ FareCalculator.onboard q = true
       ∧ FareCalculator.fare q = elapsed / 60 * 2
       ∧ FareCalculator.waiting_time q = elapsed / 60
       ∧ FareCalculator.total_distance q = 0.
Proof.
  intros Hp Hoff Hslow Ht st1 st2 elapsed.
  assert (H1 : st1 = _)
    by exact (f_equal (λ r, r.1.1)
                (handle_passenger_change_board st pid p clk_b Hp Hoff)).
  cbn [fst] in H1.
  set (here := GPSManager.get_location (FareCalculator.gps_manager st)) in *.
  set (boarded := {| FareCalculator.onboard := true |}) in H1.
  assert (Hb : FareCalculator.passengers st1 !! pid = Some boarded).
  { rewrite H1. cbn. apply list_lookup_insert_eq. by eapply lookup_lt_Some. }
  destruct (stationary_ticks ticks st1 pid boarded Hb eq_refl)
    as (q & Hq & Ho & Hf & Hw & Hd); try done.
  - by rewrite H1.
  - by rewrite H1.
  - exists q. fold st2 in Hq, Hf, Hw, Hd.
    assert (Hu : FareCalculator.last_gps_update st1
                 = FareCalculator.last_gps_update st) by (by rewrite H1).
    rewrite Hu in Hf, Hw. fold elapsed in Hf, Hw.
    split; [done |]. split; [done |].
    rewrite Hf, Hw, Hd. cbn. repeat split; lra.
Qed.

(** A meter started at second 0; slot 0 boards at second 10.4 in a
    standing vehicle; the loop passes at seconds 11, 11.5 (too early to
    count) and 13: the fare is 2 per minute of 13 seconds. *)
Lemma stationary_ride_witness :
  let clk t := {| datetime_now := t; time_time := t |} in
  let st := FareCalculator.init GPSManager.init 12 (clk 0) in
  let ticks := [FareRuns.Tick (clk 11); FareRuns.Tick (clk 11.5);
                FareRuns.Tick (clk 13)] in
  let st1 := (FareCalculator.handle_passenger_change 0 true (clk 10.4) st).1.1 in
  let st2 := (FareRuns.exec_all ticks st1).1 in
  FareCalculator.last_gps_update st2 = 13
  ∧ ∃ q, FareCalculator.passengers st2 !! 0%nat = Some q
         ∧ FareCalculator.fare q = 13 / 60 * 2.
Proof.
  intros clk st ticks st1 st2.
  assert (Hstamp : FareCalculator.last_gps_update st2 = 13).
  { unfold st2, ticks. cbn [FareRuns.exec_all FareRuns.exec fst].
    assert (H0 : FareCalculator.last_gps_update st1 = 0) by reflexivity.
    set (sa := (FareCalculator._calculation_loop (clk 11) st1).1).
    assert (Ha : FareCalculator.last_gps_update sa = 11).
    { destruct (calculation_loop_pass (clk 11) st1) as [Ha _]; [| exact Ha].
      rewrite H0. unfold clk. cbn [time_time]. lra. }
    rewrite (calculation_loop_idle (clk 11.5) sa)
      by (rewrite Ha; unfold clk; cbn [time_time]; lra).
    cbn [fst].
    destruct (calculation_loop_pass (clk 13) sa) as [Hb _]; [| exact Hb].
    rewrite Ha. unfold clk. cbn [time_time]. lra. }
  split; [exact Hstamp |].
  destruct (stationary_ride_is_charged_by_the_clock st 0
              FareCalculator.empty_passenger (clk 10.4) ticks)
    as (q & Hq & _ & Hf & _).
  - reflexivity.
  - reflexivity.
  - cbn. lra.
  - repeat constructor.
  - exists q. split; [exact Hq |].
    rewrite Hf. fold st1 st2. rewrite Hstamp. cbn. lra.
Defined.

(** X6.  Every ride-completed record the engine emits, in any run from
    [__init__], has what [FareSyncService._send_to_backend] reads: the
    payload is built without an exception, it carries a ride id, and its
    [passengerId] is the text of the record's own [passenger_id]. *)
Theorem completed_rides_can_be_uploaded
    (acts : list FareRuns.action) (gps : GPSManager.state) (rate : R)
    (clk : clock) (driver_id : string) (pid : nat) (rd : Ride.data) :
  FareCalculator.ride_completed pid rd
  ∈ (FareRuns.exec_all acts (FareCalculator.init gps rate clk)).2 →
  ∃ pl, FareSyncService.build_payload driver_id pid rd = Some pl
        ∧ is_Some (FareSyncService.rideId pl)
        ∧ FareSyncService.passengerId pl
          = PyNum.str_int (Z.of_nat (Ride.passenger_id rd))
        ∧ FareSyncService.fareAmount pl = Ride.fare_amount rd.
Proof.
  intros Hin.
  destruct (exec_all_completed_record acts _ pid rd
              (init_sound gps rate clk) Hin) as ([sl Hsl] & Hrid & Hpid).
  unfold FareSyncService.build_payload. rewrite Hsl.
  eexists. split; [reflexivity |]. cbn. by rewrite Hpid.
Qed.

(** Slot 1 boards and alights: the record goes into a payload for
    passenger "2". *)
Lemma upload_witness :
  let clk t := {| datetime_now := t; time_time := t |} in
  let acts := [FareRuns.Passenger_change 1 true (clk 100);
               FareRuns.Passenger_change 1 false (clk 160)] in
  let run := FareRuns.exec_all acts
               (FareCalculator.init GPSManager.init 12 (clk 0)) in
  ∃ rd pl, run.2 = [FareCalculator.fare_updated 1 0.0;
                    FareCalculator.ride_completed 1 rd]
           ∧ FareSyncService.build_payload "DRIVER-7" 1 rd = Some pl
           ∧ FareSyncService.passengerId pl = "2"%string.
Proof.
  intros clk acts run.
  assert (Hrun : ∃ rd, run.2 = [FareCalculator.fare_updated 1 0.0;
                                FareCalculator.ride_completed 1 rd])
    by (eexists; reflexivity).
  destruct Hrun as [rd Hrun]. exists rd.
  destruct (completed_rides_can_be_uploaded acts GPSManager.init 12 (clk 0)
              "DRIVER-7" 1 rd) as (pl & Hpl & _ & Hid & _).
  - fold run. rewrite Hrun. apply list_elem_of_further, list_elem_of_here.
  - exists pl. split; [exact Hrun |]. split; [exact Hpl |].
    rewrite Hid.
    assert (Hp : Ride.passenger_id rd = 2%nat).
    { assert (Hin : FareCalculator.ride_completed 1 rd ∈ run.2)
        by (rewrite Hrun; apply list_elem_of_further, list_elem_of_here).
      destruct (exec_all_completed_record acts _ 1 rd
                  (init_sound GPSManager.init 12 (clk 0)) Hin) as (_ & _ & H).
      exact H. }
    rewrite Hp. reflexivity.
Defined.

(** ** Geo engine: the distance travelled *)

Section GeoTrip.

Import GPSManager GPSRuns.

Lemma on_gpgga_total lat lon g :
  total_distance_traveled g <= total_distance_traveled (on_gpgga lat lon g).
Proof.
  unfold on_gpgga. cbn. destruct (previous_location g) as [p |]; [| lra].
  pose proof (calculate_distance_le_haversine p.1 p.2 lat lon). lra.
Qed.

Lemma northbound_S lat0 lon delta n :
  northbound lat0 lon delta (S n)
  = northbound lat0 lon delta n ++ [(lat0 + INR (S n) * delta, lon)].
Proof. unfold northbound. by rewrite seq_S, map_app. Qed.

Lemma feed_fixes_snoc fixes lat lon g :
  feed_fixes (fixes ++ [(lat, lon)]) g = on_gpgga lat lon (feed_fixes fixes g).
Proof. unfold feed_fixes. by rewrite fold_left_app. Qed.

(** The state after a straight run north: the fix before the last one is
    the "previous" location, and every fix from the second on has added
    the distance to the fix two before it. *)
Lemma northbound_run lat0 lon delta now g n :
  0 < lat0 → lon ≠ 0 → 0 <= delta → 2 * delta <= 180 →
  current_location g = (lat0, lon) →
  let g' := feed_fixes (northbound lat0 lon delta (S n)) (reset_trip now g) in
  previous_location g' = Some (lat0 + INR n * delta, lon)
  ∧ current_location g' = (lat0 + INR (S n) * delta, lon)
  ∧ total_distance_traveled g' = 2 * INR n * (6371 * delta * (PI / 180)).
Proof.
  intros Hlat Hlon Hd Hd2 Hcur. induction n as [| n IH].
  - cbn. rewrite Hcur. split; [| split]; repeat f_equal; lra.
  - cbn zeta in *. rewrite northbound_S, feed_fixes_snoc.
    set (g1 := feed_fixes _ _) in *. destruct IH as (Hp & Hc & Ht).
    unfold on_gpgga. rewrite Hp, Hc, Ht. cbn [fst snd].
    repeat split.
    pose proof (pos_INR n) as Hn.
    assert (Hn1 : 0 <= INR n * delta) by (apply Rmult_le_pos; lra).
    rewrite calculate_distance_nonzero; try done.
    + rewrite haversine_km_meridian; rewrite !S_INR; [cbn; lra | lra].
    + lra.
    + rewrite !S_INR. lra.
Qed.

Lemma path_length_northbound lat0 lon delta n :
  0 <= delta <= 180 →
  path_length ((lat0, lon) :: northbound lat0 lon delta n)
  = INR n * (6371 * delta * (PI / 180)).
Proof.
  intros Hd.
  assert (Hgen : ∀ k,
    path_length ((lat0 + INR k * delta, lon)
                 :: map (λ j, (lat0 + INR j * delta, lon)) (seq (S k) n))
    = INR n * (6371 * delta * (PI / 180))).
  { induction n as [| n IH]; intros k; [cbn; lra |].
    change (seq (S k) (S n)) with (S k :: seq (S (S k)) n).
    cbn [map]. change (path_length (?a :: ?b :: ?l))
      with (haversine_km a b + path_length (b :: l)).
    rewrite IH.
    rewrite haversine_km_meridian; rewrite !S_INR; lra. }
  specialize (Hgen 0%nat). cbn [INR] in Hgen.
  replace (lat0 + 0 * delta) with lat0 in Hgen by lra. exact Hgen.
Qed.

End GeoTrip.

(** X7.  [_serial_loop] adds to the total the distance between the new
    fix and the fix two before it ([previous_location] is set to the
    current location before the current location is updated).  On a run
    due north from the place of the last reset, [n + 1] fixes [delta]
    degrees apart, the path is [(n + 1)] steps long but the total
    distance reported is [2 n] steps: for a long run, twice the path. *)
Theorem total_distance_counts_a_straight_run_twice
    (lat0 lon delta now : R) (g : GPSManager.state) (n : nat) :
  0 < lat0 → lon ≠ 0 → 0 <= delta → 2 * delta <= 180 →
  GPSManager.current_location g = (lat0, lon) →
  let fixes := GPSRuns.northbound lat0 lon delta (S n) in
  let g' := GPSRuns.feed_fixes fixes (GPSManager.reset_trip now g) in
  let step := 6371 * delta * (PI / 180) in
  GPSManager.get_total_distance g' = 2 * INR n * step
  ∧ GPSRuns.path_length ((lat0, lon) :: fixes) = INR (S n) * step.
Proof.
  intros Hlat Hlon Hd Hd2 Hcur fixes g' step. split.
  - by apply northbound_run.
  - apply path_length_northbound. lra.
Qed.

(** Five fixes 0.0002 degrees (22 m) apart north of the Mumbai default:
    a path of five steps, a reported total of eight. *)
Lemma straight_run_witness :
  let fixes := GPSRuns.northbound 19.0760 72.8777 0.0002 5 in
  let g' := GPSRuns.feed_fixes fixes (GPSManager.reset_trip 0 GPSManager.init) in
  GPSManager.get_total_distance g' = 8 * (6371 * 0.0002 * (PI / 180))
  ∧ GPSRuns.path_length ((19.0760, 72.8777) :: fixes)
    = 5 * (6371 * 0.0002 * (PI / 180)).
Proof.
  intros fixes g'.
  destruct (total_distance_counts_a_straight_run_twice 19.0760 72.8777 0.0002
              0 GPSManager.init 4) as [Ht Hp]; try lra; [reflexivity |].
  fold fixes in Ht, Hp. fold g' in Ht. rewrite Ht, Hp.
  cbn [INR]. split; lra.
Defined.

(** ** Geo engine: the serial loop *)

Section SerialLoop.

Import GPSLoops.

Variable float : string → option R.
Variable int : string → option Z.

Lemma serial_loop_line line g :
  let g' := (_serial_loop float int line g).1 in
  get_total_distance g <= get_total_distance g'
  ∧ (gps_fix g = true → gps_fix g' = true).
Proof.
  unfold _serial_loop, get_total_distance, GPSManager.get_total_distance.
  destruct (String.prefix "$GPGGA" line).
  { destruct (_parse_gpgga float int line) as [[[[lat lon] a] s] |]; cbn.
    - split; [apply on_gpgga_total | done].
    - split; [lra | done]. }
  destruct (String.prefix "$GPVTG" line).
  { destruct (_parse_gpvtg float line); cbn; (split; [lra | done]). }
  destruct (String.prefix "$GPGSA" line).
  { destruct (_parse_gpgsa line); cbn; (split; [lra | done]). }
  cbn. split; [lra | done].
Qed.

Lemma receive_lines lines : ∀ g,
  get_total_distance g <= get_total_distance (receive float int lines g)
  ∧ (gps_fix g = true → gps_fix (receive float int lines g) = true).
Proof.
  induction lines as [| line lines IH]; intros g; cbn.
  - split; [lra | done].
  - destruct (serial_loop_line line g) as [H1 H2].
    destruct (IH (_serial_loop float int line g).1) as [H3 H4].
    split; [unfold receive in *; lra | auto].
Qed.

End SerialLoop.


(** X9.  Once [gps_fix] is set, no line clears it: a [$GPGSA] sentence
    whose fix type is not 2 or 3 (fix lost) leaves it [True], and so does
    every other line. *)
Theorem gps_fix_is_never_retracted
    (float : string → option R) (int : string → option Z)
    (lines : list string) (g : GPSLoops.state) :
  GPSLoops.gps_fix g = true →
  GPSLoops.gps_fix (GPSLoops.receive float int lines g) = true.
Proof. apply receive_lines. Qed.

(** A receiver with a fix is told "no fix" (type 1) by the satellite
    status sentence and still reports a fix. *)
Lemma gps_fix_witness :
  let float := λ _ : string, @None R in
  let int := λ _ : string, @None Z in
  let g := GPSLoops.reset_trip 0
             (GPSLoops.receive float int ["$GPGSA,A,3,04,05,,09,12,,,24,,,,,2.5,1.3,2.1*39"%string]
                (GPSLoops.init 0)) in
  let lost := "$GPGSA,A,1,,,,,,,,,,,,,,,*1E"%string in
  GPSLoops._parse_gpgsa lost = false
  ∧ GPSLoops.gps_fix (GPSLoops.receive float int [lost] g) = true.
Proof.
  intros float int g lost. split; [reflexivity |].
  apply (gps_fix_is_never_retracted float int [lost] g). reflexivity.
Defined.

(** ** Geo engine: the simulated receiver *)

Section Simulation.

Import GPSLoops.







End Simulation.

Section FastTick.

Import FareCalculator.


End FastTick.





(** ** The display *)

Section Display.

Import RickyUI.

(** [update_mode] starts a private trip when the mode is Private and
    asks nothing else of the fare engine: its [elif] reads
    [self.current_mode] after the assignment that opens the method. *)
Lemma update_mode_calls mode u :
  (update_mode mode u).2
  = if String.eqb mode "Private" then [Start_private_mode] else [].
Proof.
  unfold update_mode.
  destruct (String.eqb mode "Private") eqn:Hp.
  - apply String.eqb_eq in Hp as ->. reflexivity.
  - destruct (GPIOManager.getitem mode_mapping mode); [| done].
    cbn. by rewrite Hp.
Qed.

Lemma update_mode_display mode u :
  let u' := (update_mode mode u).1 in
  current_mode u' = mode
  ∧ private_total_fare u' = private_total_fare u
  ∧ passenger_cards u' = passenger_cards u
  ∧ sos_widget u' = sos_widget u
  ∧ ∀ index, GPIOManager.getitem mode_mapping mode = Some index →
             mode_stack u' = index.
Proof.
  unfold update_mode.
  destruct (GPIOManager.getitem mode_mapping mode) as [index |].
  - destruct (String.eqb mode "Private"); [| destruct (_ && _)]; cbn;
      repeat split; try done; by intros ? [= <-].
  - by cbn.
Qed.

Lemma update_fares_display i fare u :
  let u' := update_fares i fare u in
  current_mode u' = current_mode u ∧ mode_stack u' = mode_stack u
  ∧ sos_widget u' = sos_widget u.
Proof.
  unfold update_fares.
  destruct (String.eqb (current_mode u) "Sharing").
  - by destruct (passenger_cards u !! i).
  - by destruct (String.eqb (current_mode u) "Private").
Qed.

Lemma update_passenger_display i b u :
  let u' := update_passenger i b u in
  current_mode u' = current_mode u ∧ mode_stack u' = mode_stack u
  ∧ private_total_fare u' = private_total_fare u
  ∧ sos_widget u' = sos_widget u.
Proof.
  unfold update_passenger.
  destruct (String.eqb (current_mode u) "Sharing"); [| done].
  by destruct (passenger_cards u !! i).
Qed.

End Display.

(** ** The meter as wired *)

Section Wiring.

Import System.

Lemma on_fare_signals_cons s sigs u :
  on_fare_signals (s :: sigs) u = on_fare_signals sigs (on_fare_signal s u).
Proof. reflexivity. Qed.

Lemma on_fare_signals_display sigs : ∀ u,
  RickyUI.current_mode (on_fare_signals sigs u) = RickyUI.current_mode u
  ∧ RickyUI.mode_stack (on_fare_signals sigs u) = RickyUI.mode_stack u
  ∧ RickyUI.sos_widget (on_fare_signals sigs u) = RickyUI.sos_widget u.
Proof.
  induction sigs as [| s sigs IH]; intros u; [done |].
  rewrite on_fare_signals_cons.
  destruct (IH (on_fare_signal s u)) as (-> & -> & ->).
  destruct s; cbn [on_fare_signal]; try done.
  apply update_fares_display.
Qed.

(** Signals other than [fare_updated] leave the display alone. *)
Lemma on_fare_signals_silent sigs u :
  Forall (λ s, match s with
               | FareCalculator.fare_updated _ _ => False
               | _ => True
               end) sigs →
  on_fare_signals sigs u = u.
Proof.
  revert u. induction sigs as [| s sigs IH]; intros u Hs; [done |].
  apply Forall_cons in Hs as [H1 Hs]. rewrite on_fare_signals_cons.
  destruct s; cbn [on_fare_signal]; try done; by apply IH.
Qed.

(** The slot of [mode_changed]. *)
Lemma on_mode_changed_spec clk mode r :
  let r' := on_mode_changed clk (ModeController.mode_changed mode) r in
  r'.1 = (if String.eqb mode "Private"
          then (FareCalculator.start_private_mode clk r.1).1.1 else r.1)
  ∧ RickyUI.current_mode r'.2 = mode
  ∧ RickyUI.private_total_fare r'.2 = RickyUI.private_total_fare r.2
  ∧ RickyUI.passenger_cards r'.2 = RickyUI.passenger_cards r.2
  ∧ RickyUI.sos_widget r'.2 = RickyUI.sos_widget r.2
  ∧ ∀ index, GPIOManager.getitem RickyUI.mode_mapping mode = Some index →
             RickyUI.mode_stack r'.2 = index.
Proof.
  unfold on_mode_changed.
  pose proof (update_mode_calls mode r.2) as Hc.
  pose proof (update_mode_display mode r.2) as Hd.
  destruct (RickyUI.update_mode mode r.2) as [u calls].
  cbn [fst snd] in Hc, Hd. subst calls.
  destruct (String.eqb mode "Private"); cbn; (split; [reflexivity | exact Hd]).
Qed.

Lemma on_mode_signals_nil clk r : on_mode_signals clk [] r = r.
Proof. reflexivity. Qed.

Lemma on_gpio_signals_app clk s1 s2 sys :
  on_gpio_signals clk (s1 ++ s2) sys
  = on_gpio_signals clk s2 (on_gpio_signals clk s1 sys).
Proof. unfold on_gpio_signals. apply fold_left_app. Qed.

Lemma run_app e1 e2 sys : run (e1 ++ e2) sys = run e2 (run e1 sys).
Proof. unfold run. apply fold_left_app. Qed.

(** The sampler settles on one of the four positions. *)
Lemma monitor_mode_switch_cases input g :
  (GPIOManager._monitor_mode_switch input g = (g, []))
  ∨ ∃ m, position m ∧ m ≠ GPIOManager.current_mode g
         ∧ GPIOManager._monitor_mode_switch input g
           = (GPIOManager.set_current_mode m g,
              [GPIOManager.mode_switch_changed m]).
Proof.
  unfold GPIOManager._monitor_mode_switch, GPIOManager.selected_mode.
  assert (Hm : ∃ m, position m
                    ∧ GPIOManager.scan_modes input GPIOManager.MODES
                      = Some (Some m)
                 ∨ GPIOManager.scan_modes input GPIOManager.MODES = Some None).
  { cbn. unfold position.
    destruct (input 7%nat); [eauto 10 |].
    destruct (input 8%nat); [eauto 10 |].
    destruct (input 18%nat); [eauto 10 |].
    destruct (input 23%nat); [eauto 10 |].
    exists "For Hire"%string. by right. }
  assert (Hsel : ∃ m, position m
                      ∧ match GPIOManager.scan_modes input GPIOManager.MODES with
                        | Some (Some m) => Some m
                        | Some None => Some "For Hire"%string
                        | None => None
                        end = Some m).
  { destruct Hm as (m & [[Hp ->] | ->]); [by exists m |].
    exists "For Hire"%string. split; [| done]. unfold position. auto. }
  destruct Hsel as (m & Hp & ->).
  destruct (String.eqb m (GPIOManager.current_mode g)) eqn:He; [by left |].
  right. exists m. apply String.eqb_neq in He. done.
Qed.

Lemma handle_mode_change_position mode m :
  position mode →
  ModeController.handle_mode_change mode m
  = if String.eqb mode (ModeController.current_mode m) then (m, [])
    else ({| ModeController.current_mode := mode;
             ModeController.is_active := ModeController.is_active m |},
          [ModeController.mode_changed mode]).
Proof.
  unfold ModeController.handle_mode_change.
  intros [-> | [-> | [-> | ->]]];
    by destruct (String.eqb _ (ModeController.current_mode m)).
Qed.

Lemma position_page mode :
  position mode → is_Some (GPIOManager.getitem RickyUI.mode_mapping mode).
Proof. intros [-> | [-> | [-> | ->]]]; by eexists. Qed.

End Wiring.

(** ** The meter as wired: what holds at every step *)

Section Steps.

Import System.

Lemma handle_passenger_change_private i b clk st :
  let st' := (FareCalculator.handle_passenger_change i b clk st).1.1 in
  FareCalculator.private_mode_active st' = FareCalculator.private_mode_active st
  ∧ FareCalculator.private_fare st' = FareCalculator.private_fare st.
Proof.
  unfold FareCalculator.handle_passenger_change.
  destruct (decide _); [done |].
  destruct (FareCalculator.passengers st !! i) as [p |]; [| done].
  destruct (b && negb (FareCalculator.onboard p)); [done |].
  destruct (negb b && FareCalculator.onboard p); [| done].
  by destruct (FareCalculator.start_time p).
Qed.

(** The sampler's passenger pass emits passenger events only and leaves
    the mode alone. *)
Lemma monitor_slots_signals input slots : ∀ g,
  let r := GPIOPassengers.monitor_slots input slots g in
  Forall (λ s, ∃ i b, s = GPIOManager.passenger_changed i b) r.2
  ∧ GPIOManager.current_mode r.1 = GPIOManager.current_mode g.
Proof.
  induction slots as [| i rest IH]; intros g; cbn [GPIOPassengers.monitor_slots].
  - by split.
  - destruct (GPIOManager.getitem _ _) as [pin |]; [| by split].
    destruct (GPIOManager.passenger_states g !! i) as [previous |];
      [| by split].
    set (cur := match input pin with
                | GPIOManager.LOW => true | GPIOManager.HIGH => false end).
    destruct (Bool.eqb cur previous).
    + specialize (IH g).
      destruct (GPIOPassengers.monitor_slots input rest g) as [g2 e2].
      exact IH.
    + specialize (IH (GPIOPassengers.set_passenger_states
                        (<[i := cur]> (GPIOManager.passenger_states g)) g)).
      destruct (GPIOPassengers.monitor_slots input rest _) as [g2 e2].
      cbn in *. destruct IH as [IH1 IH2]. split; [| done].
      constructor; [by eexists _, _ | done].
Qed.

(** The slots of a passenger event. *)
Lemma on_passenger_changed clk i b sys :
  let sys' := on_gpio_signal clk (GPIOManager.passenger_changed i b) sys in
  gpio sys' = gpio sys
  ∧ mode_controller sys' = mode_controller sys
  ∧ fare_calculator sys'
    = (FareCalculator.handle_passenger_change i b clk (fare_calculator sys)).1.1
  ∧ RickyUI.current_mode (ui sys') = RickyUI.current_mode (ui sys)
  ∧ RickyUI.mode_stack (ui sys') = RickyUI.mode_stack (ui sys)
  ∧ RickyUI.sos_widget (ui sys') = RickyUI.sos_widget (ui sys).
Proof.
  cbn.
  destruct (on_fare_signals_display
              (FareCalculator.handle_passenger_change i b clk
                 (fare_calculator sys)).1.2
              (RickyUI.update_passenger i b (ui sys))) as (-> & -> & ->).
  destruct (update_passenger_display i b (ui sys)) as (-> & -> & _ & ->).
  done.
Qed.

Lemma on_gpio_signals_cons clk s sigs sys :
  on_gpio_signals clk (s :: sigs) sys
  = on_gpio_signals clk sigs (on_gpio_signal clk s sys).
Proof. reflexivity. Qed.

Lemma on_passenger_signals clk sigs : ∀ sys,
  Forall (λ s, ∃ i b, s = GPIOManager.passenger_changed i b) sigs →
  let sys' := on_gpio_signals clk sigs sys in
  gpio sys' = gpio sys
  ∧ mode_controller sys' = mode_controller sys
  ∧ (FareCalculator.private_mode_active (fare_calculator sys') =
     FareCalculator.private_mode_active (fare_calculator sys))
  ∧ RickyUI.current_mode (ui sys') = RickyUI.current_mode (ui sys)
  ∧ RickyUI.mode_stack (ui sys') = RickyUI.mode_stack (ui sys).
Proof.
  induction sigs as [| s sigs IH]; intros sys Hs; [done |].
  apply Forall_cons in Hs as [(i & b & ->) Hs].
  rewrite on_gpio_signals_cons. cbn zeta.
  destruct (IH (on_gpio_signal clk (GPIOManager.passenger_changed i b) sys) Hs)
    as (-> & -> & -> & -> & ->).
  destruct (on_passenger_changed clk i b sys) as (-> & -> & -> & -> & -> & _).
  by destruct (handle_passenger_change_private i b clk (fare_calculator sys))
    as [-> _].
Qed.

(** *** The private trip is never stopped *)

Lemma on_mode_signals_private clk sigs : ∀ r,
  FareCalculator.private_mode_active r.1 = true →
  FareCalculator.private_mode_active (on_mode_signals clk sigs r).1 = true.
Proof.
  induction sigs as [| [mode] sigs IH]; intros r Hr; [done |].
  apply IH.
  destruct (on_mode_changed_spec clk mode r) as (-> & _).
  by destruct (String.eqb mode "Private").
Qed.

Lemma step_private e sys :
  FareCalculator.private_mode_active (fare_calculator sys) = true →
  FareCalculator.private_mode_active (fare_calculator (step e sys)) = true.
Proof.
  intros Ha. destruct e as [input clk | input clk | clk | g]; cbn [step].
  - destruct (monitor_mode_switch_cases input (gpio sys))
      as [-> | (m & Hp & Hne & ->)]; [done |].
    cbn [on_gpio_signals fold_left on_gpio_signal set_gpio mode_controller
         fare_calculator ui].
    destruct (ModeController.is_active (mode_controller sys)); [| done].
    destruct (ModeController.handle_mode_change m (mode_controller sys))
      as [m' sigs].
    cbn. by apply on_mode_signals_private.
  - destruct (monitor_slots_signals input (seq 0 3) (gpio sys)) as [Hs _].
    unfold GPIOPassengers._monitor_passengers.
    destruct (GPIOPassengers.monitor_slots input (seq 0 3) (gpio sys))
      as [g sigs].
    cbn [snd] in Hs.
    destruct (on_passenger_signals clk sigs (set_gpio g sys) Hs)
      as (_ & _ & -> & _).
    done.
  - destruct (calculation_loop_private_frame clk (fare_calculator sys))
      as (_ & Hb & _).
    destruct (FareCalculator._calculation_loop clk (fare_calculator sys))
      as [f sigs].
    cbn in *. by rewrite Hb.
  - done.
Qed.

Lemma run_private events : ∀ sys,
  FareCalculator.private_mode_active (fare_calculator sys) = true →
  FareCalculator.private_mode_active (fare_calculator (run events sys)) = true.
Proof.
  induction events as [| e events IH]; intros sys Ha; [done |].
  apply IH. by apply step_private.
Qed.

(** *** Sampler, controller and display agree on the mode *)

Lemma step_mode e sys :
  position (GPIOManager.current_mode (gpio sys)) →
  position (GPIOManager.current_mode (gpio (step e sys)))
  ∧ ModeController.is_active (mode_controller (step e sys))
    = ModeController.is_active (mode_controller sys)
  ∧ (ModeController.is_active (mode_controller sys) = true →
     mode_synced sys → mode_synced (step e sys))
  ∧ (ModeController.is_active (mode_controller sys) = false →
     mode_controller (step e sys) = mode_controller sys
     ∧ RickyUI.current_mode (ui (step e sys)) = RickyUI.current_mode (ui sys)
     ∧ RickyUI.mode_stack (ui (step e sys)) = RickyUI.mode_stack (ui sys)).
Proof.
  intros Hpos. destruct e as [input clk | input clk | clk | g]; cbn [step].
  - destruct (monitor_mode_switch_cases input (gpio sys))
      as [-> | (m & Hp & Hne & ->)].
    { by destruct sys. }
    cbn [on_gpio_signals fold_left on_gpio_signal set_gpio mode_controller
         fare_calculator ui gpio].
    destruct (ModeController.is_active (mode_controller sys)) eqn:Hact.
    2: { cbn. by rewrite Hact. }
    rewrite (handle_mode_change_position m _ Hp).
    destruct (String.eqb m (ModeController.current_mode (mode_controller sys)))
      eqn:He.
    + (* the controller would already hold [m]: not when in step *)
      apply String.eqb_eq in He. cbn. rewrite Hact.
      split; [done |]. split; [done |]. split; [| done].
      intros _ (H1 & _). congruence.
    + cbn [on_mode_signals fold_left].
      pose proof (on_mode_changed_spec clk m (fare_calculator sys, ui sys))
        as Hspec.
      cbn zeta in Hspec. set (r' := on_mode_changed clk _ _) in *.
      clearbody r'. destruct Hspec as (_ & Hu & _ & _ & _ & Hpage).
      destruct (position_page m Hp) as [index Hi].
      cbn. rewrite Hact.
      split; [done |]. split; [done |]. split; [| done].
      intros _ _. unfold mode_synced. cbn.
      split; [done |]. split; [exact Hu |].
      by rewrite (Hpage index Hi).
  - destruct (monitor_slots_signals input (seq 0 3) (gpio sys)) as [Hs Hm].
    unfold GPIOPassengers._monitor_passengers.
    destruct (GPIOPassengers.monitor_slots input (seq 0 3) (gpio sys))
      as [g sigs].
    cbn [fst snd] in Hs, Hm.
    destruct (on_passenger_signals clk sigs (set_gpio g sys) Hs)
      as (Hg & Hc & _ & Hu1 & Hu2).
    cbn zeta in *. cbn [set_gpio gpio mode_controller ui] in *.
    unfold mode_synced. rewrite Hg, Hc, Hu1, Hu2, Hm.
    split; [done |]. split; [done |]. split; [tauto | done].
  - destruct (FareCalculator._calculation_loop clk (fare_calculator sys))
      as [f sigs].
    destruct (on_fare_signals_display sigs (ui sys)) as (Hu1 & Hu2 & _).
    unfold mode_synced. cbn. rewrite Hu1, Hu2.
    split; [done |]. split; [done |]. split; [tauto | done].
  - unfold mode_synced. cbn.
    split; [done |]. split; [done |]. split; [tauto | done].
Qed.

Lemma run_mode events : ∀ sys,
  position (GPIOManager.current_mode (gpio sys)) →
  position (GPIOManager.current_mode (gpio (run events sys)))
  ∧ ModeController.is_active (mode_controller (run events sys))
    = ModeController.is_active (mode_controller sys)
  ∧ (ModeController.is_active (mode_controller sys) = true →
     mode_synced sys → mode_synced (run events sys))
  ∧ (ModeController.is_active (mode_controller sys) = false →
     mode_controller (run events sys) = mode_controller sys
     ∧ RickyUI.current_mode (ui (run events sys)) = RickyUI.current_mode (ui sys)
     ∧ RickyUI.mode_stack (ui (run events sys)) = RickyUI.mode_stack (ui sys)).
Proof.
  induction events as [| e events IH]; intros sys Hpos; [done |].
  destruct (step_mode e sys Hpos) as (H1 & H2 & H3 & H4).
  destruct (IH (step e sys) H1) as (I1 & I2 & I3 & I4).
  change (run (e :: events) sys) with (run events (step e sys)).
  split; [done |]. split; [congruence |]. split.
  - intros Ha Hs. apply I3; [congruence | auto].
  - intros Ha. destruct (H4 Ha) as (J1 & J2 & J3).
    destruct I4 as (K1 & K2 & K3); [congruence |].
    repeat split; congruence.
Qed.

(** [mode_controller.start()] brings controller and display in step
    with the sampler. *)
Lemma start_mode_controller_synced clk sys :
  position (GPIOManager.current_mode (gpio sys)) →
  mode_controller sys = ModeController.init →
  RickyUI.current_mode (ui sys) = "For Hire"%string →
  RickyUI.mode_stack (ui sys) = 2%nat →
  let sys' := start_mode_controller clk sys in
  gpio sys' = gpio sys
  ∧ ModeController.is_active (mode_controller sys') = true
  ∧ mode_synced sys'.
Proof.
  intros Hpos Hm Hu Hp. unfold start_mode_controller, ModeController.start.
  rewrite Hm. cbn [ModeController.current_mode ModeController.init].
  unfold GPIOPassengers.get_current_mode.
  destruct (String.eqb (GPIOManager.current_mode (gpio sys)) "For Hire")
    eqn:He; cbn [negb].
  - apply String.eqb_eq in He. unfold mode_synced. cbn.
    rewrite He, Hu, Hp. done.
  - rewrite (handle_mode_change_position _ _ Hpos). cbn. rewrite He.
    cbn [on_mode_signals fold_left].
    pose proof (on_mode_changed_spec clk (GPIOManager.current_mode (gpio sys))
                  (fare_calculator sys, ui sys)) as Hspec.
    cbn zeta in Hspec. set (r' := on_mode_changed clk _ _) in *.
    clearbody r'. destruct Hspec as (_ & Hu' & _ & _ & _ & Hpage).
    destruct (position_page _ Hpos) as [index Hi].
    unfold mode_synced. cbn. rewrite Hu', (Hpage index Hi). done.
Qed.

End Steps.

(** ** The meter as wired: passengers *)

Section Aboard.

Import System.

Lemma handle_passenger_change_onboard i b clk st p :
  FareCalculator.passengers st !! i = Some p →
  FareCalculator.onboard p = negb b →
  FareCalculator.onboard
    <$> FareCalculator.passengers
          (FareCalculator.handle_passenger_change i b clk st).1.1
  = <[i := b]> (FareCalculator.onboard <$> FareCalculator.passengers st).
Proof.
  intros Hp Ho. unfold FareCalculator.handle_passenger_change.
  destruct (decide _) as [Hle | _]; [by apply lookup_in_range in Hp |].
  rewrite Hp, Ho. destruct b; cbn [negb andb].
  - cbn. by rewrite list_fmap_insert.
  - destruct (FareCalculator.start_time p); cbn; by rewrite list_fmap_insert.
Qed.

Lemma update_passenger_fare_onboard self pid p c speed dt :
  FareCalculator.onboard
    (FareCalculator._update_passenger_fare self pid p c speed dt).1
  = FareCalculator.onboard p.
Proof.
  destruct (FareCalculator.last_location p) as [l |] eqn:Hl.
  - by destruct (update_passenger_fare_tick self pid p l c speed dt Hl)
      as (_ & _ & _ & _ & -> & _).
  - unfold FareCalculator._update_passenger_fare. by rewrite Hl.
Qed.

(** A pass of the calculation loop boards and alights nobody. *)
Lemma calculation_loop_onboard clk st :
  FareCalculator.onboard
    <$> FareCalculator.passengers (FareCalculator._calculation_loop clk st).1
  = FareCalculator.onboard <$> FareCalculator.passengers st.
Proof.
  destruct (Rlt_dec (time_time clk - FareCalculator.last_gps_update st) 1)
    as [Hidle | Hdt].
  { by rewrite (calculation_loop_idle clk st Hidle). }
  apply Rnot_lt_le in Hdt.
  destruct (calculation_loop_pass clk st Hdt) as [_ Hslots].
  apply list_eq. intros i. rewrite !list_lookup_fmap, (Hslots i).
  destruct (FareCalculator.passengers st !! i) as [p |]; [| done].
  cbn. f_equal. destruct (FareCalculator.onboard p) eqn:Ho; [| done].
  by rewrite update_passenger_fare_onboard.
Qed.

Lemma on_mode_signals_passengers clk sigs : ∀ r,
  FareCalculator.passengers (on_mode_signals clk sigs r).1
  = FareCalculator.passengers r.1
  ∧ RickyUI.private_total_fare (on_mode_signals clk sigs r).2
    = RickyUI.private_total_fare r.2.
Proof.
  induction sigs as [| [mode] sigs IH]; intros r; [done |].
  change (on_mode_signals clk (ModeController.mode_changed mode :: sigs) r)
    with (on_mode_signals clk sigs
            (on_mode_changed clk (ModeController.mode_changed mode) r)).
  destruct (IH (on_mode_changed clk (ModeController.mode_changed mode) r))
    as [-> ->].
  destruct (on_mode_changed_spec clk mode r) as (-> & _ & -> & _).
  by destruct (String.eqb mode "Private").
Qed.

(** The passenger pass and the slots of its signals: the engine boards
    and alights exactly the slots whose switch has changed. *)
Lemma monitor_slots_synced input clk slots : ∀ g sys,
  FareCalculator.onboard
    <$> FareCalculator.passengers (fare_calculator sys)
  = GPIOManager.passenger_states g →
  let r := GPIOPassengers.monitor_slots input slots g in
  FareCalculator.onboard
    <$> FareCalculator.passengers
          (fare_calculator (on_gpio_signals clk r.2 sys))
  = GPIOManager.passenger_states r.1.
Proof.
  induction slots as [| i rest IH]; intros g sys Hs;
    cbn [GPIOPassengers.monitor_slots].
  - done.
  - destruct (GPIOManager.getitem _ _) as [pin |]; [| done].
    destruct (GPIOManager.passenger_states g !! i) as [previous |] eqn:Hprev;
      [| done].
    set (cur := match input pin with
                | GPIOManager.LOW => true | GPIOManager.HIGH => false end).
    destruct (Bool.eqb cur previous) eqn:He.
    + specialize (IH g sys Hs).
      destruct (GPIOPassengers.monitor_slots input rest g) as [g2 e2].
      exact IH.
    + assert (Hp : ∃ p, FareCalculator.passengers (fare_calculator sys) !! i
                        = Some p ∧ FareCalculator.onboard p = negb cur).
      { rewrite <- Hs, list_lookup_fmap in Hprev.
        destruct (FareCalculator.passengers (fare_calculator sys) !! i)
          as [p |]; [| done].
        exists p. split; [done |]. cbn in Hprev. injection Hprev as ->.
        clearbody cur. by destruct cur, previous. }
      destruct Hp as (p & Hp & Ho).
      set (g1 := GPIOPassengers.set_passenger_states
                   (<[i := cur]> (GPIOManager.passenger_states g)) g).
      set (sys1 := on_gpio_signal clk (GPIOManager.passenger_changed i cur) sys).
      assert (Hs1 : FareCalculator.onboard
                      <$> FareCalculator.passengers (fare_calculator sys1)
                    = GPIOManager.passenger_states g1).
      { destruct (on_passenger_changed clk i cur sys) as (_ & _ & Hf & _).
        fold sys1 in Hf. rewrite Hf.
        rewrite (handle_passenger_change_onboard i cur clk _ p Hp Ho).
        by rewrite Hs. }
      specialize (IH g1 sys1 Hs1).
      destruct (GPIOPassengers.monitor_slots input rest g1) as [g2 e2].
      exact IH.
Qed.

(** The slots never look at the sampler. *)
Lemma on_gpio_signals_set_gpio clk g sigs : ∀ sys,
  on_gpio_signals clk sigs (set_gpio g sys)
  = set_gpio g (on_gpio_signals clk sigs sys).
Proof.
  induction sigs as [| s sigs IH]; intros sys; [done |].
  rewrite !on_gpio_signals_cons, <- IH. f_equal.
  destruct s; try done.
  cbn [on_gpio_signal set_gpio mode_controller fare_calculator ui gpio].
  destruct (ModeController.is_active (mode_controller sys)); [| done].
  by destruct (ModeController.handle_mode_change mode (mode_controller sys)).
Qed.

Lemma step_passengers e sys :
  passengers_synced sys → passengers_synced (step e sys).
Proof.
  unfold passengers_synced. intros Hs.
  destruct e as [input clk | input clk | clk | g]; cbn [step].
  - destruct (monitor_mode_switch_cases input (gpio sys))
      as [-> | (m & Hp & Hne & ->)]; [done |].
    cbn [on_gpio_signals fold_left on_gpio_signal set_gpio mode_controller
         fare_calculator ui gpio].
    destruct (ModeController.is_active (mode_controller sys)); [| done].
    destruct (ModeController.handle_mode_change m (mode_controller sys))
      as [m' sigs].
    cbn [fare_calculator gpio].
    destruct (on_mode_signals_passengers clk sigs (fare_calculator sys, ui sys))
      as [-> _].
    done.
  - pose proof (monitor_slots_synced input clk (seq 0 3) (gpio sys) sys Hs)
      as H.
    unfold GPIOPassengers._monitor_passengers.
    pose proof (monitor_slots_signals input (seq 0 3) (gpio sys)) as [Hsig _].
    destruct (GPIOPassengers.monitor_slots input (seq 0 3) (gpio sys))
      as [g sigs].
    cbn [fst snd] in *.
    destruct (on_passenger_signals clk sigs (set_gpio g sys) Hsig)
      as (-> & _).
    cbn [set_gpio gpio]. by rewrite <- H, on_gpio_signals_set_gpio.
  - pose proof (calculation_loop_onboard clk (fare_calculator sys)) as H.
    destruct (FareCalculator._calculation_loop clk (fare_calculator sys))
      as [f sigs].
    cbn in *. by rewrite H.
  - done.
Qed.

End Aboard.

(** ** The meter as wired: the private page *)

Section PrivatePage.

Import System.

Lemma update_onboard_offboard self c speed dt ps : ∀ k,
  Forall (λ p, FareCalculator.onboard p = false) ps →
  FareCalculator.update_onboard self k ps c speed dt = (ps, []).
Proof.
  induction ps as [| p ps IH]; intros k Hs; [done |].
  apply Forall_cons in Hs as [Hp Hs].
  cbn [FareCalculator.update_onboard]. by rewrite Hp, (IH (S k) Hs).
Qed.

Lemma update_private_fare_silent clk c speed dt st :
  Forall (λ s, match s with
               | FareCalculator.fare_updated _ _ => False
               | _ => True
               end) (FareCalculator._update_private_fare clk c speed dt st).2.
Proof.
  unfold FareCalculator._update_private_fare.
  destruct (FareCalculator.private_last_location st); [| constructor].
  cbn zeta.
  destruct (Rlt_dec 0.005 _), (Rlt_dec speed _); cbn;
    destruct (FareCalculator.private_start_time st); cbn;
    repeat constructor.
Qed.

(** With nobody aboard a pass of the calculation loop emits no
    [fare_updated]. *)
Lemma calculation_loop_offboard clk st :
  Forall (λ p, FareCalculator.onboard p = false) (FareCalculator.passengers st) →
  FareCalculator.passengers (FareCalculator._calculation_loop clk st).1
  = FareCalculator.passengers st
  ∧ Forall (λ s, match s with
                 | FareCalculator.fare_updated _ _ => False
                 | _ => True
                 end) (FareCalculator._calculation_loop clk st).2.
Proof.
  intros Hoff. unfold FareCalculator._calculation_loop.
  destruct (Rle_dec 1.0 _); [| by split].
  rewrite update_onboard_offboard by done.
  set (c := GPSManager.get_location _). set (speed := GPSManager.get_speed _).
  set (dt := time_time clk - _).
  set (s1 := FareCalculator.set_passengers (FareCalculator.passengers st) st).
  pose proof (update_private_fare_frame clk c speed dt s1) as (Hps & _).
  pose proof (update_private_fare_silent clk c speed dt s1) as Hsil.
  destruct (FareCalculator.private_mode_active s1).
  - destruct (FareCalculator._update_private_fare clk c speed dt s1)
      as [s2 e2].
    cbn in *. by rewrite Hps.
  - cbn. by split.
Qed.

(** With every passenger switch open and nobody on record, the passenger
    pass changes nothing and emits nothing. *)
Lemma monitor_slots_idle input slots g :
  Forall (λ b, b = false) (GPIOManager.passenger_states g) →
  Forall (λ i, ∀ pin,
            GPIOManager.getitem GPIOManager.PINS
              ("passenger_" ++ PyNum.str_int (Z.of_nat (i + 1))) = Some pin →
            input pin = GPIOManager.HIGH) slots →
  GPIOPassengers.monitor_slots input slots g = (g, []).
Proof.
  intros Hoff. induction slots as [| i rest IH]; intros Hin; [done |].
  apply Forall_cons in Hin as [Hi Hin].
  cbn [GPIOPassengers.monitor_slots].
  destruct (GPIOManager.getitem _ _) as [pin |]; [| done].
  rewrite (Hi pin eq_refl).
  destruct (GPIOManager.passenger_states g !! i) as [previous |] eqn:Hp;
    [| done].
  rewrite (proj1 (Forall_lookup _ _) Hoff i previous Hp). cbn [Bool.eqb].
  by rewrite (IH Hin).
Qed.

Lemma monitor_passengers_idle input g :
  Forall (λ b, b = false) (GPIOManager.passenger_states g) →
  input (GPIOManager.pin "passenger_1") = GPIOManager.HIGH →
  input (GPIOManager.pin "passenger_2") = GPIOManager.HIGH →
  input (GPIOManager.pin "passenger_3") = GPIOManager.HIGH →
  GPIOPassengers._monitor_passengers input g = (g, []).
Proof.
  intros Hoff H1 H2 H3. unfold GPIOPassengers._monitor_passengers.
  apply monitor_slots_idle; [done |].
  repeat constructor; intros pin [= <-]; assumption.
Qed.

(** Nobody aboard, nothing on the private page. *)
Lemma step_private_page e sys :
  nobody_aboard e → passengers_synced sys →
  Forall (λ p, FareCalculator.onboard p = false)
         (FareCalculator.passengers (fare_calculator sys)) →
  RickyUI.private_total_fare (ui sys) = 0.0 →
  Forall (λ p, FareCalculator.onboard p = false)
         (FareCalculator.passengers (fare_calculator (step e sys)))
  ∧ RickyUI.private_total_fare (ui (step e sys)) = 0.0.
Proof.
  intros He Hs Hoff Hfare.
  destruct e as [input clk | input clk | clk | g]; cbn [step].
  - destruct (monitor_mode_switch_cases input (gpio sys))
      as [-> | (m & Hp & Hne & ->)]; [done |].
    cbn [on_gpio_signals fold_left on_gpio_signal set_gpio mode_controller
         fare_calculator ui gpio].
    destruct (ModeController.is_active (mode_controller sys)); [| done].
    destruct (ModeController.handle_mode_change m (mode_controller sys))
      as [m' sigs].
    cbn [fare_calculator ui].
    by destruct (on_mode_signals_passengers clk sigs
                   (fare_calculator sys, ui sys)) as [-> ->].
  - destruct He as (H1 & H2 & H3).
    rewrite monitor_passengers_idle; try done.
    unfold passengers_synced in Hs. rewrite <- Hs.
    apply Forall_fmap. by eapply Forall_impl.
  - destruct (calculation_loop_offboard clk (fare_calculator sys) Hoff)
      as [Hps Hsil].
    destruct (FareCalculator._calculation_loop clk (fare_calculator sys))
      as [f sigs].
    cbn in *. rewrite Hps, on_fare_signals_silent by done. done.
  - done.
Qed.

Lemma run_private_page events : ∀ sys,
  Forall nobody_aboard events → passengers_synced sys →
  Forall (λ p, FareCalculator.onboard p = false)
         (FareCalculator.passengers (fare_calculator sys)) →
  RickyUI.private_total_fare (ui sys) = 0.0 →
  passengers_synced (run events sys)
  ∧ Forall (λ p, FareCalculator.onboard p = false)
           (FareCalculator.passengers (fare_calculator (run events sys)))
  ∧ RickyUI.private_total_fare (ui (run events sys)) = 0.0.
Proof.
  induction events as [| e events IH]; intros sys He Hs Hoff Hfare; [done |].
  apply Forall_cons in He as [He Hes].
  destruct (step_private_page e sys He Hs Hoff Hfare) as [H1 H2].
  apply (IH (step e sys)); try done. by apply step_passengers.
Qed.

Lemma run_passengers events : ∀ sys,
  passengers_synced sys → passengers_synced (run events sys).
Proof.
  induction events as [| e events IH]; intros sys Hs; [done |].
  apply (IH (step e sys)). by apply step_passengers.
Qed.

(** [mode_controller.start()] touches neither the slots nor the fare of
    the private page. *)
Lemma start_mode_controller_frame clk sys :
  let sys' := start_mode_controller clk sys in
  gpio sys' = gpio sys
  ∧ FareCalculator.passengers (fare_calculator sys')
    = FareCalculator.passengers (fare_calculator sys)
  ∧ RickyUI.private_total_fare (ui sys') = RickyUI.private_total_fare (ui sys).
Proof.
  unfold start_mode_controller.
  destruct (ModeController.start _ _) as [m sigs]. cbn.
  by destruct (on_mode_signals_passengers clk sigs
                 (fare_calculator sys, ui sys)) as [-> ->].
Qed.

Lemma step_calculation clk sys :
  fare_calculator (step (Calculation clk) sys)
  = (FareCalculator._calculation_loop clk (fare_calculator sys)).1.
Proof.
  cbn [step]. by destruct (FareCalculator._calculation_loop _ _).
Qed.

End PrivatePage.

(** X12.  Nothing in the wired meter stops a private trip:
    [RickyUI.update_mode] assigns [self.current_mode = mode] before its
    [elif self.current_mode == "Private" and mode != "Private"], so it
    never calls [stop_private_mode].  Once the engine's private trip is
    active it stays active whatever the switch, the passengers, the GPS
    and the calculation loop do; selecting Private again only restarts
    it. *)
Theorem private_trip_is_never_stopped
    (events : list System.event) (sys : System.state) :
  FareCalculator.private_mode_active (System.fare_calculator sys) = true →
  FareCalculator.private_mode_active
    (System.fare_calculator (System.run events sys)) = true.
Proof. apply run_private. Qed.

(** The switch goes to Private, then to For Hire: controller and display
    are in For Hire, the engine's private trip is still active after the
    next pass of the calculation loop. *)
Lemma private_trip_witness :
  let clk t := {| datetime_now := t; time_time := t |} in
  let sys0 := System.session (clk 0) [] (clk 1) [] in
  let sys1 := System.run [System.Mode_poll (System.switch_at "mode_private")
                            (clk 10)] sys0 in
  let sys2 := System.run [System.Mode_poll (System.switch_at "mode_for_hire")
                            (clk 20)] sys1 in
  let sys3 := System.run [System.Calculation (clk 21)] sys2 in
  FareCalculator.private_mode_active (System.fare_calculator sys1) = true
  ∧ ModeController.current_mode (System.mode_controller sys2)
    = "For Hire"%string
  ∧ RickyUI.current_mode (System.ui sys2) = "For Hire"%string
  ∧ FareCalculator.private_mode_active (System.fare_calculator sys3) = true.
Proof.
  intros clk sys0 sys1 sys2 sys3.
  assert (H1 : FareCalculator.private_mode_active (System.fare_calculator sys1)
               = true) by reflexivity.
  split; [exact H1 |]. split; [reflexivity |]. split; [reflexivity |].
  apply (private_trip_is_never_stopped
           [System.Mode_poll (System.switch_at "mode_for_hire") (clk 20);
            System.Calculation (clk 21)] sys1 H1).
Defined.

(** X13.  Sampler, mode controller and display agree on the mode: in
    every session, however the threads ran before
    [mode_controller.start()] and after it, the controller's mode and the
    display's mode are the mode the sampler holds, and the page shown is
    the page of that mode. *)
Theorem modes_stay_in_step
    (clk0 clk : clock) (early later : list System.event) :
  System.mode_synced (System.session clk0 early clk later).
Proof.
  unfold System.session.
  assert (Hpos0 : System.position
                    (GPIOManager.current_mode (System.gpio (System.init clk0)))).
  { unfold System.position. cbn. auto. }
  destruct (run_mode early (System.init clk0) Hpos0)
    as (Hpos1 & Hact1 & _ & Hidle).
  destruct (Hidle eq_refl) as (Hm & Hu1 & Hu2).
  destruct (start_mode_controller_synced clk
              (System.run early (System.init clk0)))
    as (Hg & Hact & Hsync); try done.
  set (sys1 := System.start_mode_controller clk _) in *.
  destruct (run_mode later sys1) as (_ & _ & Hkeep & _).
  - by rewrite Hg.
  - by apply Hkeep.
Qed.

(** X14.  Sampler and fare engine agree on who is aboard: in every
    session the [onboard] flags of the engine's slots are the
    [passenger_states] of the sampler, whatever the mode; every change of
    a passenger switch the sampler reports is a boarding or an alighting
    for the engine. *)
Theorem passengers_stay_in_step
    (clk0 clk : clock) (early later : list System.event) :
  System.passengers_synced (System.session clk0 early clk later).
Proof.
  unfold System.session. apply run_passengers.
  assert (H0 : System.passengers_synced (System.run early (System.init clk0)))
    by (by apply run_passengers).
  unfold System.passengers_synced in *.
  by destruct (start_mode_controller_frame clk
                 (System.run early (System.init clk0))) as (-> & -> & _).
Qed.

(** X15.  The private page never shows the private fare:
    [total_fare_updated] has no slot, and the page's fare is written by
    [update_fares] only, from a passenger slot's [fare_updated].  In a
    session in which no passenger switch is ever closed the fare on the
    private page stays 0.0, whatever the engine charges the trip. *)
Theorem private_fare_is_never_shown
    (clk0 clk : clock) (early later : list System.event) :
  Forall System.nobody_aboard (early ++ later) →
  RickyUI.private_total_fare (System.ui (System.session clk0 early clk later))
  = 0.0.
Proof.
  intros He. apply Forall_app in He as [He Hl]. unfold System.session.
  destruct (run_private_page early (System.init clk0) He)
    as (Hs1 & Hoff1 & Hf1); try done.
  { cbn. repeat constructor. }
  destruct (start_mode_controller_frame clk
              (System.run early (System.init clk0))) as (Hg & Hp & Hf).
  set (sys1 := System.start_mode_controller clk _) in *.
  apply (run_private_page later sys1 Hl).
  - unfold System.passengers_synced in *. by rewrite Hg, Hp.
  - by rewrite Hp.
  - by rewrite Hf.
Qed.

(** A private trip of 22 m, then two seconds later a pass of the loop:
    the engine holds a fare above zero, the private page shows 0.0. *)
Lemma private_page_witness :
  let clk t := {| datetime_now := t; time_time := t |} in
  let moved := GPSManager.on_gpvtg 15
                 (GPSManager.on_gpgga 19.0762 72.8777 GPSManager.init) in
  let later := [System.Mode_poll (System.switch_at "mode_private") (clk 10);
                System.Gps moved; System.Calculation (clk 12)] in
  let sys := System.session (clk 0) [] (clk 1) later in
  0 < FareCalculator.private_fare (System.fare_calculator sys)
  ∧ RickyUI.current_mode (System.ui sys) = "Private"%string
  ∧ RickyUI.private_total_fare (System.ui sys) = 0.0.
Proof.
  intros clk moved later sys.
  assert (Hshown : RickyUI.private_total_fare (System.ui sys) = 0.0).
  { apply (private_fare_is_never_shown (clk 0) (clk 1) [] later).
    repeat constructor. }
  assert (Hmode : RickyUI.current_mode (System.ui sys) = "Private"%string).
  { unfold sys, System.session, later.
    rewrite (run_app [System.Mode_poll (System.switch_at "mode_private") (clk 10);
                      System.Gps moved] [System.Calculation (clk 12)]).
    set (sys2 := System.run [System.Mode_poll _ _; System.Gps moved] _).
    assert (H2 : RickyUI.current_mode (System.ui sys2) = "Private"%string)
      by reflexivity.
    clearbody sys2. cbn [System.run fold_left System.step].
    destruct (FareCalculator._calculation_loop _ _) as [f sigs].
    cbn [System.ui].
    by destruct (on_fare_signals_display sigs (System.ui sys2)) as (-> & _). }
  split; [| by split].
  unfold sys, System.session, later.
  rewrite (run_app [System.Mode_poll (System.switch_at "mode_private") (clk 10);
                    System.Gps moved] [System.Calculation (clk 12)]).
  set (sys2 := System.run [System.Mode_poll _ _; System.Gps moved] _).
  set (st := System.fare_calculator sys2).
  assert (Hact : FareCalculator.private_mode_active st = true) by reflexivity.
  assert (Hloc : FareCalculator.private_last_location st
                 = Some (19.0760, 72.8777)) by reflexivity.
  assert (Hupd : FareCalculator.last_gps_update st = 0) by reflexivity.
  assert (Hfare : FareCalculator.private_fare st = 0.0) by reflexivity.
  assert (Hrate : FareCalculator.fare_rate_per_km st = 12.0) by reflexivity.
  assert (Hgps : FareCalculator.gps_manager st = moved) by reflexivity.
  assert (Hoff : FareCalculator.passengers st
                 = replicate 3 FareCalculator.empty_passenger) by reflexivity.
  change (System.run [System.Calculation (clk 12)] sys2)
    with (System.step (System.Calculation (clk 12)) sys2).
  rewrite step_calculation. fold st.
  clearbody st. clear sys2.
  unfold FareCalculator._calculation_loop.
  rewrite Hupd. unfold clk at 1. cbn [time_time].
  destruct (Rle_dec 1.0 (12 - 0)); [| lra].
  rewrite update_onboard_offboard by (rewrite Hoff; repeat constructor).
  set (s1 := FareCalculator.set_passengers _ st).
  assert (Hact1 : FareCalculator.private_mode_active s1 = true) by exact Hact.
  rewrite Hact1.
  assert (Hloc1 : FareCalculator.private_last_location s1
                  = Some (19.0760, 72.8777)) by exact Hloc.
  destruct (update_private_fare_tick (clk 12)
              s1 (19.0760, 72.8777)
              (GPSManager.get_location (FareCalculator.gps_manager st))
              (GPSManager.get_speed (FareCalculator.gps_manager st))
              (12 - 0) Hloc1) as (Hf & _).
  rewrite Hgps in Hf.
  change (GPSManager.get_location moved) with (19.0762, 72.8777) in Hf.
  cbn [FareCalculator._calculate_distance fst snd] in Hf.
  rewrite mumbai_step_distance in Hf.
  change (FareCalculator.private_fare s1)
    with (FareCalculator.private_fare st) in Hf.
  change (FareCalculator.fare_rate_per_km s1)
    with (FareCalculator.fare_rate_per_km st) in Hf.
  rewrite Hfare, Hrate in Hf.
  unfold FareCalculator.waiting_charge_per_minute in Hf.
  pose proof mumbai_step_above_floor as Hfloor.
  destruct (Rlt_dec 0.005 _) as [_ | Hn] in Hf; [| lra].
  rewrite Hgps.
  destruct (FareCalculator._update_private_fare _ _ _ _ s1) as [s2 e2].
  cbn [fst snd FareCalculator.private_fare
       FareCalculator.set_last_gps_update] in *.
  rewrite Hf. destruct (Rlt_dec _ _); lra.
Defined.

(** ** The emergency banner *)

(** X16.  After a deactivation the banner of the display shows the
    emergency: [SOSStatusWidget.update_status] looks for "ACTIVATED" in
    the upper-cased status, and the status of a deactivation,
    "SOS Deactivated - Normal", holds it inside "DEACTIVATED".  So when
    an active SOS is ended by the release of the button, the machine is
    back to NORMAL and the banner reads EMERGENCY SOS ACTIVE. *)
Theorem banner_shows_emergency_after_deactivation
    (s : SOSSystem.state) (u : RickyUI.state) :
  SOSSystem.sos_active s = true → SOSSystem.countdown_active s = false →
  let r := SOSSystem.handle_sos_button_release s in
  let banner := RickyUI.sos_widget (System.on_sos_signals r.2 u) in
  SOSSystem.get_sos_status r.1 = "NORMAL"%string
  ∧ SOSStatusWidget.status_label banner = "🚨 EMERGENCY SOS ACTIVE! 🚨"%string
  ∧ SOSStatusWidget.status_style banner = SOSStatusWidget.Active.
Proof.
  intros Ha Hc. unfold SOSSystem.handle_sos_button_release.
  rewrite Hc. rewrite Ha. unfold SOSSystem.deactivate_sos. rewrite Ha.
  cbn [fst snd]. unfold SOSSystem.get_sos_status. cbn [SOSSystem.sos_active
    SOSSystem.countdown_active]. rewrite Hc.
  split; [reflexivity |]. split; reflexivity.
Qed.

(** The machine as the five-second hold leaves it, the display as
    [__init__] leaves it. *)
Lemma banner_witness :
  let s := {| SOSSystem.sos_active := true;
              SOSSystem.countdown_active := false;
              SOSSystem.current_countdown := 1 |} in
  let r := SOSSystem.handle_sos_button_release s in
  SOSSystem.get_sos_status r.1 = "NORMAL"%string
  ∧ SOSStatusWidget.status_style
      (RickyUI.sos_widget (System.on_sos_signals r.2 RickyUI.init))
    = SOSStatusWidget.Active.
Proof.
  intros s r.
  destruct (banner_shows_emergency_after_deactivation s RickyUI.init
              eq_refl eq_refl) as (H1 & _ & H3).
  split; [exact H1 | exact H3].
Defined.

(** ** What every run of the emergency line keeps *)

Section Sampling.

Import GPIOManager Timeline TimelineRuns.
Local Open Scope Z_scope.

Lemma grid_add t d :
  0 ≤ t ∧ t mod 50 = 0 → 0 ≤ d ∧ d mod 50 = 0 →
  0 ≤ t + d ∧ (t + d) mod 50 = 0.
Proof.
  intros [Ht Hm] [Hd Hdm]. split; [lia |].
  rewrite Z.add_mod by lia. rewrite Hm, Hdm. reflexivity.
Qed.

Lemma sos_cycle_on_grid pc lvl ms :
  sos_cycle !! pc = Some (lvl, ms) → 0 ≤ ms ∧ ms mod 50 = 0.
Proof.
  intros H.
  assert (Hall : Forall (λ e : option level * Z, 0 ≤ e.2 ∧ e.2 mod 50 = 0)
                   sos_cycle).
  { repeat constructor; cbn; lia. }
  rewrite Forall_lookup in Hall. exact (Hall pc _ H).
Qed.

Lemma monitor_timely line t pc g s :
  timely t (_monitor_sos_button line t pc g s).
Proof.
  unfold timely, _monitor_sos_button.
  destruct pc as [| press_start], line.
  - destruct (negb (running g)); [by split |].
    destruct (SOSSystem.handle_sos_button_press s) as [s1 [|]]; cbn;
      (split; [intros r [= <-]; exists 0; cbn; split; [done | lia] |]);
      by repeat constructor.
  - destruct (negb (running g)); [by split |]. cbn.
    split; [| done]. intros r [= <-]. by exists 50.
  - destruct (5000 <=? t - press_start).
    + destruct (negb (sos_active g)); cbn;
        (split; [intros r [= <-]; by exists 50 |]); by repeat constructor.
    + cbn. split; [| done]. intros r [= <-]. by exists 100.
  - destruct (t - press_start <? 5000).
    + destruct (SOSSystem.handle_sos_button_release s) as [s1 sigs].
      destruct (sos_active g); cbn;
        (split; [intros r [= <-]; by exists 50 | done]).
    + cbn. split; [| done]. intros r [= <-]. by exists 50.
Qed.

Lemma countdown_timely t remaining g s :
  timely t (countdown_thread_step t remaining g s).
Proof.
  unfold timely, countdown_thread_step.
  destruct (SOSSystem._countdown_loop t remaining s) as [[s1 sigs] [rest |]];
    cbn; (split; [| done]); [| done].
  intros r [= <-]. by exists 1000.
Qed.

Lemma pattern_timely t pc g s : timely t (_sos_pattern t pc g s).
Proof.
  unfold timely, _sos_pattern.
  destruct (_ && _); [by split |].
  destruct (sos_cycle !! pc) as [[lvl ms] |] eqn:Hpc; [| by split].
  cbn. split; [| done]. intros r [= <-]. exists ms.
  split; [by apply (sos_cycle_on_grid pc lvl) | done].
Qed.

Lemma step_with_on_grid l w : on_grid w → on_grid (step_with l w).
Proof.
  intros [Hnow Hg]. unfold step_with.
  destruct (earliest (threads w)) as [i |]; [| by split].
  destruct (threads w !! i) as [[t th] |] eqn:Hi; [| by split].
  assert (Ht : 0 ≤ t ∧ t mod 50 = 0).
  { rewrite Forall_lookup in Hg. exact (Hg i _ Hi). }
  set (e := match th with
            | Monitor pc => _ | Countdown remaining => _ | Pattern pc => _
            end).
  assert (He : timely t e).
  { subst e. destruct th as [pc | remaining | pc];
      [apply monitor_timely | apply countdown_timely | apply pattern_timely]. }
  clearbody e. destruct He as [Hres Hsp].
  split; [exact Ht |]. cbn [threads].
  apply Forall_app. split.
  - destruct (resume e) as [r |].
    + apply Forall_insert; [exact Hg |].
      destruct (Hres r eq_refl) as (d & Hd & ->). by apply grid_add.
    + by apply Forall_delete.
  - eapply Forall_impl; [exact Hsp |]. by intros th' ->.
Qed.

Lemma start_on_grid : on_grid start.
Proof. split; [done |]. by repeat constructor. Qed.

Lemma run_on_grid line n w : on_grid w → on_grid (run line n w).
Proof.
  intros Hw. induction n as [| n IH]; [exact Hw |].
  cbn [run]. by apply step_with_on_grid.
Qed.

Lemma next_time_on_grid w :
  on_grid w → 0 ≤ next_time w ∧ next_time w mod 50 = 0.
Proof.
  intros [Hnow Hg]. unfold next_time.
  destruct (earliest (threads w)) as [i |]; [| exact Hnow].
  destruct (threads w !! i) as [[t th] |] eqn:Hi; [| exact Hnow].
  rewrite Forall_lookup in Hg. exact (Hg i _ Hi).
Qed.

(** A run reads the line at multiples of 50 ms only. *)
Lemma run_sampled line line' n :
  (∀ k, 0 ≤ k → line (50 * k) = line' (50 * k)) →
  run line n start = run line' n start.
Proof.
  intros Hl. induction n as [| n IH]; [done |].
  cbn [run]. rewrite IH. unfold step. f_equal.
  destruct (next_time_on_grid (run line' n start)) as [H0 Hm].
  { apply run_on_grid, start_on_grid. }
  set (t := next_time _) in *. clearbody t.
  replace t with (50 * (t / 50)).
  - apply Hl. apply Z.div_pos; lia.
  - pose proof (Z.div_mod t 50 ltac:(lia)). lia.
Qed.

Lemma held_until_sampled release k :
  held_until release (50 * k) = held_until (50 * ((release + 49) / 50)) (50 * k).
Proof.
  unfold held_until.
  pose proof (Z.div_mod (release + 49) 50 ltac:(lia)) as Hd.
  pose proof (Z.mod_pos_bound (release + 49) 50 ltac:(lia)) as Hm.
  destruct (Z.ltb_spec (50 * k) release),
           (Z.ltb_spec (50 * k) (50 * ((release + 49) / 50)));
    (reflexivity || lia).
Qed.

(** The run on a line released at [release] is the run on the line
    released at the next multiple of 50 ms. *)
Lemma run_held_until_sampled release n :
  run (held_until release) n start
  = run (held_until (50 * ((release + 49) / 50))) n start.
Proof. apply run_sampled. intros k _. apply held_until_sampled. Qed.

End Sampling.

Section Steady.

Import GPIOManager Timeline TimelineRuns.
Local Open Scope Z_scope.








End Steady.


(** X18.  The sampler reads the emergency line when a thread of its
    wakes up, at multiples of 50 ms: a line that reads HIGH at each of
    them, whatever it does in between, leaves no trace, neither signal
    nor output, and the machine stays at rest. *)
Theorem pulses_between_polls_are_never_seen
    (line : Z → GPIOManager.level) :
  (∀ k, (0 ≤ k)%Z → line (50 * k)%Z = GPIOManager.HIGH) →
  ∀ n, let w := Timeline.run line n Timeline.start in
       Timeline.log w = []
       ∧ Timeline.sos w = SOSSystem.init
       ∧ Timeline.gpio w = Timeline.gpio Timeline.start.
Proof.
  intros Hl n.
  assert (Hsame : Timeline.run line n Timeline.start
                  = Timeline.run (Timeline.held_until 0) n Timeline.start).
  { apply run_sampled. intros k Hk. rewrite (Hl k Hk).
    unfold Timeline.held_until.
    by destruct (Z.ltb_spec (50 * k) 0); [lia |]. }
  cbn zeta. rewrite Hsame.
  assert (Hq : Timeline.quiet 0 Timeline.start).
  { split; [reflexivity |]. by exists 0%Z. }
  destruct (quiet_run 0 n _ Hq) as (_ & Hs & Hg & Hlog).
  rewrite Hs, Hg, Hlog. by repeat split.
Qed.

(** A press of 30 ms between the polls of 4.90 s and 4.95 s. *)
Lemma unseen_pulse_witness :
  let w := Timeline.run (TimelineRuns.tap 4910 4940) 200 Timeline.start in
  Timeline.log w = [] ∧ Timeline.sos w = SOSSystem.init.
Proof.
  intros w.
  destruct (pulses_between_polls_are_never_seen (TimelineRuns.tap 4910 4940))
    with (n := 200%nat) as (H1 & H2 & _).
  { intros k Hk. unfold TimelineRuns.tap.
    destruct (Z.leb_spec 4910 (50 * k)), (Z.ltb_spec (50 * k) 4940);
      (reflexivity || lia). }
  split; [exact H1 | exact H2].
Defined.

(** ** When the button is let go *)

Section Release.

Import GPIOManager Timeline TimelineRuns.
Local Open Scope Z_scope.

Lemma release_signalled_log w w' :
  log w = log w' → release_signalled w = release_signalled w'.
Proof. unfold release_signalled. by intros ->. Qed.

Lemma activated_at_log t w w' :
  log w = log w' → activated_at t w = activated_at t w'.
Proof. unfold activated_at. by intros ->. Qed.

Lemma buzzer_high_after_log t w w' :
  log w = log w' → buzzer_high_after t w = buzzer_high_after t w'.
Proof. unfold buzzer_high_after. by intros ->. Qed.

Lemma deactivated_between_log lo hi w w' :
  log w = log w' → deactivated_between lo hi w = deactivated_between lo hi w'.
Proof. unfold deactivated_between. by intros ->. Qed.

(** The next multiple of 50 ms. *)
Lemma next_poll release :
  let c := (release + 49) / 50 in 50 * (c - 1) < release ≤ 50 * c.
Proof.
  intros c. unfold c.
  pose proof (Z.div_mod (release + 49) 50 ltac:(lia)).
  pose proof (Z.mod_pos_bound (release + 49) 50 ltac:(lia)). lia.
Qed.

(** What stays of a run once only the idle monitor is left and the line
    is released. *)
Lemma quiet_from release n0 n :
  quiet release (run (held_until release) n0 start) → (n0 ≤ n)%nat →
  sos (run (held_until release) n start)
  = sos (run (held_until release) n0 start)
  ∧ gpio (run (held_until release) n start)
    = gpio (run (held_until release) n0 start)
  ∧ log (run (held_until release) n start)
    = log (run (held_until release) n0 start).
Proof.
  intros Hq Hn. replace n with ((n - n0) + n0)%nat by lia.
  rewrite run_plus. by destruct (quiet_run release (n - n0) _ Hq) as (_ & H).
Qed.

(** The alarm of the sampler, once it runs with nothing but the idle
    monitor beside it and the line released, runs on: the pattern thread
    writes to its two outputs and nothing else happens. *)
Lemma alarmed_step release w :
  alarmed release w →
  let w' := step (held_until release) w in
  alarmed release w' ∧ sos w' = sos w ∧ gpio w' = gpio w
  ∧ ∃ outs, forallb is_output outs = true ∧ log w' = log w ++ outs.
Proof.
  intros (Hrun & Hact & t & t' & pc & Ht & Hpc & Hth).
  unfold step, next_time, step_with. rewrite Hth.
  cbn [earliest earliest_from fst snd].
  destruct (Z.ltb_spec t' t) as [Hlt | Hle]; cbn [fst lookup list_lookup].
  - unfold _sos_pattern. rewrite Hact, Hrun, andb_false_r.
    destruct (sos_cycle !! pc) as [[lvl ms] |] eqn:Hc.
    2: { apply lookup_ge_None in Hc. lia. }
    cbn. split; [| split; [done | split; [done |]]].
    + split; [done |]. split; [done |].
      exists t, (t' + ms), (if (S pc =? length sos_cycle)%nat then 0%nat
                            else S pc).
      split; [done |]. split; [| done].
      destruct (Nat.eqb_spec (S pc) (length sos_cycle)); [cbn |]; lia.
    + eexists. split; [| reflexivity]. by destruct lvl as [[|] |].
  - unfold held_until. destruct (Z.ltb_spec t release); [lia |].
    cbn. rewrite Hrun. cbn. split; [| split; [done | split; [done |]]].
    + split; [done |]. split; [done |].
      exists (t + 50), t', pc. split; [lia |]. by split.
    + exists []. by rewrite app_nil_r.
Qed.

Lemma existsb_outputs {f : Z * event → bool} outs :
  (∀ ev, is_output ev = true → f ev = false) →
  forallb is_output outs = true → existsb f outs = false.
Proof.
  intros Hf Ho. induction outs as [| ev outs IH]; [done |].
  cbn in Ho |- *. apply andb_true_iff in Ho as [H1 H2].
  by rewrite (Hf ev H1), IH.
Qed.

Lemma alarmed_run release n w :
  alarmed release w →
  let w' := run (held_until release) n w in
  alarmed release w' ∧ sos w' = sos w ∧ gpio w' = gpio w
  ∧ release_signalled w' = release_signalled w
  ∧ activated_at 5000 w' = activated_at 5000 w.
Proof.
  intros Ha. induction n as [| n (IH & Hs & Hg & Hr & Hact)]; [done |].
  cbn [run]. cbn zeta in *.
  destruct (alarmed_step _ _ IH) as (H1 & H2 & H3 & outs & Ho & Hl).
  cbn zeta in *. split; [exact H1 |].
  split; [congruence |]. split; [congruence |].
  unfold release_signalled, activated_at in *. rewrite Hl, !existsb_app.
  rewrite Hr, Hact.
  split; (rewrite (existsb_outputs outs); [apply orb_false_r | | exact Ho]);
    by intros [? [| |]].
Qed.

End Release.

(** X19.  A release in the last tenth of a second of the countdown is
    lost.  The hold loop of the sampler next reads the line at second 5,
    where [hold_time < 5.0] fails, so no release is signalled; the
    countdown thread, never cancelled, activates the SOS machine at
    second 5, and it stays Active for ever after, although the button
    was let go before the five seconds were over.  The alarm of the
    sampler, which needs the line LOW at second 5, never starts: the
    buzzer is never driven HIGH. *)
Theorem release_in_last_tenth_activates_silently (release : Z) :
  (4900 < release ≤ 5000)%Z →
  ∀ n, (58 ≤ n)%nat →
       let w := Timeline.run (Timeline.held_until release) n Timeline.start in
       SOSSystem.get_sos_status (Timeline.sos w) = "SOS_ACTIVE"%string
       ∧ TimelineRuns.activated_at 5000 w = true
       ∧ Timeline.release_signalled w = false
       ∧ GPIOManager.sos_active (Timeline.gpio w) = false
       ∧ Timeline.buzzer_high_after 0 w = false.
Proof.
  intros Hr n Hn. cbn zeta.
  pose proof (next_poll release) as Hc. cbn zeta in Hc.
  rewrite run_held_until_sampled.
  set (c := ((release + 49) / 50)%Z) in *. clearbody c.
  assert (Hq : Timeline.quiet (50 * c)
                 (Timeline.run (Timeline.held_until (50 * c)) 58
                    Timeline.start)
               ∧ ∀ w, Timeline.sos w
                      = Timeline.sos (Timeline.run
                          (Timeline.held_until (50 * c)) 58 Timeline.start) →
                      Timeline.gpio w
                      = Timeline.gpio (Timeline.run
                          (Timeline.held_until (50 * c)) 58 Timeline.start) →
                      Timeline.log w
                      = Timeline.log (Timeline.run
                          (Timeline.held_until (50 * c)) 58 Timeline.start) →
                      SOSSystem.get_sos_status (Timeline.sos w)
                      = "SOS_ACTIVE"%string
                      ∧ TimelineRuns.activated_at 5000 w = true
                      ∧ Timeline.release_signalled w = false
                      ∧ GPIOManager.sos_active (Timeline.gpio w) = false
                      ∧ Timeline.buzzer_high_after 0 w = false).
  { assert (Hcc : c = 99%Z ∨ c = 100%Z) by lia.
    destruct Hcc as [-> | ->].
    - split.
      + split; [vm_compute; reflexivity |].
        exists 5050%Z. split; [lia | vm_compute; reflexivity].
      + intros w Hs Hg Hl.
        rewrite Hs, Hg, (activated_at_log _ _ _ Hl),
          (release_signalled_log _ _ Hl), (buzzer_high_after_log _ _ _ Hl).
        vm_compute. repeat split; reflexivity.
    - split.
      + split; [vm_compute; reflexivity |].
        exists 5050%Z. split; [lia | vm_compute; reflexivity].
      + intros w Hs Hg Hl.
        rewrite Hs, Hg, (activated_at_log _ _ _ Hl),
          (release_signalled_log _ _ Hl), (buzzer_high_after_log _ _ _ Hl).
        vm_compute. repeat split; reflexivity. }
  destruct Hq as [Hq Hfacts].
  destruct (quiet_from (50 * c) 58 n Hq Hn) as (Hs & Hg & Hl).
  exact (Hfacts _ Hs Hg Hl).
Qed.

(** The button let go 4.93 s after the press. *)
Lemma last_tenth_witness :
  let w := Timeline.run (Timeline.held_until 4930) 400 Timeline.start in
  SOSSystem.get_sos_status (Timeline.sos w) = "SOS_ACTIVE"%string
  ∧ Timeline.release_signalled w = false
  ∧ Timeline.buzzer_high_after 0 w = false.
Proof.
  intros w.
  destruct (release_in_last_tenth_activates_silently 4930 ltac:(lia) 400
              ltac:(lia)) as (H1 & _ & H3 & _ & H5).
  split; [exact H1 |]. split; [exact H3 | exact H5].
Defined.

(** X20.  A release in the 50 ms after the activation is lost as well.
    At second 5 the hold loop finds the line LOW, starts the alarm of
    the sampler and leaves by [break]; the line is next read at second
    5.05 by the edge test, which sees it HIGH as before a press.  The
    release is never signalled, and the SOS machine and the alarm stay
    on for ever after: only a new press and release ends them. *)
Theorem release_just_after_activation_is_never_seen (release : Z) :
  (5000 < release ≤ 5050)%Z →
  ∀ n, (58 ≤ n)%nat →
       let w := Timeline.run (Timeline.held_until release) n Timeline.start in
       SOSSystem.get_sos_status (Timeline.sos w) = "SOS_ACTIVE"%string
       ∧ TimelineRuns.activated_at 5000 w = true
       ∧ Timeline.release_signalled w = false
       ∧ TimelineRuns.alarmed release w.
Proof.
  intros Hr n Hn. cbn zeta.
  set (w58 := Timeline.run (Timeline.held_until release) 58 Timeline.start).
  assert (H58 : w58 = Timeline.run (Timeline.held_until 5050) 58
                        Timeline.start).
  { unfold w58. rewrite run_held_until_sampled.
    pose proof (next_poll release) as Hc. cbn zeta in Hc.
    replace ((release + 49) / 50)%Z with 101%Z by lia. reflexivity. }
  assert (Ha : TimelineRuns.alarmed release w58).
  { rewrite H58. split; [vm_compute; reflexivity |].
    split; [vm_compute; reflexivity |].
    exists 5050%Z, 5000%Z, 0%nat.
    split; [lia |]. split; [vm_compute; lia | vm_compute; reflexivity]. }
  replace n with ((n - 58) + 58)%nat by lia. rewrite run_plus. fold w58.
  destruct (alarmed_run release (n - 58) w58 Ha) as (H1 & H2 & _ & H4 & H5).
  cbn zeta in *. clearbody w58. rewrite H2, H4, H5.
  split; [rewrite H58; vm_compute; reflexivity |].
  split; [rewrite H58; vm_compute; reflexivity |].
  split; [rewrite H58; vm_compute; reflexivity | exact H1].
Qed.

(** The button let go 5.02 s after the press. *)
Lemma after_activation_witness :
  let w := Timeline.run (Timeline.held_until 5020) 400 Timeline.start in
  SOSSystem.get_sos_status (Timeline.sos w) = "SOS_ACTIVE"%string
  ∧ Timeline.release_signalled w = false
  ∧ GPIOManager.sos_active (Timeline.gpio w) = true.
Proof.
  intros w.
  destruct (release_just_after_activation_is_never_seen 5020 ltac:(lia) 400
              ltac:(lia)) as (H1 & _ & H3 & _ & H5 & _).
  split; [exact H1 |]. split; [exact H3 | exact H5].
Defined.

Section Again.

Import GPIOManager Timeline TimelineRuns.
Local Open Scope Z_scope.

(** Releases at a multiple of 50 ms from 5.1 s to 9.95 s, by
    evaluation. *)
Lemma grid_releases_deactivate :
  forallb (deactivates_cleanly 300) (map Z.of_nat (seq 102 98)) = true.
Proof. vm_compute. reflexivity. Qed.

Lemma deactivates_cleanly_facts c :
  deactivates_cleanly 300 c = true →
  let w := run (held_until (50 * c)) 300 start in
  quiet (50 * c) w
  ∧ SOSSystem.get_sos_status (sos w) = "NORMAL"%string
  ∧ sos_active (gpio w) = false
  ∧ activated_at 5000 w = true
  ∧ deactivated_between (50 * c) (50 * c + 50) w = true.
Proof.
  unfold deactivates_cleanly. cbn zeta.
  generalize (run (held_until (50 * c)) 300 start). intros w Hc.
  destruct (threads w) as [| [t [[| ?] | ? | ?]] [| ? ?]] eqn:Hth;
    rewrite ?andb_false_r in Hc; try discriminate Hc.
  rewrite !andb_true_iff in Hc.
  destruct Hc as [[[[[[Hrun Ha%negb_true_iff] Hcd%negb_true_iff]
                      Hg%negb_true_iff] Hact] Hde] Ht%Z.leb_le].
  split; [split; [exact Hrun | by exists t] |].
  split; [by apply get_sos_status_normal |]. by repeat split.
Qed.

Lemma deactivated_between_weaken lo hi lo' hi' w :
  lo' ≤ lo → hi ≤ hi' →
  deactivated_between lo hi w = true → deactivated_between lo' hi' w = true.
Proof.
  intros Hlo Hhi. unfold deactivated_between.
  rewrite !existsb_exists. intros ([t ev] & Hin & Hev).
  exists (t, ev). split; [exact Hin |].
  destruct ev as [? | [| |] | ?]; try discriminate Hev.
  apply andb_true_iff in Hev as [H1%Z.leb_le H2%Z.leb_le].
  apply andb_true_iff. split; apply Z.leb_le; lia.
Qed.

Lemma countdown_begun_since_weaken t t' w :
  t' ≤ t →
  countdown_begun_since t w = true → countdown_begun_since t' w = true.
Proof.
  intros Ht. unfold countdown_begun_since.
  rewrite !existsb_exists. intros ([u ev] & Hin & Hev).
  exists (u, ev). split; [exact Hin |].
  destruct ev as [? | [msg | |] | ?]; try discriminate Hev.
  apply andb_true_iff in Hev as [H1%Z.leb_le H2].
  apply andb_true_iff. split; [apply Z.leb_le; lia | exact H2].
Qed.

(** The run up to [bound] reads the line at multiples of 50 ms up to
    [bound] only. *)
Lemma run_until_sampled line line' bound fuel :
  (∀ k, 0 ≤ k → 50 * k ≤ bound → line (50 * k) = line' (50 * k)) →
  ∀ w, on_grid w →
       run_until line bound fuel w = run_until line' bound fuel w.
Proof.
  intros Hl. induction fuel as [| fuel IH]; intros w Hw; [done |].
  cbn [run_until].
  destruct (Z.leb_spec (next_time w) bound) as [Hb | Hb]; [| done].
  assert (Hstep : step line w = step line' w).
  { unfold step. f_equal.
    destruct (next_time_on_grid w Hw) as [H0 Hm].
    set (t := next_time w) in *. clearbody t.
    assert (Ht : t = 50 * (t / 50)).
    { pose proof (Z.div_mod t 50 ltac:(lia)). lia. }
    rewrite Ht. apply Hl; [apply Z.div_pos; lia | lia]. }
  rewrite Hstep. apply IH. by apply step_with_on_grid.
Qed.

Lemma held_twice_sampled r p q k :
  50 * k ≤ 5000 → 5000 < q →
  held_twice r p q (50 * k)
  = held_twice (50 * ((r + 49) / 50)) (50 * ((p + 49) / 50)) 5050 (50 * k).
Proof.
  intros Hk Hq. unfold held_twice.
  pose proof (next_poll r) as Hr. pose proof (next_poll p) as Hp.
  cbn zeta in Hr, Hp.
  set (cr := (r + 49) / 50) in *. set (cp := (p + 49) / 50) in *.
  clearbody cr cp.
  destruct (Z.ltb_spec (50 * k) r), (Z.ltb_spec (50 * k) (50 * cr)),
           (Z.leb_spec p (50 * k)), (Z.leb_spec (50 * cp) (50 * k)),
           (Z.ltb_spec (50 * k) q), (Z.ltb_spec (50 * k) 5050);
    (reflexivity || lia).
Qed.

(** Releases and second presses at multiples of 50 ms within the last
    second of the countdown, by evaluation. *)
Lemma grid_second_presses_reactivate :
  forallb (λ i, forallb (λ j, if i + 2 <=? j
                              then reactivates (50 * i) (50 * j) else true)
                  (map Z.of_nat (seq 83 17)))
    (map Z.of_nat (seq 81 17)) = true.
Proof. vm_compute. reflexivity. Qed.

Lemma reactivates_facts rr pp :
  reactivates rr pp = true →
  let w := run_until (held_twice rr pp 5050) 5000 200 start in
  now w = 5000 ∧ 5000 < next_time w
  ∧ cancel_signalled w = true
  ∧ countdown_begun_since pp w = true
  ∧ SOSSystem.get_sos_status (sos w) = "SOS_ACTIVE"%string
  ∧ sos_active (gpio w) = false
  ∧ activated_at 5000 w = true.
Proof.
  unfold reactivates. cbn zeta.
  generalize (run_until (held_twice rr pp 5050) 5000 200 start).
  intros w Hc. rewrite !andb_true_iff in Hc.
  destruct Hc as [[[[[[Hnow%Z.eqb_eq Hnext%Z.ltb_lt] Hcan] Hbeg] Hact]
                    Hg%negb_true_iff] Hsig].
  unfold SOSSystem.get_sos_status. rewrite Hact. by repeat split.
Qed.

End Again.

(** X21.  A release from 5.05 s up to 9.95 s after the press, to the
    millisecond, ends the emergency: the SOS machine, activated at
    second 5, signals its deactivation at the next poll of the hold
    loop, within a tenth of a second of the release, and machine and
    sampler are at rest for ever after. *)
Theorem release_after_activation_deactivates (release : Z) :
  (5050 < release ≤ 9950)%Z →
  ∀ n, (300 ≤ n)%nat →
       let w := Timeline.run (Timeline.held_until release) n Timeline.start in
       TimelineRuns.activated_at 5000 w = true
       ∧ TimelineRuns.deactivated_between release (release + 99) w = true
       ∧ SOSSystem.get_sos_status (Timeline.sos w) = "NORMAL"%string
       ∧ GPIOManager.sos_active (Timeline.gpio w) = false.
Proof.
  intros Hr n Hn. cbn zeta.
  pose proof (next_poll release) as Hc. cbn zeta in Hc.
  rewrite run_held_until_sampled.
  set (c := ((release + 49) / 50)%Z) in *. clearbody c.
  assert (Hgrid : TimelineRuns.deactivates_cleanly 300 c = true).
  { pose proof grid_releases_deactivate as Hall.
    rewrite forallb_forall in Hall.
    apply Hall, in_map_iff. exists (Z.to_nat c). split; [lia |].
    apply in_seq. lia. }
  destruct (deactivates_cleanly_facts c Hgrid) as (Hq & Hst & Hg & Hact & Hde).
  destruct (quiet_from (50 * c) 300 n Hq Hn) as (Hs & Hg' & Hl).
  rewrite Hs, Hg', (activated_at_log _ _ _ Hl),
    (deactivated_between_log _ _ _ _ Hl).
  split; [exact Hact |]. split; [| by split].
  apply (deactivated_between_weaken (50 * c) (50 * c + 50)); [lia | lia |].
  exact Hde.
Qed.

(** The button let go 7.321 s after the press. *)
Lemma deactivation_witness :
  let w := Timeline.run (Timeline.held_until 7321) 500 Timeline.start in
  TimelineRuns.deactivated_between 7321 7420 w = true
  ∧ SOSSystem.get_sos_status (Timeline.sos w) = "NORMAL"%string.
Proof.
  intros w.
  destruct (release_after_activation_deactivates 7321 ltac:(lia) 500
              ltac:(lia)) as (_ & H2 & H3 & _).
  split; [exact H2 | exact H3].
Defined.

(** X22.  Letting go and pressing again does not restart the five
    seconds.  The button is let go in the last second of the countdown,
    at [r], pressed again at [p], a tenth of a second later or more and
    by 4.95 s, and held.  The release cancels the countdown and the new
    press begins another; but the cancellation only clears a flag that
    the new press sets again, so the thread of the first countdown goes
    on and activates the SOS machine 5 s after the first press, the
    second press being held for 50 ms to 900 ms only.  The alarm of the
    sampler, which times the second press alone, is silent then. *)
Theorem second_press_inherits_the_first_countdown (r p q : Z) :
  (4000 < r)%Z → (r + 100 ≤ p)%Z → (p ≤ 4950)%Z → (5000 < q)%Z →
  let w := TimelineRuns.run_until (TimelineRuns.held_twice r p q) 5000 200
             Timeline.start in
  Timeline.now w = 5000%Z ∧ (5000 < Timeline.next_time w)%Z
  ∧ Timeline.cancel_signalled w = true
  ∧ TimelineRuns.countdown_begun_since p w = true
  ∧ SOSSystem.get_sos_status (Timeline.sos w) = "SOS_ACTIVE"%string
  ∧ GPIOManager.sos_active (Timeline.gpio w) = false
  ∧ TimelineRuns.activated_at 5000 w = true.
Proof.
  intros Hr Hrp Hp Hq. cbn zeta.
  pose proof (next_poll r) as Hcr. pose proof (next_poll p) as Hcp.
  cbn zeta in Hcr, Hcp.
  rewrite (run_until_sampled _
             (TimelineRuns.held_twice (50 * ((r + 49) / 50))
                (50 * ((p + 49) / 50)) 5050)).
  2: { intros k _ Hk. by apply held_twice_sampled. }
  2: { apply start_on_grid. }
  set (cr := ((r + 49) / 50)%Z) in *. set (cp := ((p + 49) / 50)%Z) in *.
  clearbody cr cp.
  assert (Hgrid : TimelineRuns.reactivates (50 * cr) (50 * cp) = true).
  { pose proof grid_second_presses_reactivate as Hall.
    rewrite forallb_forall in Hall.
    assert (Hi : In cr (map Z.of_nat (seq 81 17))).
    { apply in_map_iff. exists (Z.to_nat cr). split; [lia |].
      apply in_seq. lia. }
    specialize (Hall cr Hi). rewrite forallb_forall in Hall.
    assert (Hj : In cp (map Z.of_nat (seq 83 17))).
    { apply in_map_iff. exists (Z.to_nat cp). split; [lia |].
      apply in_seq. lia. }
    specialize (Hall cp Hj).
    destruct (Z.leb_spec (cr + 2) cp); [exact Hall | lia]. }
  destruct (reactivates_facts _ _ Hgrid)
    as (H1 & H2 & H3 & H4 & H5 & H6 & H7).
  split; [exact H1 |]. split; [exact H2 |]. split; [exact H3 |].
  split; [| by repeat split].
  apply (countdown_begun_since_weaken (50 * cp)); [lia | exact H4].
Qed.

(** The button let go at 4.2 s, pressed again at 4.5 s and held up to
    second 6. *)
Lemma second_press_witness :
  let w := TimelineRuns.run_until (TimelineRuns.held_twice 4200 4500 6000)
             5000 200 Timeline.start in
  Timeline.now w = 5000%Z
  ∧ TimelineRuns.countdown_begun_since 4500 w = true
  ∧ SOSSystem.get_sos_status (Timeline.sos w) = "SOS_ACTIVE"%string.
Proof.
  intros w.
  destruct (second_press_inherits_the_first_countdown 4200 4500 6000
              ltac:(lia) ltac:(lia) ltac:(lia) ltac:(lia))
    as (H1 & _ & _ & H4 & H5 & _).
  split; [exact H1 |]. split; [exact H4 | exact H5].
Defined.
